(** * ShopFlow: cart reducer, checkout validator and order writer

    A shallow embedding of three pieces of the storefront:

    - [Cart.reducer]         (src/context/CartContext.tsx),
    - [Validate.POST]        (POST /api/checkout/validate),
    - [Checkout.handleSubmit] (src/components/checkout/CheckoutClient.tsx),

    together with the properties of them that the specification states.

    JavaScript numbers are IEEE 754 doubles.  A finite double is
    modelled by its value, a rational ([number := Q]); [Math.round],
    [Math.min], [Number.isInteger] and the comparisons are exact on
    such values.  The results of [+], [*] and [/] and of reading a
    numeral are rounded as binary64 rounds them ([Binary64.round]: to
    the nearest double, ties to the even significand, gradual
    underflow), and where the code can observe a result beyond the
    range of the doubles (the validator's total, the totals that the
    cart derives, the numbers that the admin form parses) the result is
    a [jsnumber], which has NaN and the infinities.  Prices, stocks and
    the quantities of cart and request are finite numbers.  The sign of
    zero, which none of the functions below can observe, is left out.
    Strings are sequences of bytes, text outside ASCII being in UTF-8.
    Numeric equalities are stated with [==] ([Qeq]) unless both sides
    are built by the same function. *)

From Stdlib Require Import List String Ascii Bool ZArith QArith Qround Qabs.
From Stdlib Require Import Qreduction Qpower Lia Lqa Permutation.
Import ListNotations.

Local Open Scope string_scope.
Local Open Scope list_scope.
Local Open Scope Q_scope.

(** ** JavaScript numbers *)

Definition number : Type := Q.

(** [Math.min(a, b)] *)
Definition Math_min (a b : number) : number :=
  if Qle_bool a b then a else b.

(** [Math.round(x)]: the integer closest to [x], ties going towards
    plus infinity; on the exact value of [x] that is [floor (x + 1/2)]. *)
Definition Math_round (x : number) : number :=
  inject_Z (Qfloor (x + (1 # 2))).

(** [Number.isInteger(x)] *)
Definition Number_isInteger (x : number) : bool :=
  Qeq_bool (inject_Z (Qfloor x)) x.

(** [a ?? b] on an optional number *)
Definition nullish (a : option number) (b : number) : number :=
  match a with
  | Some v => v
  | None => b
  end.

(** Any number: NaN, an infinity, or a finite double. *)
Inductive jsnumber : Type :=
| NaN
| Infinity (negative : bool)
| Finite (q : number).

(** ** Arithmetic in binary64 *)
Module Binary64.

(** [floor (log2 |x|)], for [x] other than zero. *)
Definition exponent (x : Q) : Z :=
  let e := (Z.log2 (Z.abs (Qnum x)) - Z.log2 (Zpos (Qden x)))%Z in
  if Qle_bool (2 ^ e) (Qabs x) then e else (e - 1)%Z.

(** The integer nearest to [y], the even one of the two when [y] is
    half way between them. *)
Definition nearest_even (y : Q) : Z :=
  let f := Qfloor y in
  match Qcompare (y - inject_Z f) (1 # 2) with
  | Lt => f
  | Gt => (f + 1)%Z
  | Eq => if Z.even f then f else (f + 1)%Z
  end.

(** The unit in the last place of the doubles around [x]: 53 bits of
    significand, and [2 ^ -1074] in the subnormal range. *)
Definition ulp (x : Q) : Q := 2 ^ Z.max (exponent x - 52) (-1074).

(** The double nearest to [x], were the exponent range unbounded
    above; the result is a reduced fraction. *)
Definition round (x : Q) : Q :=
  Qred (inject_Z (nearest_even (x / ulp x)) * ulp x).

(** The number that an operation with the exact result [x] delivers:
    the nearest double, or the infinity of the sign of [x] when that
    double would reach [2 ^ 1024]. *)
Definition of_exact (x : Q) : jsnumber :=
  let r := round x in
  if Qle_bool (2 ^ 1024) (Qabs r)
  then Infinity (negb (Qle_bool 0 x))
  else Finite r.

(** [x + y] *)
Definition plus (x y : jsnumber) : jsnumber :=
  match x, y with
  | NaN, _ | _, NaN => NaN
  | Infinity s, Infinity s' => if Bool.eqb s s' then Infinity s else NaN
  | Infinity s, Finite _ | Finite _, Infinity s => Infinity s
  | Finite a, Finite b => of_exact (a + b)
  end.

(** [x * y] *)
Definition times (x y : jsnumber) : jsnumber :=
  match x, y with
  | NaN, _ | _, NaN => NaN
  | Infinity s, Infinity s' => Infinity (xorb s s')
  | Infinity s, Finite b | Finite b, Infinity s =>
      if Qeq_bool b 0 then NaN else Infinity (xorb s (negb (Qle_bool 0 b)))
  | Finite a, Finite b => of_exact (a * b)
  end.

(** [x / d] for a literal [d] that is a positive whole number. *)
Definition divide_by (x : jsnumber) (d : positive) : jsnumber :=
  match x with
  | Finite a => of_exact (a / inject_Z (Zpos d))
  | _ => x
  end.

(** A function of the finite numbers that gives back NaN and the
    infinities as they are, as [Math.round] does. *)
Definition lift (f : number -> number) (x : jsnumber) : jsnumber :=
  match x with
  | Finite a => Finite (f a)
  | _ => x
  end.

End Binary64.

(** ** JavaScript strings *)

(** The white space of one byte: TAB, LF, VT, FF, CR and the space. *)
Definition is_space (c : ascii) : bool :=
  let n := nat_of_ascii c in
  (Nat.eqb n 32 || (Nat.leb 9 n && Nat.leb n 13))%bool.

(** The white space of two bytes: U+00A0. *)
Definition is_space2 (a b : ascii) : bool :=
  (Nat.eqb (nat_of_ascii a) 194 && Nat.eqb (nat_of_ascii b) 160)%bool.

(** The white space of three bytes: U+1680, U+2000 to U+200A, U+2028,
    U+2029, U+202F, U+205F, U+3000 and U+FEFF. *)
Definition is_space3 (a b c : ascii) : bool :=
  let x := nat_of_ascii a in
  let y := nat_of_ascii b in
  let z := nat_of_ascii c in
  ((Nat.eqb x 225 && Nat.eqb y 154 && Nat.eqb z 128) ||
   (Nat.eqb x 226 && Nat.eqb y 128 &&
    ((Nat.leb 128 z && Nat.leb z 138) ||
     Nat.eqb z 168 || Nat.eqb z 169 || Nat.eqb z 175)) ||
   (Nat.eqb x 226 && Nat.eqb y 129 && Nat.eqb z 159) ||
   (Nat.eqb x 227 && Nat.eqb y 128 && Nat.eqb z 128) ||
   (Nat.eqb x 239 && Nat.eqb y 187 && Nat.eqb z 191))%bool.

(** [s.trimStart()] *)
Fixpoint trimStart (s : string) : string :=
  match s with
  | EmptyString => EmptyString
  | String a r =>
      if is_space a then trimStart r
      else
        match r with
        | String b r' =>
            if is_space2 a b then trimStart r'
            else
              match r' with
              | String c r'' => if is_space3 a b c then trimStart r'' else s
              | EmptyString => s
              end
        | EmptyString => s
        end
  end.

(** The string is white space throughout. *)
Definition all_white (s : string) : bool :=
  match trimStart s with
  | EmptyString => true
  | String _ _ => false
  end.

(** [s.trimEnd()] *)
Fixpoint trimEnd (s : string) : string :=
  match s with
  | EmptyString => EmptyString
  | String a r => if all_white s then EmptyString else String a (trimEnd r)
  end.

(** [s.trim()] *)
Definition trim (s : string) : string := trimEnd (trimStart s).

(** ** Rows of the [products] table, as the code reads them

    [Product] of [@/types/supabase]; only the columns the three
    functions touch. *)
Record Product : Type := mkProduct
  { id : string;
    name : string;
    price : number;
    stock : number }.

(** ** The cart state holder *)
Module Cart.

Record CartItem : Type := mkCartItem
  { product : Product;
    quantity : number }.

Record State : Type := mkState
  { items : list CartItem }.

Inductive Action : Type :=
| ADD (product : Product) (quantity : option number)
| REMOVE (productId : string)
| UPDATE_QTY (productId : string) (quantity : number)
| CLEAR
| HYDRATE (items : list CartItem).

(** [i.product.id === pid] *)
Definition has_id (pid : string) (i : CartItem) : bool :=
  String.eqb (id (product i)) pid.

(** In [ADD] the sum [i.quantity + addQty] is one addition of
    binary64; a sum beyond the largest double is cut down to the stock
    by [Math.min] as any other sum above the stock is (a sum beyond the
    least double, below zero, is left as the rounding gives it). *)
Definition reducer (state : State) (action : Action) : State :=
  match action with
  | ADD p q =>
      let addQty := nullish q 1 in
      let exist := find (has_id (id p)) (items state) in
      let items' :=
        match exist with
        | Some _ =>
            map (fun i =>
                   if has_id (id p) i
                   then {| product := product i;
                           quantity :=
                             Math_min (Binary64.round (quantity i + addQty))
                                      (stock p) |}
                   else i)
                (items state)
        | None =>
            items state ++
            [ {| product := p; quantity := Math_min addQty (stock p) |} ]
        end in
      {| items := items' |}
  | REMOVE pid =>
      {| items := filter (fun i => negb (has_id pid i)) (items state) |}
  | UPDATE_QTY pid q =>
      if Qle_bool q 0
      then {| items := filter (fun i => negb (has_id pid i)) (items state) |}
      else {| items :=
                map (fun i =>
                       if has_id pid i
                       then {| product := product i;
                               quantity := Math_min q (stock (product i)) |}
                       else i)
                    (items state) |}
  | CLEAR => {| items := [] |}
  | HYDRATE its => {| items := its |}
  end.

(** The provider's entry points, each one dispatch. *)
Definition addItem (s : State) (p : Product) (qty : option number) : State :=
  reducer s (ADD p qty).
Definition removeItem (s : State) (pid : string) : State :=
  reducer s (REMOVE pid).
Definition updateQuantity (s : State) (pid : string) (qty : number) : State :=
  reducer s (UPDATE_QTY pid qty).
Definition clearCart (s : State) : State :=
  reducer s CLEAR.

(** Initial state of [useReducer(reducer, { items: [] })]. *)
Definition initial : State := {| items := [] |}.

(** Derived values of the provider. *)
Definition itemCount (s : State) : jsnumber :=
  fold_left (fun acc i => Binary64.plus acc (Finite (quantity i)))
            (items s) (Finite 0).
Definition total (s : State) : jsnumber :=
  fold_left (fun acc i =>
               Binary64.plus acc
                 (Binary64.times (Finite (price (product i)))
                                 (Finite (quantity i))))
            (items s) (Finite 0).

(** States reachable from the initial one through the four public
    operations (hydration from storage is not one of them). *)
Inductive reachable : State -> Prop :=
| reach_init : reachable initial
| reach_add s p q : reachable s -> reachable (addItem s p q)
| reach_remove s pid : reachable s -> reachable (removeItem s pid)
| reach_update s pid q : reachable s -> reachable (updateQuantity s pid q)
| reach_clear s : reachable s -> reachable (clearCart s).

End Cart.

(** ** The checkout validator: POST /api/checkout/validate *)
Module Validate.

(** A field of a parsed JSON entry: the primitive values that
    [JSON.parse] can put there, and [undefined] for an absent field
    (fields holding arrays or objects are left out). *)
Inductive jsval : Type :=
| JUndefined
| JNull
| JBool (b : bool)
| JNum (n : number)
| JStr (s : string).

(** JavaScript truthiness, as used by [!item.product_id]. *)
Definition truthy (v : jsval) : bool :=
  match v with
  | JUndefined | JNull => false
  | JBool b => b
  | JNum n => negb (Qeq_bool n 0)
  | JStr EmptyString => false
  | JStr (String _ _) => true
  end.

Record CartItemPayload : Type := mkPayload
  { product_id : jsval;
    quantity : jsval }.

(** An element of [body.items]: an object, or [null] (reading a field
    of which throws). *)
Abbreviation entry := (option CartItemPayload) (only parsing).

(** What [await request.json()] delivers. *)
Inductive Body : Type :=
| BadJson                               (* the promise rejects *)
| BodyNull                              (* [null]: reading [.items] throws *)
| BodyItems (items : option (list entry)).
                                        (* [None]: absent or not an array *)

(** The caller's identity; [uid] is [user.id]. *)
Record User : Type := mkUser { uid : string }.

Record Request : Type := mkRequest
  { session : option User;              (* [supabase.auth.getUser()] *)
    body : Body }.

(** A template literal: text and interpolated values, in order. *)
Inductive piece : Type :=
| Text (s : string)
| Interp (v : jsval).

Definition template : Type := list piece.

Inductive payload : Type :=
| Valid (valid : bool) (serverTotal : jsnumber)
| Error (error : template).

Record NextResponse : Type := mkResponse
  { status : Z;
    json : payload }.

(** *** Control flow and data access

    A handler threads the log of lookups made against the [products]
    collection, and finishes with a value, an early [return] of a
    response, or a thrown exception. *)
Inductive outcome (A : Type) : Type :=
| Value (a : A)
| Returned (r : NextResponse)
| Thrown.

Arguments Value {A} a.
Arguments Returned {A} r.
Arguments Thrown {A}.

Definition access_log : Type := list jsval.

Definition Handler (A : Type) : Type := access_log -> outcome A * access_log.

Definition ret {A : Type} (a : A) : Handler A :=
  fun log => (Value a, log).

Definition bind {A B : Type} (m : Handler A) (k : A -> Handler B) : Handler B :=
  fun log =>
    match m log with
    | (Value a, log') => k a log'
    | (Returned r, log') => (Returned r, log')
    | (Thrown, log') => (Thrown, log')
    end.

Notation "x <- m ;; k" := (bind m (fun x => k))
  (at level 61, m at next level, right associativity).

Definition respond {A : Type} (r : NextResponse) : Handler A :=
  fun log => (Returned r, log).

Definition throw {A : Type} : Handler A :=
  fun log => (Thrown, log).

(** [.single()]: the row when exactly one matches, [null] otherwise. *)
Definition single {A : Type} (rows : list A) : option A :=
  match rows with
  | [r] => Some r
  | _ => None
  end.

(** [.eq('id', v)] on the uuid column [id]: only a string can name a
    row. *)
Definition eq_id (v : jsval) (p : Product) : bool :=
  match v with
  | JStr s => String.eqb (id p) s
  | _ => false
  end.

Definition lookup (products : list Product) (v : jsval) : option Product :=
  single (filter (eq_id v) products).

(** [supabase.from('products').select(...).eq('id', v).single()] *)
Definition select_product (products : list Product) (v : jsval)
  : Handler (option Product) :=
  fun log => (Value (lookup products v), log ++ [v]).

Definition Qlt_bool (a b : Q) : bool := negb (Qle_bool b a).

(** The sanity check of one entry.  [Some q] when the entry passes,
    [q] being [item.quantity]; [None] when the condition
    [!item.product_id || typeof item.quantity !== 'number' ||
     !Number.isInteger(item.quantity) || item.quantity < 1] holds. *)
Definition checked_quantity (item : CartItemPayload) : option number :=
  if negb (truthy (product_id item)) then None
  else match quantity item with
       | JNum q =>
           if negb (Number_isInteger q) || Qlt_bool q 1 then None else Some q
       | _ => None
       end.

Definition quote : string := String (ascii_of_nat 34) EmptyString.

Definition auth_required : NextResponse :=
  {| status := 401; json := Error [Text "Authentication required."] |}.
Definition cart_empty : NextResponse :=
  {| status := 400; json := Error [Text "Cart is empty."] |}.
Definition invalid_item : NextResponse :=
  {| status := 400; json := Error [Text "Invalid item in cart."] |}.
Definition not_found (pid : jsval) : NextResponse :=
  {| status := 404; json := Error [Text "Product not found: "; Interp pid] |}.
Definition insufficient_stock (p : Product) (requested : jsval) : NextResponse :=
  {| status := 409;
     json := Error [Text ("Insufficient stock for " ++ quote);
                    Interp (JStr (name p));
                    Text (quote ++ ". Available: ");
                    Interp (JNum (stock p));
                    Text ", Requested: ";
                    Interp requested] |}.
Definition internal_error : NextResponse :=
  {| status := 500; json := Error [Text "Internal server error."] |}.
Definition success (serverTotal : jsnumber) : NextResponse :=
  {| status := 200; json := Valid true serverTotal |}.

(** [Number(product.price)] *)
Definition Number (x : number) : number := x.

(** [serverTotal + Number(product.price) * item.quantity] *)
Definition accumulate (serverTotal : jsnumber) (p : Product) (q : number)
  : jsnumber :=
  Binary64.plus serverTotal
    (Binary64.times (Finite (Number (price p))) (Finite q)).

(** [Math.round(serverTotal * 100) / 100] *)
Definition rounded (serverTotal : jsnumber) : jsnumber :=
  Binary64.divide_by
    (Binary64.lift Math_round (Binary64.times serverTotal (Finite 100))) 100.

(** The per-item loop, [serverTotal] being the running total. *)
Fixpoint validate_items (products : list Product) (items : list entry)
  (serverTotal : jsnumber) : Handler jsnumber :=
  match items with
  | [] => ret serverTotal
  | e :: rest =>
      item <- match e with Some it => ret it | None => throw end ;;
      match checked_quantity item with
      | None => respond invalid_item
      | Some q =>
          product <- select_product products (product_id item) ;;
          match product with
          | None => respond (not_found (product_id item))
          | Some p =>
              if Qlt_bool (stock p) q
              then respond (insufficient_stock p (quantity item))
              else validate_items products rest (accumulate serverTotal p q)
          end
      end
  end.

Definition request_json (req : Request) : Handler Body :=
  match body req with
  | BadJson => throw
  | b => ret b
  end.

Definition body_items (b : Body) : Handler (option (list entry)) :=
  match b with
  | BodyItems its => ret its
  | _ => throw
  end.

(** The body of the [try] block. *)
Definition handler (products : list Product) (req : Request)
  : Handler NextResponse :=
  match session req with
  | None => respond auth_required
  | Some _ =>
      b <- request_json req ;;
      its <- body_items b ;;
      match its with
      | None | Some [] => respond cart_empty
      | Some items =>
          total <- validate_items products items (Finite 0) ;;
          let serverTotal := rounded total in
          ret (success serverTotal)
      end
  end.

(** [POST]: the response, and the lookups it made on the way. *)
Definition POST (products : list Product) (req : Request)
  : NextResponse * access_log :=
  match handler products req [] with
  | (Value r, log) => (r, log)
  | (Returned r, log) => (r, log)
  | (Thrown, log) => (internal_error, log)
  end.

Definition response (products : list Product) (req : Request) : NextResponse :=
  fst (POST products req).

Definition accesses (products : list Product) (req : Request) : access_log :=
  snd (POST products req).

End Validate.

(** ** The order writer: [handleSubmit] of the checkout page *)

(** Rows as the code inserts them (tables [orders] and [order_items]
    of the schema; the columns the backend fills in by default are left
    out, except the order's [id], which the code reads back). *)
Module orders.
Record row : Type := mkRow
  { id : string;
    user_id : string;
    total_amount : number;
    status : string }.
End orders.

Module order_items.
Record row : Type := mkRow
  { order_id : string;
    product_id : string;
    quantity : number;
    price : number }.
End order_items.

Module Checkout.

Record Address : Type := mkAddress
  { name : string;
    street : string;
    city : string;
    pincode : string }.

(** [!s.trim()]: the string is empty once white space is trimmed. *)
Definition blank (s : string) : bool :=
  match trim s with
  | EmptyString => true
  | String _ _ => false
  end.

(** The backend as the page sees it during one submit: the product
    rows and the session the validator reads, and how the two inserts
    answer. *)
Record Backend : Type := mkBackend
  { products : list Product;
    session : option Validate.User;
    orders_insert : option string;
        (* the [id] given to the new order row; [None]: insert refused *)
    order_items_insert : bool }.
        (* [false]: insert refused *)

(** What one run of [handleSubmit] leaves behind. *)
Record Submitted : Type := mkSubmitted
  { error : option Validate.template;       (* [setError(...)] *)
    orders_rows : list orders.row;          (* rows inserted into [orders] *)
    order_items_rows : list order_items.row;(* rows inserted into [order_items] *)
    cart_cleared : bool;                    (* [clearCart()] *)
    pushed : option string }.               (* [router.push] of the new order *)

Definition failed (msg : Validate.template) (written : list orders.row)
  : Submitted :=
  {| error := Some msg;
     orders_rows := written;
     order_items_rows := [];
     cart_cleared := false;
     pushed := None |}.

(** The body of the validation request. *)
Definition request_items (items : list Cart.CartItem) : list Validate.entry :=
  map (fun i =>
         Some {| Validate.product_id := Validate.JStr (id (Cart.product i));
                 Validate.quantity := Validate.JNum (Cart.quantity i) |})
      items.

(** The request [fetch('/api/checkout/validate', ...)] puts before the
    validator: the session of the browser and the cart's entries. *)
Definition validation_request (be : Backend) (items : list Cart.CartItem)
  : Validate.Request :=
  {| Validate.session := session be;
     Validate.body := Validate.BodyItems (Some (request_items items)) |}.

(** [res.ok] *)
Definition ok (res : Validate.NextResponse) : bool :=
  (Z.leb 200 (Validate.status res) && Z.leb (Validate.status res) 299)%bool.

(** [json.error ?? fallback] *)
Definition error_or (j : Validate.payload) (fallback : string)
  : Validate.template :=
  match j with
  | Validate.Error msg => msg
  | Validate.Valid _ _ => [Validate.Text fallback]
  end.

(** [handleSubmit] of the page, for the cart [items] that the page was
    rendered with.  The page renders its form for a cart that is not
    empty only ([if (items.length === 0) { router.replace('/') ... }]);
    the function is given for every cart. *)
Definition handleSubmit (be : Backend) (address : Address)
  (items : list Cart.CartItem) : Submitted :=
  if (blank (name address) || blank (street address) ||
      blank (city address) || blank (pincode address))%bool
  then failed [Validate.Text "Please fill in all address fields."] []
  else
    (* Step 1: server-side stock + total validation *)
    let res := Validate.response (products be) (validation_request be items) in
    if negb (ok res)
    then failed (error_or (Validate.json res) "Validation failed.") []
    else
      (* Step 2: create order row *)
      match session be with
      | None =>
          failed [Validate.Text "You must be signed in to place an order."] []
      | Some user =>
          match orders_insert be, Validate.json res with
          | Some new_id, Validate.Valid _ (Finite serverTotal) =>
              let order :=
                {| orders.id := new_id;
                   orders.user_id := Validate.uid user;
                   orders.total_amount := serverTotal;
                   orders.status := "pending" |} in
              (* Step 3: insert order_items *)
              if negb (order_items_insert be)
              then failed [Validate.Text "Failed to save order items."] [order]
              else
                {| error := None;
                   orders_rows := [order];
                   order_items_rows :=
                     map (fun i =>
                            {| order_items.order_id := orders.id order;
                               order_items.product_id := id (Cart.product i);
                               order_items.quantity := Cart.quantity i;
                               order_items.price := price (Cart.product i) |})
                         items;
                   cart_cleared := true;
                   pushed := Some (orders.id order) |}
          | _, _ =>
              (* the insert is refused; also when [json.serverTotal] is
                 null, which is how a total that is not finite travels
                 in JSON, [total_amount] being NOT NULL *)
              failed [Validate.Text "Failed to create order. Please try again."] []
          end
      end.

(** Sum over line items of recorded unit price times quantity, as the
    specification means it: the exact sum of the decimals of the rows. *)
Definition line_total (rows : list order_items.row) : number :=
  fold_right (fun r acc => order_items.price r * order_items.quantity r + acc)
             0 rows.

End Checkout.

(** ** What the specification's words mean

    The notions the specification uses, stated on their own terms and
    not through the functions above. *)
Module Spec.
Import Validate.

(** A positive integer. *)
Definition positive_integer (q : number) : Prop :=
  exists n : Z, (0 < n)%Z /\ q == inject_Z n.

(** An entry with a non-empty product reference [s] and a positive
    integer quantity [q]. *)
Definition well_formed (e : entry) (s : string) (q : number) : Prop :=
  s <> EmptyString /\ positive_integer q /\
  e = Some {| product_id := JStr s; quantity := JNum q |}.

(** A product reference that is missing or empty. *)
Definition no_reference (v : jsval) : Prop :=
  v = JUndefined \/ v = JNull \/ v = JStr EmptyString.

(** A malformed entry: missing or empty product reference, or a
    quantity that is not a positive integer. *)
Definition malformed (e : entry) : Prop :=
  exists it, e = Some it /\
    (no_reference (product_id it) \/
     forall q, quantity it = JNum q -> ~ positive_integer q).

(** The product collection holds the row [p] under the id [s]. *)
Definition stored (products : list Product) (s : string) (p : Product) : Prop :=
  In p products /\ id p = s.

(** No row of the collection has the id [s]. *)
Definition missing (products : list Product) (s : string) : Prop :=
  forall p, In p products -> id p <> s.

(** A well-formed entry that asks for [q] units of the stored
    product [p]. *)
Definition priced (products : list Product) (e : entry)
  (p : Product) (q : number) : Prop :=
  well_formed e (id p) q /\ In p products.

(** A well-formed entry whose product exists and whose quantity is
    within the current stock. *)
Definition passes (products : list Product) (e : entry) : Prop :=
  exists p q, priced products e p q /\ q <= stock p.

(** The stored prices: the column [price] is [numeric(10,2)], so the
    row [p] holds a whole number [cents p] of hundredths, which the
    constraint of the table keeps from being negative; the price that
    the code reads is the double nearest to it. *)
Definition read_as_doubles (cents : Product -> Z) (products : list Product)
  : Prop :=
  forall p, In p products ->
    (0 <= cents p)%Z /\ price p = Binary64.round (inject_Z (cents p) / 100).

(** Stored price times requested quantity of one entry. *)
Definition line (cents : Product -> Z) (products : list Product) (e : entry)
  : Q :=
  match e with
  | Some {| product_id := v; quantity := JNum q |} =>
      match lookup products v with
      | Some p => inject_Z (cents p) / 100 * q
      | None => 0
      end
  | _ => 0
  end.

(** The sum over the list of stored price times requested quantity:
    the exact sum of the decimals. *)
Definition exact_total (cents : Product -> Z) (products : list Product)
  (items : list entry) : Q :=
  fold_right (fun e acc => line cents products e + acc) 0 items.

(** The list is small enough for the total to come out exact: the
    number of its entries plus one, times the exact sum plus one, is at
    most [2 ^ 42]. *)
Definition within_precision (cents : Product -> Z) (products : list Product)
  (items : list entry) : Prop :=
  (inject_Z (Z.of_nat (List.length items)) + 1) *
  (exact_total cents products items + 1) <= 2 ^ 42.

(** [n] is [x] rounded to the nearest integer, half away from zero. *)
Definition half_away_from_zero (x : number) (n : Z) : Prop :=
  Qabs (x - inject_Z n) <= 1 # 2 /\
  (Qabs (x - inject_Z n) == 1 # 2 -> Qabs x <= Qabs (inject_Z n)).

(** [n] is [x] rounded to the nearest integer, half to even. *)
Definition half_to_even (x : number) (n : Z) : Prop :=
  Qabs (x - inject_Z n) <= 1 # 2 /\
  (Qabs (x - inject_Z n) == 1 # 2 -> Z.even n = true).

(** The product references of a list of entries, in order. *)
Definition references (items : list entry) : list jsval :=
  flat_map (fun e => match e with
                     | Some it => [product_id it]
                     | None => []
                     end) items.

(** Every entry of the cart has a strictly positive quantity. *)
Definition all_positive (s : Cart.State) : Prop :=
  Forall (fun i => 0 < Cart.quantity i) (Cart.items s).

End Spec.

(** ** Sample data *)
Module Sample.
Import Validate.

Definition p1 : Product :=
  {| id := "p1"; name := "Widget"; price := 100; stock := 5 |}.
Definition p2 : Product :=
  {| id := "p2"; name := "Gadget";
     price := Binary64.round (1999 # 100); stock := 3 |}.

(** The [products] table. *)
Definition shop : list Product := [p1; p2].

Definition alice : User := {| uid := "u1" |}.

(** An entry [{ product_id: pid, quantity: q }]. *)
Definition item (pid : string) (q : number) : entry :=
  Some {| product_id := JStr pid; quantity := JNum q |}.

(** A request of a signed-in caller with the given item list. *)
Definition signed_in (items : list entry) : Request :=
  {| session := Some alice; body := BodyItems (Some items) |}.

(** A request without a session. *)
Definition anonymous (b : Body) : Request :=
  {| session := None; body := b |}.

(** A product that is out of stock. *)
Definition sold_out : Product :=
  {| id := "p3"; name := "Gizmo"; price := 10; stock := 0 |}.

(** A product with three units left. *)
Definition three_left : Product :=
  {| id := "p4"; name := "Doohickey"; price := 10; stock := 3 |}.

(** A cart whose snapshot of [p1] carries an older price, 50. *)
Definition stale_cart : list Cart.CartItem :=
  [ {| Cart.product :=
         {| id := "p1"; name := "Widget"; price := 50; stock := 5 |};
       Cart.quantity := 2 |} ].

Definition home : Checkout.Address :=
  {| Checkout.name := "Jane Doe";
     Checkout.street := "123 Main St";
     Checkout.city := "Mumbai";
     Checkout.pincode := "400001" |}.

Definition backend : Checkout.Backend :=
  {| Checkout.products := shop;
     Checkout.session := Some alice;
     Checkout.orders_insert := Some "o1";
     Checkout.order_items_insert := true |}.

(** The hundredths that a price read as a double stands for. *)
Definition cents (p : Product) : Z := Qfloor (price p * 100 + (1 # 2)).

(** Goods sold in bulk, priced 8762322.96, 17475802.67, 9868567.96,
    2648866.32 and 6594008.99. *)
Definition bulk (pid : string) (hundredths : Z) : Product :=
  {| id := pid; name := "Bulk goods";
     price := Binary64.round (inject_Z hundredths / 100);
     stock := 3000000 |}.

Definition depot : list Product :=
  [ bulk "b1" 876232296; bulk "b2" 1747580267; bulk "b3" 986856796;
    bulk "b4" 264886632; bulk "b5" 659400899 ].

End Sample.

(** ** Further notions: the cart *)
Module CartSpec.
Import Cart.

(** The product ids of the cart's entries, in order. *)
Definition ids (s : State) : list string :=
  map (fun i => id (product i)) (items s).

(** No two entries of the cart are for the same product. *)
Definition unique_ids (s : State) : Prop := NoDup (ids s).

(** The cart holds no entry for the product. *)
Definition absent (pid : string) (s : State) : Prop :=
  forall i, In i (items s) -> id (product i) <> pid.

(** Every quantity in the cart is a whole number, none negative. *)
Definition whole_quantities (s : State) : Prop :=
  Forall (fun i => quantity i == inject_Z (Qfloor (quantity i)) /\
                   0 <= quantity i)
         (items s).

(** The number of units in a cart of whole quantities. *)
Definition units (s : State) : Z :=
  fold_right (fun i acc => (Qfloor (quantity i) + acc)%Z) 0%Z (items s).

(** Every entry holds a stored row and asks for no more than the
    stock of that row. *)
Definition within_stock (products : list Product) (l : list CartItem) : Prop :=
  Forall (fun i => In (product i) products /\ quantity i <= stock (product i)) l.

(** A cart with one entry of each of two sample products. *)
Definition two_products : State :=
  {| items := [ {| product := Sample.p1; quantity := 2 |};
                {| product := Sample.p2; quantity := 1 |} ] |}.

End CartSpec.

(** ** Further notions: the validator *)
Module ValidateSpec.
Import Validate.

(** An entry that the loop lets through: an object with a truthy
    product reference and a positive integer quantity, whose lookup
    finds a product with stock enough. *)
Definition accepted (products : list Product) (e : entry) : Prop :=
  exists it q p,
    e = Some it /\
    truthy (product_id it) = true /\
    quantity it = JNum q /\
    Spec.positive_integer q /\
    lookup products (product_id it) = Some p /\
    q <= stock p.

(** The entries that the loop is run on: those of the body's array
    when there is a session, none otherwise. *)
Definition request_entries (req : Request) : list entry :=
  match session req, body req with
  | Some _, BodyItems (Some items) => items
  | _, _ => []
  end.

(** The status codes of the endpoint. *)
Definition status_codes : list Z := [200; 400; 401; 404; 409; 500]%Z.

(** What one entry adds to the running total in binary64: the price
    found times the quantity. *)
Definition step (products : list Product) (acc : jsnumber) (e : entry)
  : jsnumber :=
  match e with
  | Some {| product_id := v; quantity := JNum q |} =>
      match lookup products v with
      | Some p => accumulate acc p q
      | None => acc
      end
  | _ => acc
  end.

(** A number that is not NaN and not below zero. *)
Definition nonneg (x : jsnumber) : Prop :=
  match x with
  | Finite a => 0 <= a
  | Infinity negative => negative = false
  | NaN => False
  end.

(** The running total in binary64 after the entries, in their order. *)
Definition running_total (products : list Product) (items : list entry)
  : jsnumber :=
  fold_left (step products) items (Finite 0).

End ValidateSpec.

(** ** Further notions: the order writer *)
Module CheckoutSpec.
Import Checkout.

(** No field of the address is blank. *)
Definition complete (a : Address) : Prop :=
  (blank (name a) || blank (street a) || blank (city a) || blank (pincode a))%bool
  = false.

(** The order row for a caller, an id given by the backend and a
    total. *)
Definition order_for (u : Validate.User) (new_id : string) (t : number)
  : orders.row :=
  {| orders.id := new_id;
     orders.user_id := Validate.uid u;
     orders.total_amount := t;
     orders.status := "pending" |}.

(** The line item of a cart entry under an order. *)
Definition line_of (new_id : string) (i : Cart.CartItem) : order_items.row :=
  {| order_items.order_id := new_id;
     order_items.product_id := id (Cart.product i);
     order_items.quantity := Cart.quantity i;
     order_items.price := price (Cart.product i) |}.

(** A cart entry whose snapshot is the stored row, with a positive
    integer quantity within its stock. *)
Definition fresh (products : list Product) (i : Cart.CartItem) : Prop :=
  In (Cart.product i) products /\
  id (Cart.product i) <> EmptyString /\
  Spec.positive_integer (Cart.quantity i) /\
  Cart.quantity i <= stock (Cart.product i).

(** A cart of fresh snapshots of the sample products. *)
Definition fresh_cart : list Cart.CartItem :=
  [ {| Cart.product := Sample.p1; Cart.quantity := 2 |};
    {| Cart.product := Sample.p2; Cart.quantity := 3 |} ].

(** A cart asking for ten of [p1], of which five are in stock. *)
Definition greedy_cart : list Cart.CartItem :=
  [ {| Cart.product := Sample.p1; Cart.quantity := 10 |} ].

(** The sample backend, refusing the line items. *)
Definition refusing_items : Backend :=
  {| products := Sample.shop;
     session := Some Sample.alice;
     orders_insert := Some "o1";
     order_items_insert := false |}.

End CheckoutSpec.

(** ** The route guard: [middleware] *)

(** Rows of the [profiles] table. *)
Module profiles.
Record row : Type := mkRow
  { id : string;
    full_name : string;
    role : string }.
End profiles.

Module Middleware.

Definition AUTH_REQUIRED : list string := ["/cart"; "/checkout"; "/orders"].
Definition AUTH_EXCLUDED : list string := ["/auth/login"; "/auth/signup"].

(** [s.startsWith(p)] *)
Definition startsWith (s p : string) : bool := String.prefix p s.

(** [l.includes(s)] *)
Definition includes (l : list string) (s : string) : bool :=
  existsb (String.eqb s) l.

(** [NextResponse.next()], or [NextResponse.redirect(url)] with the
    path of [url] and the value of its [next] parameter, if set. *)
Inductive NextResponse : Type :=
| next
| redirect (pathname : string) (next_param : option string).

(** [supabase.from('profiles').select('role').eq('id', uid).single()],
    then [profile?.role]. *)
Definition select_role (table : list profiles.row) (uid : string) : option string :=
  option_map profiles.role
    (Validate.single (filter (fun r => String.eqb (profiles.id r) uid) table)).

Definition is_admin_role (r : option string) : bool :=
  match r with
  | Some s => String.eqb s "admin"
  | None => false
  end.

Definition signed_in (user : option Validate.User) : bool :=
  match user with
  | Some _ => true
  | None => false
  end.

(** [middleware]: the response, and the ids looked up in [profiles]. *)
Definition middleware (table : list profiles.row) (user : option Validate.User)
  (pathname : string) : NextResponse * list string :=
  (* 1. Pages that need a logged-in user *)
  if (existsb (startsWith pathname) AUTH_REQUIRED && negb (signed_in user))%bool
  then (redirect "/auth/login" (Some pathname), [])
  else
    (* 3. Auth pages *)
    let auth_pages (log : list string) :=
      if (includes AUTH_EXCLUDED pathname && signed_in user)%bool
      then (redirect "/" None, log)
      else (next, log) in
    (* 2. Admin panel *)
    if startsWith pathname "/admin"
    then match user with
         | None => (redirect "/auth/login" None, [])
         | Some u =>
             if negb (is_admin_role (select_role table (Validate.uid u)))
             then (redirect "/" None, [Validate.uid u])
             else auth_pages [Validate.uid u]
         end
    else auth_pages [].

(** [config.matcher]: every path except those that, after the leading
    slash, start with one of these. *)
Definition matcher_excluded : list string :=
  ["api"; "_next/static"; "_next/image"; "favicon.ico"; "sitemap.xml";
   "robots.txt"].

Definition matches (pathname : string) : bool :=
  match pathname with
  | String "/" rest => negb (existsb (fun x => String.prefix x rest) matcher_excluded)
  | _ => false
  end.

(** The caller's row in [profiles] makes them an admin. *)
Definition admin (table : list profiles.row) (u : Validate.User) : Prop :=
  exists r,
    filter (fun r => String.eqb (profiles.id r) (Validate.uid u)) table = [r] /\
    profiles.role r = "admin".

(** The path is under one of the guarded prefixes. *)
Definition guarded (pathname : string) : Prop :=
  exists p, In p ("/admin" :: AUTH_REQUIRED) /\ startsWith pathname p = true.

(** A sample [profiles] table: one admin, one user. *)
Definition staff : list profiles.row :=
  [ {| profiles.id := "u0"; profiles.full_name := "Root"; profiles.role := "admin" |};
    {| profiles.id := "u1"; profiles.full_name := "Alice"; profiles.role := "user" |} ].

End Middleware.

(** ** The schema: CHECK constraints and row level security

    The tables of the schema with the columns modelled above, their
    CHECK constraints, and the policies, one value per CREATE POLICY.
    Row level security is enabled on the four tables, so a command is
    admitted when a policy for that command admits it: the USING
    expressions of the policies for a command are combined with OR, and
    so are the WITH CHECK expressions; an UPDATE policy without WITH
    CHECK checks the new row with its USING expression.  Callers are
    those that go through the policies (the application never uses a
    key that bypasses them). *)
Module Schema.

Record Db : Type := mkDb
  { profiles_t : list profiles.row;
    products_t : list Product;
    orders_t : list orders.row;
    order_items_t : list order_items.row }.

(** [auth.uid()]: NULL without a session. *)
Definition auth_uid : Type := option string.

(** [x = auth.uid()], NULL counting as false. *)
Definition is_uid (x : string) (uid : auth_uid) : bool :=
  match uid with
  | Some u => String.eqb x u
  | None => false
  end.

(** *** CHECK constraints *)

Definition profiles_check (r : profiles.row) : bool :=
  existsb (String.eqb (profiles.role r)) ["user"; "admin"].

Definition products_check (p : Product) : bool :=
  (Qle_bool 0 (price p) && Qle_bool 0 (stock p))%bool.

Definition orders_check (o : orders.row) : bool :=
  (Qle_bool 0 (orders.total_amount o) &&
   existsb (String.eqb (orders.status o))
     ["pending"; "confirmed"; "shipped"; "delivered"])%bool.

Definition order_items_check (r : order_items.row) : bool :=
  (Validate.Qlt_bool 0 (order_items.quantity r) &&
   Qle_bool 0 (order_items.price r))%bool.

(** *** Policies *)

Inductive policy (R : Type) : Type :=
| FOR_SELECT (name : string) (USING : Db -> auth_uid -> R -> bool)
| FOR_INSERT (name : string) (WITH_CHECK : Db -> auth_uid -> R -> bool)
| FOR_UPDATE (name : string) (USING : Db -> auth_uid -> R -> bool)
    (WITH_CHECK : option (Db -> auth_uid -> R -> bool))
| FOR_DELETE (name : string) (USING : Db -> auth_uid -> R -> bool).

Arguments FOR_SELECT {R} name USING.
Arguments FOR_INSERT {R} name WITH_CHECK.
Arguments FOR_UPDATE {R} name USING WITH_CHECK.
Arguments FOR_DELETE {R} name USING.

Section Evaluation.
Context {R : Type} (policies : list (policy R)) (db : Db) (uid : auth_uid).

Definition can_select (r : R) : bool :=
  existsb (fun p => match p with
                    | FOR_SELECT _ USING => USING db uid r
                    | _ => false
                    end) policies.

Definition can_insert (r : R) : bool :=
  existsb (fun p => match p with
                    | FOR_INSERT _ WITH_CHECK => WITH_CHECK db uid r
                    | _ => false
                    end) policies.

(** The existing row against USING, the new row against WITH CHECK. *)
Definition can_update (old new : R) : bool :=
  (existsb (fun p => match p with
                     | FOR_UPDATE _ USING _ => USING db uid old
                     | _ => false
                     end) policies &&
   existsb (fun p => match p with
                     | FOR_UPDATE _ USING None => USING db uid new
                     | FOR_UPDATE _ _ (Some WITH_CHECK) => WITH_CHECK db uid new
                     | _ => false
                     end) policies)%bool.

Definition can_delete (r : R) : bool :=
  existsb (fun p => match p with
                    | FOR_DELETE _ USING => USING db uid r
                    | _ => false
                    end) policies.

(** The rows a query of the caller sees. *)
Definition visible (rows : list R) : list R := filter can_select rows.

End Evaluation.

(** 5. PROFILES *)
Definition profiles_policies : list (policy profiles.row) :=
  [ FOR_SELECT "profiles: owner read"
      (fun _ uid r => is_uid (profiles.id r) uid);
    FOR_UPDATE "profiles: owner update"
      (fun _ uid r => is_uid (profiles.id r) uid)
      (Some (fun _ uid r => is_uid (profiles.id r) uid)) ].

(** [EXISTS (SELECT 1 FROM public.profiles
             WHERE id = auth.uid() AND role = 'admin')],
    the subquery seeing the rows that the caller may read. *)
Definition exists_admin (db : Db) (uid : auth_uid) : bool :=
  existsb (fun r => (is_uid (profiles.id r) uid &&
                     String.eqb (profiles.role r) "admin")%bool)
          (visible profiles_policies db uid (profiles_t db)).

(** 6. PRODUCTS *)
Definition products_policies : list (policy Product) :=
  [ FOR_SELECT "products: public read" (fun _ _ _ => true);
    FOR_INSERT "products: admin insert" (fun db uid _ => exists_admin db uid);
    FOR_UPDATE "products: admin update"
      (fun db uid _ => exists_admin db uid)
      (Some (fun db uid _ => exists_admin db uid));
    FOR_DELETE "products: admin delete" (fun db uid _ => exists_admin db uid) ].

(** 7. ORDERS *)
Definition orders_policies : list (policy orders.row) :=
  [ FOR_SELECT "orders: owner read"
      (fun _ uid o => is_uid (orders.user_id o) uid);
    FOR_INSERT "orders: owner insert"
      (fun _ uid o => is_uid (orders.user_id o) uid);
    FOR_UPDATE "orders: owner update"
      (fun _ uid o => is_uid (orders.user_id o) uid)
      (Some (fun _ uid o => is_uid (orders.user_id o) uid));
    FOR_SELECT "orders: admin read all" (fun db uid _ => exists_admin db uid);
    FOR_UPDATE "orders: admin update all"
      (fun db uid _ => exists_admin db uid) None ].

(** [order_id IN (SELECT id FROM public.orders WHERE user_id = auth.uid())],
    the subquery seeing the orders that the caller may read. *)
Definition in_own_orders (db : Db) (uid : auth_uid) (order_id : string) : bool :=
  existsb (fun o => (String.eqb (orders.id o) order_id &&
                     is_uid (orders.user_id o) uid)%bool)
          (visible orders_policies db uid (orders_t db)).

(** 8. ORDER_ITEMS *)
Definition order_items_policies : list (policy order_items.row) :=
  [ FOR_SELECT "order_items: owner read"
      (fun db uid r => in_own_orders db uid (order_items.order_id r));
    FOR_INSERT "order_items: owner insert"
      (fun db uid r => in_own_orders db uid (order_items.order_id r));
    FOR_SELECT "order_items: admin read all"
      (fun db uid _ => exists_admin db uid) ].

(** *** The signup trigger *)

(** The columns of [auth.users] that the trigger reads: [NEW.id] and
    [NEW.raw_user_meta_data->>'full_name']. *)
Record auth_user : Type := mkAuthUser
  { new_id : string;
    meta_full_name : option string }.

(** [handle_new_user()]: the row inserted into [profiles], [role]
    taking its default. *)
Definition handle_new_user (NEW : auth_user) : profiles.row :=
  {| profiles.id := new_id NEW;
     profiles.full_name := match meta_full_name NEW with
                           | Some n => n
                           | None => EmptyString
                           end;
     profiles.role := "user" |}.

(** [SET role = r] on a row. *)
Definition set_role (r : string) (row : profiles.row) : profiles.row :=
  {| profiles.id := profiles.id row;
     profiles.full_name := profiles.full_name row;
     profiles.role := r |}.

(** The database with one more order. *)
Definition with_order (db : Db) (o : orders.row) : Db :=
  {| profiles_t := profiles_t db;
     products_t := products_t db;
     orders_t := o :: orders_t db;
     order_items_t := order_items_t db |}.

(** A sample database: the shop, an admin and a user, one order. *)
Definition sample_db : Db :=
  {| profiles_t := Middleware.staff;
     products_t := Sample.shop;
     orders_t := [ {| orders.id := "o0"; orders.user_id := "u1";
                      orders.total_amount := 100; orders.status := "pending" |} ];
     order_items_t := [] |}.

End Schema.

(** ** The admin product form: [handleSubmit] of [AdminProductForm]

    The numbers that [parseFloat] and [parseInt] can give include NaN
    and the infinities, which the form tests for; the value of a
    numeral is rounded to the nearest double, so a numeral beyond the
    range of the doubles gives an infinity and one below it gives
    zero. *)
Module AdminProductForm.

(** [isNaN(x)] *)
Definition isNaN (x : jsnumber) : bool :=
  match x with
  | NaN => true
  | _ => false
  end.

(** [x < 0] *)
Definition negative_number (x : jsnumber) : bool :=
  match x with
  | NaN => false
  | Infinity negative => negative
  | Finite q => Validate.Qlt_bool q 0
  end.

(** [Number.isInteger(x)] *)
Definition isInteger (x : jsnumber) : bool :=
  match x with
  | Finite q => Number_isInteger q
  | _ => false
  end.

(** *** Numerals *)

Definition is_digit (c : ascii) : bool :=
  let n := nat_of_ascii c in (Nat.leb 48 n && Nat.leb n 57)%bool.

Definition digit_value (c : ascii) : Z := Z.of_nat (nat_of_ascii c - 48).

(** The longest run of decimal digits at the head of [s]: its value
    on top of [acc], its length on top of [len], and what follows. *)
Fixpoint digits (s : string) (acc : Z) (len : nat) : Z * nat * string :=
  match s with
  | String c r =>
      if is_digit c then digits r (10 * acc + digit_value c) (S len)
      else (acc, len, s)
  | EmptyString => (acc, len, s)
  end.

(** An optional sign at the head: whether it is a minus, and the rest. *)
Definition sign_of (s : string) : bool * string :=
  match s with
  | String "-" r => (true, r)
  | String "+" r => (false, r)
  | _ => (false, s)
  end.

(** [parseInt(s, 10)]: leading white space, an optional sign, then the
    longest run of digits; NaN when there is no digit. *)
Definition parseInt (s : string) : jsnumber :=
  let (negative, r) := sign_of (trimStart s) in
  match digits r 0 0 with
  | (_, O, _) => NaN
  | (v, _, _) => Binary64.of_exact (inject_Z (if negative then - v else v))
  end.

(** An exponent part at the head, [e] or [E], an optional sign and at
    least one digit: its value; 0 when there is none. *)
Definition exponent (s : string) : Z :=
  match s with
  | String c r =>
      if (Ascii.eqb c "e" || Ascii.eqb c "E")%bool
      then let (negative, r') := sign_of r in
           match digits r' 0 0 with
           | (_, O, _) => 0%Z
           | (e, _, _) => if negative then (- e)%Z else e
           end
      else 0%Z
  | EmptyString => 0%Z
  end.

(** [parseFloat(s)]: leading white space, then the longest prefix that
    is a decimal literal: an optional sign, then [Infinity], or digits
    with an optional fraction and exponent, a digit at least before or
    after the point; NaN when there is none. *)
Definition parseFloat (s : string) : jsnumber :=
  let (negative, r) := sign_of (trimStart s) in
  if String.prefix "Infinity" r then Infinity negative
  else
    let '(i, ilen, r1) := digits r 0 0 in
    let '(f, flen, r2) :=
      match r1 with
      | String "." r' => digits r' 0 0
      | _ => (0%Z, O, r1)
      end in
    match ilen, flen with
    | O, O => NaN
    | _, _ =>
        let mantissa := inject_Z i + inject_Z f / inject_Z (10 ^ Z.of_nat flen) in
        let v := mantissa * 10 ^ exponent r2 in
        Binary64.of_exact (if negative then - v else v)
    end.

(** *** The form *)

Record FormFields : Type := mkForm
  { name : string;
    description : string;
    price : string;
    stock : string;
    image_url : string;
    category : string }.

End AdminProductForm.

(** What the form sends. *)
Module payload.
Record t : Type := mk
  { name : string;
    description : string;
    price : jsnumber;
    stock : jsnumber;
    image_url : option string;
    category : string }.
End payload.

Module AdminSubmit.
Import AdminProductForm.

(** The call made on [supabase.from('products')]. *)
Inductive request : Type :=
| update (values : payload.t) (id : string)   (* [.update(payload).eq('id', id)] *)
| insert (values : payload.t).

Definition values_of (r : request) : payload.t :=
  match r with
  | update v _ => v
  | insert v => v
  end.

(** What one submit leaves behind. *)
Record Submitted : Type := mkSubmitted
  { error : option string;           (* [setError(...)] *)
    sent : option request;           (* the call made, if any *)
    pushed : bool }.                 (* [router.push('/admin/products')] *)

(** The sign in the two messages, as UTF-8. *)
Definition ge_sign : string :=
  String (ascii_of_nat 226) (String (ascii_of_nat 137)
    (String (ascii_of_nat 165) EmptyString)).

Definition invalid_price : string :=
  ("Enter a valid price (" ++ ge_sign ++ " 0).")%string.
Definition invalid_stock : string :=
  ("Enter a valid stock quantity (integer " ++ ge_sign ++ " 0).")%string.

(** [s || null] *)
Definition or_null (s : string) : option string :=
  match s with
  | EmptyString => None
  | _ => Some s
  end.

(** [handleSubmit], for the product being edited, if any, and the
    backend's answer to the call: the message of its error, if any. *)
Definition handleSubmit (product : option Product)
  (respond : request -> option string) (form : FormFields) : Submitted :=
  let price := parseFloat (AdminProductForm.price form) in
  let stock := parseInt (AdminProductForm.stock form) in
  if (isNaN price || negative_number price)%bool
  then {| error := Some invalid_price; sent := None; pushed := false |}
  else if (isNaN stock || negative_number stock || negb (isInteger stock))%bool
  then {| error := Some invalid_stock; sent := None; pushed := false |}
  else
    let values :=
      {| payload.name := trim (AdminProductForm.name form);
         payload.description := trim (AdminProductForm.description form);
         payload.price := price;
         payload.stock := stock;
         payload.image_url := or_null (trim (AdminProductForm.image_url form));
         payload.category := trim (AdminProductForm.category form) |} in
    let call :=
      match product with
      | Some p => update values (id p)
      | None => insert values
      end in
    match respond call with
    | Some message => {| error := Some message; sent := Some call; pushed := false |}
    | None => {| error := None; sent := Some call; pushed := true |}
    end.

(** The value of a string of decimal digits. *)
Definition decimal_value (d : string) : Z :=
  fold_left (fun acc c => (10 * acc + digit_value c)%Z) (list_ascii_of_string d) 0%Z.

(** A string of decimal digits. *)
Definition all_digits (d : string) : Prop :=
  Forall (fun c => is_digit c = true) (list_ascii_of_string d).

(** A string of white space of one byte each. *)
Definition all_space (w : string) : Prop :=
  Forall (fun c => is_space c = true) (list_ascii_of_string w).

(** A string that does not go on with a digit. *)
Definition no_digit_ahead (t : string) : Prop :=
  match t with
  | String c _ => is_digit c = false
  | EmptyString => True
  end.

(** A filled-in form, with a stock that is not a whole number. *)
Definition sample_form : FormFields :=
  {| AdminProductForm.name := "  Lamp ";
     AdminProductForm.description := "Desk lamp";
     AdminProductForm.price := "12.50";
     AdminProductForm.stock := "7.9";
     AdminProductForm.image_url := "   ";
     AdminProductForm.category := "Home" |}.

End AdminSubmit.

(** * Properties *)

(** ** Numbers *)
Section Numbers.

Lemma Math_min_le_r (a b : number) : Math_min a b <= b.
Proof.
  unfold Math_min. destruct (Qle_bool a b) eqn:E.
  - now apply Qle_bool_iff.
  - apply Qle_refl.
Qed.

Lemma Math_min_le_l (a b : number) : Math_min a b <= a.
Proof.
  unfold Math_min. destruct (Qle_bool a b) eqn:E.
  - apply Qle_refl.
  - apply Qlt_le_weak, Qnot_le_lt. intro H.
    apply Qle_bool_iff in H. congruence.
Qed.

Lemma Math_min_zero_stock (a b : number) : 0 <= a -> b == 0 -> Math_min a b == 0.
Proof.
  intros Ha Hb. apply Qle_antisym.
  - rewrite <- Hb. apply Math_min_le_r.
  - unfold Math_min. destruct (Qle_bool a b); [assumption | rewrite Hb; apply Qle_refl].
Qed.

Lemma Qlt_bool_iff (a b : Q) : Validate.Qlt_bool a b = true <-> a < b.
Proof.
  unfold Validate.Qlt_bool. rewrite negb_true_iff. split.
  - intro H. apply Qnot_le_lt. intro L. apply Qle_bool_iff in L. congruence.
  - intro H. destruct (Qle_bool b a) eqn:E; [|reflexivity].
    apply Qle_bool_iff in E. exfalso. exact (Qlt_not_le _ _ H E).
Qed.

Lemma Qlt_bool_false_iff (a b : Q) : Validate.Qlt_bool a b = false <-> b <= a.
Proof.
  unfold Validate.Qlt_bool. rewrite negb_false_iff. apply Qle_bool_iff.
Qed.

End Numbers.

(** ** Rounding in binary64 *)
Section Binary64Properties.
Import Binary64.

Lemma pow2_pos (e : Z) : 0 < 2 ^ e.
Proof. apply Qpower_0_lt. reflexivity. Qed.

Lemma pow2_plus (a b : Z) : 2 ^ (a + b) == 2 ^ a * 2 ^ b.
Proof. apply Qpower_plus. discriminate. Qed.

Lemma pow2_succ (e : Z) : 2 ^ (e + 1) == 2 * 2 ^ e.
Proof. rewrite pow2_plus. change (2 ^ 1) with 2. ring. Qed.

Lemma pow2_le (a b : Z) : (a <= b)%Z -> 2 ^ a <= 2 ^ b.
Proof. intro H. apply Qpower_le_compat_l; [assumption|discriminate]. Qed.

Lemma pow2_lt_inv (a b : Z) : 2 ^ a < 2 ^ b -> (a < b)%Z.
Proof. intro H. apply (Qpower_lt_compat_l_inv 2); [assumption|reflexivity]. Qed.

Lemma pow2_Z (n : Z) : (0 <= n)%Z -> inject_Z (2 ^ n) == 2 ^ n.
Proof. intro H. now rewrite (Zpower_Qpower 2 n H). Qed.

Lemma Qabs_make (x : Q) :
  Qabs x == inject_Z (Z.abs (Qnum x)) / inject_Z (Zpos (Qden x)).
Proof. destruct x as [n d]. unfold Qabs. simpl. apply Qmake_Qdiv. Qed.

Lemma exponent_spec (x : Q) :
  ~ x == 0 -> 2 ^ exponent x <= Qabs x /\ Qabs x < 2 ^ (exponent x + 1).
Proof.
  intro Hx. unfold exponent.
  set (n := Z.abs (Qnum x)). set (d := Zpos (Qden x)).
  assert (Hn : (0 < n)%Z).
  { subst n. destruct x as [[|p|p] q]; simpl; try lia. exfalso. apply Hx. reflexivity. }
  assert (Hd : (0 < d)%Z) by (subst d; lia).
  pose proof (Z.log2_spec n Hn) as [Hn1 Hn2].
  pose proof (Z.log2_spec d Hd) as [Hd1 Hd2].
  pose proof (Z.log2_nonneg n) as Ha. pose proof (Z.log2_nonneg d) as Hb.
  set (a := Z.log2 n) in *. set (b := Z.log2 d) in *.
  rewrite Zle_Qle, pow2_Z in Hn1, Hd1 by assumption.
  unfold Z.succ in Hn2, Hd2.
  rewrite Zlt_Qlt, pow2_Z in Hn2, Hd2 by lia.
  assert (HD : 0 < inject_Z d) by (change 0 with (inject_Z 0); now rewrite <- Zlt_Qlt).
  assert (Habs : Qabs x == inject_Z n / inject_Z d) by apply Qabs_make.
  assert (Hup : Qabs x < 2 ^ (a - b + 1)).
  { rewrite Habs. apply Qlt_shift_div_r; [assumption|].
    apply (Qlt_le_trans _ (2 ^ (a + 1))); [assumption|].
    replace (a + 1)%Z with ((a - b + 1) + b)%Z by lia. rewrite pow2_plus.
    apply Qmult_le_l; [apply pow2_pos|assumption]. }
  assert (Hlo : 2 ^ (a - b - 1) < Qabs x).
  { rewrite Habs. apply Qlt_shift_div_l; [assumption|].
    apply (Qlt_le_trans _ (2 ^ a)); [|assumption].
    replace a with ((a - b - 1) + (b + 1))%Z at 2 by lia. rewrite pow2_plus.
    apply Qmult_lt_l; [apply pow2_pos|assumption]. }
  destruct (Qle_bool (2 ^ (a - b)) (Qabs x)) eqn:E.
  - apply Qle_bool_iff in E. now split.
  - split; [now apply Qlt_le_weak|].
    replace (a - b - 1 + 1)%Z with (a - b)%Z by lia.
    apply Qnot_le_lt. intro H. apply Qle_bool_iff in H. congruence.
Qed.

Lemma exponent_unique (x : Q) (e : Z) :
  2 ^ e <= Qabs x -> Qabs x < 2 ^ (e + 1) -> exponent x = e.
Proof.
  intros Hlo Hup.
  assert (Hx : ~ x == 0).
  { intro E. rewrite E in Hlo. pose proof (pow2_pos e). simpl in Hlo.
    change (Qabs 0) with 0 in Hlo. lra. }
  destruct (exponent_spec x Hx) as [Hlo' Hup'].
  assert (H1 : (e < exponent x + 1)%Z)
    by (apply pow2_lt_inv; apply (Qle_lt_trans _ (Qabs x)); assumption).
  assert (H2 : (exponent x < e + 1)%Z)
    by (apply pow2_lt_inv; apply (Qle_lt_trans _ (Qabs x)); assumption).
  lia.
Qed.

Lemma ulp_pos (x : Q) : 0 < ulp x.
Proof. apply pow2_pos. Qed.

Lemma nearest_even_spec (y : Q) :
  Qabs (inject_Z (nearest_even y) - y) <= 1 # 2.
Proof.
  unfold nearest_even.
  pose proof (Qfloor_le y) as Hlo. pose proof (Qlt_floor y) as Hup.
  rewrite inject_Z_plus in Hup. change (inject_Z 1) with 1 in Hup.
  set (f := Qfloor y) in *.
  destruct (Qcompare (y - inject_Z f) (1 # 2)) eqn:C.
  - apply Qeq_alt in C.
    destruct (Z.even f); [|rewrite inject_Z_plus; change (inject_Z 1) with 1];
      apply Qabs_Qle_condition; split; lra.
  - apply Qlt_alt in C. apply Qabs_Qle_condition; split; lra.
  - apply Qgt_alt in C. rewrite inject_Z_plus. change (inject_Z 1) with 1.
    apply Qabs_Qle_condition; split; lra.
Qed.

Lemma nearest_even_comp (y y' : Q) : y == y' -> nearest_even y = nearest_even y'.
Proof.
  intro E. unfold nearest_even. rewrite (Qfloor_comp y y' E).
  assert (C : Qcompare (y - inject_Z (Qfloor y')) (1 # 2) =
              Qcompare (y' - inject_Z (Qfloor y')) (1 # 2))
    by (apply Qcompare_comp; [now rewrite E|reflexivity]).
  now rewrite C.
Qed.

Lemma nearest_even_Z (n : Z) : nearest_even (inject_Z n) = n.
Proof.
  unfold nearest_even. rewrite Qfloor_Z.
  assert (C : Qcompare (inject_Z n - inject_Z n) (1 # 2) = Lt)
    by (apply (proj1 (Qlt_alt _ _)); lra).
  now rewrite C.
Qed.

Lemma nearest_even_nonneg (y : Q) : 0 <= y -> (0 <= nearest_even y)%Z.
Proof.
  intro H. unfold nearest_even.
  assert (Hf : (0 <= Qfloor y)%Z)
    by (rewrite <- (Qfloor_Z 0); now apply Qfloor_resp_le).
  destruct (Qcompare (y - inject_Z (Qfloor y)) (1 # 2)); [destruct (Z.even _)| |]; lia.
Qed.

Lemma round_correct (x : Q) :
  round x == inject_Z (nearest_even (x / ulp x)) * ulp x.
Proof. apply Qred_correct. Qed.

Lemma round_zero (x : Q) : x == 0 -> round x = 0.
Proof.
  intro E. unfold round.
  assert (H : x / ulp x == inject_Z 0).
  { generalize (ulp x). intro u. rewrite E. unfold Qdiv. ring. }
  rewrite (nearest_even_comp _ _ H), nearest_even_Z.
  change 0 with (Qred 0). apply Qred_complete. ring.
Qed.

Lemma exponent_comp (x y : Q) : ~ x == 0 -> x == y -> exponent x = exponent y.
Proof.
  intros Hx E. destruct (exponent_spec x Hx) as [Hlo Hup].
  symmetry. apply exponent_unique; now rewrite <- E.
Qed.

Lemma round_comp (x y : Q) : x == y -> round x = round y.
Proof.
  intro E. destruct (Qeq_dec x 0) as [H0|H0].
  - rewrite (round_zero x H0). symmetry. apply round_zero. now rewrite <- E.
  - unfold round, ulp. rewrite <- (exponent_comp x y H0 E).
    apply Qred_complete.
    generalize (2 ^ Z.max (exponent x - 52) (-1074)). intro u.
    assert (H : x / u == y / u) by now rewrite E.
    now rewrite (nearest_even_comp _ _ H).
Qed.

(** The result is within half a unit in the last place. *)
Lemma round_error (x : Q) : Qabs (round x - x) <= ulp x / 2.
Proof.
  pose proof (ulp_pos x) as Hu. pose proof (nearest_even_spec (x / ulp x)) as H.
  rewrite round_correct.
  set (m := inject_Z (nearest_even (x / ulp x))) in *.
  assert (E : m * ulp x - x == (m - x / ulp x) * ulp x) by (field; lra).
  rewrite E, Qabs_Qmult, (Qabs_pos (ulp x)) by lra.
  apply Qle_shift_div_l; [reflexivity|].
  assert (Qabs (m - x / ulp x) * ulp x <= (1 # 2) * ulp x)
    by (apply Qmult_le_compat_r; lra).
  lra.
Qed.

Lemma ulp_le_pow2 (x : Q) (k : Z) :
  ~ x == 0 -> Qabs x <= 2 ^ k -> (-1022 <= k)%Z -> ulp x <= 2 ^ (k - 52).
Proof.
  intros Hx Hk Hmin. destruct (exponent_spec x Hx) as [Hlo _].
  assert (He : (exponent x < k + 1)%Z).
  { apply pow2_lt_inv. apply (Qle_lt_trans _ (2 ^ k)); [lra|].
    apply Qpower_lt_compat_l; [lia|reflexivity]. }
  apply pow2_le. lia.
Qed.

Lemma ulp_rel (x : Q) :
  2 ^ (-1022) <= Qabs x -> ulp x <= Qabs x * 2 ^ (-52).
Proof.
  intro Hmin.
  assert (Hx : ~ x == 0).
  { intro E. rewrite E in Hmin. change (Qabs 0) with 0 in Hmin.
    pose proof (pow2_pos (-1022)). lra. }
  destruct (exponent_spec x Hx) as [Hlo Hup].
  assert (He : (-1022 < exponent x + 1)%Z)
    by (apply pow2_lt_inv; apply (Qle_lt_trans _ (Qabs x)); assumption).
  unfold ulp. rewrite Z.max_l by lia.
  replace (exponent x - 52)%Z with (exponent x + (-52))%Z by lia.
  rewrite pow2_plus. apply Qmult_le_compat_r; [assumption|].
  apply Qlt_le_weak, pow2_pos.
Qed.

(** Absolute error for an argument of magnitude at most [2 ^ k]. *)
Lemma round_abs (x : Q) (k : Z) :
  Qabs x <= 2 ^ k -> (-1022 <= k)%Z -> Qabs (round x - x) <= 2 ^ (k - 53).
Proof.
  intros Hk Hmin. destruct (Qeq_dec x 0) as [H0|H0].
  - rewrite (round_zero x H0), H0. change (Qabs (0 - 0)) with 0.
    apply Qlt_le_weak, pow2_pos.
  - apply (Qle_trans _ _ _ (round_error x)).
    pose proof (ulp_le_pow2 x k H0 Hk Hmin) as Hu.
    replace (k - 52)%Z with ((k - 53) + 1)%Z in Hu by lia.
    rewrite pow2_succ in Hu. apply Qle_shift_div_r; [reflexivity|]. lra.
Qed.

(** Relative error for an argument in the normal range. *)
Lemma round_rel (x : Q) :
  2 ^ (-1022) <= Qabs x -> Qabs (round x - x) <= Qabs x * 2 ^ (-53).
Proof.
  intro Hmin. apply (Qle_trans _ _ _ (round_error x)).
  pose proof (ulp_rel x Hmin) as Hu.
  replace (-52)%Z with (-53 + 1)%Z in Hu by lia. rewrite pow2_succ in Hu.
  apply Qle_shift_div_r; [reflexivity|]. lra.
Qed.

Lemma round_nonneg (x : Q) : 0 <= x -> 0 <= round x.
Proof.
  intro H. rewrite round_correct. pose proof (ulp_pos x) as Hu.
  apply Qmult_le_0_compat; [|lra].
  change 0 with (inject_Z 0). rewrite <- Zle_Qle. apply nearest_even_nonneg.
  apply Qle_shift_div_l; [exact Hu|]. rewrite Qmult_0_l. exact H.
Qed.

Lemma Qred_inject_Z (n : Z) : Qred (inject_Z n) = inject_Z n.
Proof.
  unfold Qred, inject_Z. cbn [Qnum Qden].
  pose proof (Z.ggcd_gcd n 1) as Hg. pose proof (Z.ggcd_correct_divisors n 1) as Hd.
  destruct (Z.ggcd n 1) as [g [a b]]. cbn [fst snd] in *.
  rewrite Z.gcd_1_r in Hg. subst g. destruct Hd as [Ha Hb].
  assert (Eb : b = 1%Z) by lia. assert (Ea : a = n) by lia. subst a b.
  reflexivity.
Qed.

(** A value that is a whole number of units in the last place is kept. *)
Lemma round_fixed (x : Q) (m : Z) : x == inject_Z m * ulp x -> round x = Qred x.
Proof.
  intro E. unfold round. pose proof (ulp_pos x) as Hu.
  assert (H : x / ulp x == inject_Z m).
  { rewrite E at 1. field. lra. }
  rewrite (nearest_even_comp _ _ H), nearest_even_Z.
  apply Qred_complete. now symmetry.
Qed.

Lemma exponent_Z (n : Z) : n <> 0%Z -> exponent (inject_Z n) = Z.log2 (Z.abs n).
Proof.
  intro Hn. assert (H : (0 < Z.abs n)%Z) by lia.
  pose proof (Z.log2_spec _ H) as [H1 H2]. pose proof (Z.log2_nonneg (Z.abs n)) as H0.
  assert (Habs : Qabs (inject_Z n) == inject_Z (Z.abs n)) by reflexivity.
  apply exponent_unique; rewrite Habs.
  - rewrite <- pow2_Z by assumption. now rewrite <- Zle_Qle.
  - rewrite <- pow2_Z by lia. now rewrite <- Zlt_Qlt.
Qed.

(** The whole numbers up to [2 ^ 53] are doubles. *)
Lemma round_Z (n : Z) : (Z.abs n <= 2 ^ 53)%Z -> round (inject_Z n) = inject_Z n.
Proof.
  intro Hn. destruct (Z.eq_dec n 0) as [->|H0]; [reflexivity|].
  pose proof (exponent_Z n H0) as He.
  assert (H : (0 < Z.abs n)%Z) by lia.
  pose proof (Z.log2_spec _ H) as [H1 H2]. pose proof (Z.log2_nonneg (Z.abs n)) as Hl.
  set (e := Z.log2 (Z.abs n)) in *.
  assert (He53 : (e <= 53)%Z).
  { destruct (Z_le_gt_dec e 53) as [L|G]; [assumption|].
    assert ((2 ^ 54 <= 2 ^ e)%Z) by (apply Z.pow_le_mono_r; lia).
    assert ((2 ^ 53 < 2 ^ 54)%Z) by reflexivity. lia. }
  rewrite <- (Qred_inject_Z n) at 2.
  destruct (Z.eq_dec e 53) as [E53|N53].
  - apply (round_fixed _ (n / 2)).
    unfold ulp. rewrite He, E53. change (Z.max (53 - 52) (-1074)) with 1%Z.
    change (2 ^ 1) with (inject_Z 2). rewrite <- inject_Z_mult. 
    rewrite E53 in H1.
    assert (Z.abs n = 2 ^ 53)%Z by lia.
    assert (n = 2 ^ 53 \/ n = - 2 ^ 53)%Z as [-> | ->] by lia; reflexivity.
  - apply (round_fixed _ (n * 2 ^ (52 - e))).
    unfold ulp. rewrite He, Z.max_l by lia.
    rewrite inject_Z_mult, pow2_Z by lia.
    rewrite <- Qmult_assoc, <- pow2_plus.
    replace (52 - e + (e - 52))%Z with 0%Z by lia. change (2 ^ 0) with 1. ring.
Qed.

Lemma of_exact_finite (x : Q) :
  Qabs (round x) < 2 ^ 1024 -> of_exact x = Finite (round x).
Proof.
  intro H. unfold of_exact.
  destruct (Qle_bool (2 ^ 1024) (Qabs (round x))) eqn:E; [|reflexivity].
  apply Qle_bool_iff in E. lra.
Qed.

End Binary64Properties.

(** ** The cart *)
Section CartProperties.
Import Cart.

Lemma has_id_true (pid : string) (i : CartItem) :
  has_id pid i = true <-> id (product i) = pid.
Proof. apply String.eqb_eq. Qed.

Lemma has_id_false (pid : string) (i : CartItem) :
  has_id pid i = false <-> id (product i) <> pid.
Proof. apply String.eqb_neq. Qed.

Lemma find_present (pid : string) (l : list CartItem) :
  (exists i, In i l /\ id (product i) = pid) ->
  exists i, find (has_id pid) l = Some i.
Proof.
  intros (i & Hin & Hid).
  destruct (find (has_id pid) l) as [j|] eqn:F; [now exists j|].
  apply (find_none _ _ F) in Hin. apply has_id_false in Hin. contradiction.
Qed.

Lemma find_absent (pid : string) (l : list CartItem) :
  (forall i, In i l -> id (product i) <> pid) ->
  find (has_id pid) l = None.
Proof.
  intros H. destruct (find (has_id pid) l) as [j|] eqn:F; [|reflexivity].
  apply find_some in F. destruct F as [Hin Hid].
  apply has_id_true in Hid. now apply H in Hin.
Qed.

(** Quantity update of the entries of one product, in place. *)
Lemma map_in_place (pid : string) (f : CartItem -> number) (l : list CartItem) :
  Forall2 (fun i i' =>
             product i' = product i /\
             if has_id pid i then quantity i' = f i else i' = i)
          l
          (map (fun i => if has_id pid i
                         then {| product := product i; quantity := f i |}
                         else i) l).
Proof.
  induction l as [|i l IH]; simpl; constructor; auto.
  destruct (has_id pid i); auto.
Qed.

Lemma Math_min_l (a b : number) : a <= b -> Math_min a b = a.
Proof.
  intro H. unfold Math_min. apply Qle_bool_iff in H. now rewrite H.
Qed.

Lemma Math_min_r (a b : number) : b < a -> Math_min a b = b.
Proof.
  intro H. unfold Math_min. destruct (Qle_bool a b) eqn:E; [|reflexivity].
  apply Qle_bool_iff in E. exfalso. exact (Qlt_not_le _ _ H E).
Qed.

(** The sum of two whole numbers is exact in binary64 as long as it
    stays within [2 ^ 53]. *)
Lemma round_whole_sum (x y : number) (a b : Z) :
  x == inject_Z a -> y == inject_Z b -> (Z.abs (a + b) <= 2 ^ 53)%Z ->
  Binary64.round (x + y) = inject_Z (a + b).
Proof.
  intros Ex Ey H. rewrite <- (round_Z (a + b) H). apply round_comp.
  rewrite Ex, Ey, inject_Z_plus. reflexivity.
Qed.

(** C9.  Adding to the cart merges into the entries of the same
    product when there is one: the cart keeps its length, the other
    entries stay as they are, and the quantity of such an entry becomes
    the sum of what it held and what is added, cut down to the stock of
    the product being added; for whole numbers whose sum stays within
    [2 ^ 53] that is their exact sum when the sum is within the stock,
    and the stock when the sum is above it.  When there is no such
    entry, a single entry is appended, with the added quantity when it
    is within the stock and with the stock otherwise.  In both cases no
    entry of the product ends above the stock.  Adding 5 of a product
    with stock 3 to the empty cart gives one entry, of quantity 3. *)
Theorem add_merges_and_clamps (s : State) (p : Product) (q : option number) :
  let addQty := nullish q 1 in
  let s' := addItem s p q in
  ((exists i, In i (items s) /\ id (product i) = id p) ->
   List.length (items s') = List.length (items s) /\
   Forall2 (fun i i' =>
              product i' = product i /\
              if has_id (id p) i
              then quantity i' =
                   Math_min (Binary64.round (quantity i + addQty)) (stock p) /\
                   forall a b : Z,
                     quantity i == inject_Z a -> addQty == inject_Z b ->
                     (Z.abs (a + b) <= 2 ^ 53)%Z ->
                     (inject_Z (a + b) <= stock p ->
                      quantity i' = inject_Z (a + b)) /\
                     (stock p < inject_Z (a + b) -> quantity i' = stock p)
              else i' = i)
           (items s) (items s')) /\
  ((forall i, In i (items s) -> id (product i) <> id p) ->
   exists i',
     items s' = items s ++ [i'] /\ product i' = p /\
     (addQty <= stock p -> quantity i' = addQty) /\
     (stock p < addQty -> quantity i' = stock p)) /\
  (forall i', In i' (items s') -> id (product i') = id p ->
              quantity i' <= stock p) /\
  (stock p == 3 ->
   exists i, items (addItem initial p (Some 5)) = [i] /\
             product i = p /\ quantity i == 3 /\ ~ quantity i == 5).
Proof.
  intros addQty s'. subst s'. unfold addItem, reducer. fold addQty.
  split; [|split; [|split]].
  - intro H. destruct (find_present (id p) (items s) H) as [j ->]. simpl.
    split; [now rewrite length_map|].
    clear H j. induction (items s) as [|i l IH]; simpl; constructor; [|exact IH].
    split; [now destruct (has_id (id p) i)|].
    destruct (has_id (id p) i); [|reflexivity]. simpl.
    split; [reflexivity|]. intros a b Ea Eb Hab.
    rewrite (round_whole_sum _ _ a b Ea Eb Hab). split; intro Hs.
    + now apply Math_min_l.
    + now apply Math_min_r.
  - intros H. rewrite (find_absent _ _ H). eexists. split; [reflexivity|]. simpl.
    split; [reflexivity|]. split; intro Hs.
    + now apply Math_min_l.
    + now apply Math_min_r.
  - intros i' Hin Hid.
    destruct (find (has_id (id p)) (items s)) as [j|] eqn:F; simpl in Hin.
    + apply in_map_iff in Hin. destruct Hin as (i & Hi & Hin).
      destruct (has_id (id p) i) eqn:E.
      * subst i'. simpl. apply Math_min_le_r.
      * subst i'. apply has_id_false in E. contradiction.
    + apply in_app_or in Hin. destruct Hin as [Hin|[<-|[]]].
      * apply (find_none _ _ F) in Hin. apply has_id_false in Hin. contradiction.
      * simpl. apply Math_min_le_r.
  - intros H3. simpl. eexists. split; [reflexivity|]. simpl.
    assert (E : Math_min 5 (stock p) = stock p).
    { apply Math_min_r. rewrite H3. reflexivity. }
    rewrite E. repeat split; [assumption|].
    intro H5. rewrite H3 in H5. unfold Qeq in H5. simpl in H5. lia.
Qed.

(** Two more of a product of which the cart holds two, the stock being
    five: the entry goes to four; and the example of the
    specification. *)
Lemma add_merges_and_clamps_witness :
  (exists i' rest,
     items (addItem CartSpec.two_products Sample.p1 (Some 2)) = i' :: rest /\
     product i' = Sample.p1 /\ quantity i' = 4) /\
  items (addItem initial Sample.three_left (Some 5)) =
  [ {| product := Sample.three_left; quantity := 3 |} ].
Proof.
  split.
  - destruct (add_merges_and_clamps CartSpec.two_products Sample.p1 (Some 2))
      as (Hmerge & _).
    destruct Hmerge as [_ H].
    { eexists. split; [now left|reflexivity]. }
    remember (items (addItem CartSpec.two_products Sample.p1 (Some 2))) as L.
    inversion H as [|i i' l l' Hhd _ E1 E2]. clear H E1 E2.
    change (has_id (id Sample.p1) {| product := Sample.p1; quantity := 2 |})
      with true in Hhd.
    destruct Hhd as [Hp [_ Hq]].
    destruct (Hq 2%Z 2%Z) as [Hsum _];
      [reflexivity|reflexivity|vm_compute; discriminate|].
    exists i', l'. repeat split; [exact Hp|apply Hsum; vm_compute; discriminate].
  - destruct (add_merges_and_clamps initial Sample.three_left (Some 5))
      as (_ & Happ & _).
    destruct Happ as (i' & Hitems & Hp & _ & Hq); [intros i []|].
    rewrite Hitems. destruct i' as [p' q']. simpl in *. subst p'.
    rewrite (Hq eq_refl). reflexivity.
Defined.

Lemma update_to_nonpositive_removes (t : State) (pid : string) (n : number) :
  n <= 0 ->
  forall i, In i (items (updateQuantity t pid n)) <->
            In i (items t) /\ id (product i) <> pid.
Proof.
  intros Hn i. unfold updateQuantity, reducer.
  apply Qle_bool_iff in Hn. rewrite Hn. simpl.
  rewrite filter_In, negb_true_iff, has_id_false. reflexivity.
Qed.

(** C10.  Adding a product whose stock is 0 and which the cart does not
    hold yet appends an entry of quantity 0: the cart changes, the new
    state is reachable through the public operations, and not every
    quantity in it is strictly positive.  Setting a quantity that is
    [<= 0] on the other hand removes the entries of that product. *)
Theorem add_reaches_zero_quantity (s : State) (p : Product) (q : option number) :
  reachable s ->
  (forall i, In i (items s) -> id (product i) <> id p) ->
  stock p == 0 ->
  0 <= nullish q 1 ->
  let s' := addItem s p q in
  reachable s' /\
  (exists i, items s' = items s ++ [i] /\ product i = p /\ quantity i == 0) /\
  items s' <> items s /\
  ~ Spec.all_positive s' /\
  (forall t pid n, n <= 0 ->
     forall i, In i (items (updateQuantity t pid n)) <->
               In i (items t) /\ id (product i) <> pid).
Proof.
  intros Hreach Hnew Hstock Hq s'.
  assert (Hitems : items s' =
                   items s ++ [ {| product := p;
                                   quantity := Math_min (nullish q 1) (stock p) |} ]).
  { subst s'. unfold addItem, reducer. now rewrite (find_absent _ _ Hnew). }
  assert (Hzero : Math_min (nullish q 1) (stock p) == 0)
    by now apply Math_min_zero_stock.
  split; [now constructor|].
  split; [eexists; split; [exact Hitems|split; [reflexivity|exact Hzero]]|].
  split.
  { rewrite Hitems. intro E. apply (f_equal (@List.length _)) in E.
    rewrite length_app in E. simpl in E. lia. }
  split.
  { unfold Spec.all_positive. rewrite Hitems, Forall_app.
    intros [_ H]. inversion H as [|? ? Hpos _]; subst. simpl in Hpos.
    rewrite Hzero in Hpos. discriminate Hpos. }
  intros t pid n Hn. now apply update_to_nonpositive_removes.
Qed.

(** From the empty cart, with the default quantity. *)
Lemma add_reaches_zero_quantity_witness :
  reachable (addItem initial Sample.sold_out None) /\
  exists i, In i (items (addItem initial Sample.sold_out None)) /\
            quantity i == 0.
Proof.
  assert (Hnew : forall i, In i (items initial) ->
                           id (product i) <> id Sample.sold_out)
    by (intros i []).
  assert (Hstock : stock Sample.sold_out == 0) by reflexivity.
  assert (Hq : 0 <= nullish None 1) by (simpl; lra).
  destruct (add_reaches_zero_quantity initial Sample.sold_out None
              reach_init Hnew Hstock Hq)
    as (Hr & (i & Hi & _ & Hz) & _).
  split; [exact Hr|].
  exists i. split; [|exact Hz].
  rewrite Hi. apply in_or_app. right. now left.
Defined.

End CartProperties.

(** ** Rounding *)
Section Rounding.

(** [Math.round] lands within one half of its argument, and reaches
    the lower end of that range never. *)
Lemma Math_round_near (x : number) :
  x - (1 # 2) < Math_round x /\ Math_round x <= x + (1 # 2).
Proof.
  unfold Math_round.
  pose proof (Qfloor_le (x + (1 # 2))) as Hle.
  pose proof (Qlt_floor (x + (1 # 2))) as Hlt.
  rewrite inject_Z_plus in Hlt. change (inject_Z 1) with 1 in Hlt.
  split; lra.
Qed.

Lemma Math_round_half_away (x : number) :
  0 <= x -> Spec.half_away_from_zero x (Qfloor (x + (1 # 2))).
Proof.
  intro Hx. destruct (Math_round_near x) as [Hlo Hhi].
  unfold Math_round in Hlo, Hhi. unfold Spec.half_away_from_zero.
  set (n := inject_Z (Qfloor (x + (1 # 2)))) in *.
  split.
  - apply Qabs_Qle_condition. split; lra.
  - intro Htie.
    assert (Hn : n == x + (1 # 2)).
    { revert Htie. apply Qabs_case; intros; lra. }
    rewrite (Qabs_pos x Hx). rewrite Qabs_pos; lra.
Qed.

(** Below zero, ties go up, not away from zero; and ties do not go to
    the even neighbour. *)
Lemma Math_round_ties :
  Math_round (5 # 2) == 3 /\ Math_round (- (5 # 2)) == - (2) /\
  Math_round (1 # 2) == 1 /\
  ~ Spec.half_away_from_zero (- (5 # 2)) (Qfloor (- (5 # 2) + (1 # 2))) /\
  ~ Spec.half_to_even (1 # 2) (Qfloor ((1 # 2) + (1 # 2))).
Proof.
  repeat split; try reflexivity.
  - intros [_ H]. simpl in H. assert (T : (5 # 2) <= 2) by (apply H; reflexivity).
    revert T. apply Qlt_not_le. reflexivity.
  - intros [_ H]. simpl in H. discriminate H. reflexivity.
Qed.

(** A number less than one half away from a whole number rounds to
    it. *)
Lemma Math_round_close (x : number) (k : Z) :
  Qabs (x - inject_Z k) < 1 # 2 -> Math_round x = inject_Z k.
Proof.
  intro H. apply Qabs_Qlt_condition in H. destruct H as [Hlo Hhi].
  destruct (Math_round_near x) as [Hlo' Hhi'].
  unfold Math_round in *. set (m := Qfloor (x + (1 # 2))) in *.
  assert (H1 : inject_Z m < inject_Z (k + 1))
    by (rewrite inject_Z_plus; change (inject_Z 1) with 1; lra).
  assert (H2 : inject_Z k < inject_Z (m + 1))
    by (rewrite inject_Z_plus; change (inject_Z 1) with 1; lra).
  rewrite <- Zlt_Qlt in H1, H2.
  assert (Hm : m = k) by lia. now rewrite Hm.
Qed.

End Rounding.

(** ** The validator *)
Section ValidatorProperties.
Import Validate.

(** The sanity check against the specification's words. *)

Lemma positive_integer_checks (q : number) :
  Spec.positive_integer q <->
  Number_isInteger q = true /\ Qlt_bool q 1 = false.
Proof.
  unfold Number_isInteger. rewrite Qeq_bool_iff, Qlt_bool_false_iff. split.
  - intros (n & Hn & E). split.
    + rewrite (Qfloor_comp _ _ E), Qfloor_Z. now symmetry.
    + apply (Qle_trans _ (inject_Z n)); [|apply Qle_lteq; right; now symmetry].
      change 1 with (inject_Z 1). rewrite <- Zle_Qle. lia.
  - intros [E H1]. exists (Qfloor q). split; [|now symmetry].
    assert (H : inject_Z 1 <= inject_Z (Qfloor q))
      by (apply (Qle_trans _ q); [exact H1|apply Qle_lteq; right; now symmetry]).
    rewrite <- Zle_Qle in H. lia.
Qed.

Lemma well_formed_checked (e : entry) (s : string) (q : number) :
  Spec.well_formed e s q ->
  exists it, e = Some it /\ product_id it = JStr s /\ quantity it = JNum q /\
             checked_quantity it = Some q.
Proof.
  intros (Hs & Hq & ->). eexists. repeat split.
  apply positive_integer_checks in Hq. destruct Hq as [Hi Hl].
  unfold checked_quantity. simpl. rewrite Hi, Hl.
  destruct s; [contradiction|reflexivity].
Qed.

Lemma malformed_checked (e : entry) :
  Spec.malformed e ->
  exists it, e = Some it /\ checked_quantity it = None.
Proof.
  intros (it & -> & H). exists it. split; [reflexivity|].
  unfold checked_quantity. destruct H as [[E|[E|E]]|H].
  1-3: now rewrite E.
  destruct (truthy (product_id it)); [simpl|reflexivity].
  destruct (quantity it) as [| |b|q|s]; try reflexivity.
  destruct (Number_isInteger q) eqn:Hi; [|reflexivity].
  destruct (Qlt_bool q 1) eqn:Hl; [reflexivity|].
  exfalso. apply (H q eq_refl). now apply positive_integer_checks.
Qed.

(** Lookups against the specification's words. *)

Variable products : list Product.

Lemma lookup_in (v : jsval) (p : Product) :
  lookup products v = Some p -> In p products /\ v = JStr (id p).
Proof.
  unfold lookup. intro H.
  destruct (filter (eq_id v) products) as [|r [|r' l]] eqn:F; try discriminate.
  injection H as ->.
  assert (Hin : In p (filter (eq_id v) products)) by (rewrite F; now left).
  apply filter_In in Hin. destruct Hin as [Hin Hid]. split; [assumption|].
  destruct v; try discriminate. apply String.eqb_eq in Hid. now subst.
Qed.

Lemma lookup_missing (s : string) :
  Spec.missing products s -> lookup products (JStr s) = None.
Proof.
  intro H. destruct (lookup products (JStr s)) as [p|] eqn:L; [|reflexivity].
  apply lookup_in in L. destruct L as [Hin E]. injection E as E.
  apply H in Hin. congruence.
Qed.

(** [id] is the primary key of [products]. *)
Hypothesis primary_key : NoDup (map id products).

Lemma filter_none {A : Type} (f : A -> bool) (l : list A) :
  (forall x, In x l -> f x = false) -> filter f l = [].
Proof.
  induction l as [|a l IH]; intro H; [reflexivity|]. simpl.
  rewrite (H a (or_introl eq_refl)). apply IH. intros x Hx. apply H. now right.
Qed.

Lemma filter_key (l : list Product) (p : Product) :
  NoDup (map id l) -> In p l -> filter (eq_id (JStr (id p))) l = [p].
Proof.
  induction l as [|r l IH]; intros Hnd Hin; [contradiction|].
  inversion Hnd as [|? ? Hfresh Hnd']; subst. simpl.
  destruct Hin as [->|Hin].
  - rewrite String.eqb_refl. f_equal.
    apply filter_none. intros r Hr. apply String.eqb_neq. intro E.
    apply Hfresh. rewrite <- E. now apply in_map.
  - destruct (String.eqb (id r) (id p)) eqn:E.
    + apply String.eqb_eq in E. exfalso. apply Hfresh. rewrite E. now apply in_map.
    + now apply IH.
Qed.

Lemma lookup_stored (p : Product) :
  In p products -> lookup products (JStr (id p)) = Some p.
Proof.
  intro Hin. unfold lookup. now rewrite (filter_key products p primary_key Hin).
Qed.

(** One turn of the loop. *)

Lemma checked_quantity_some (it : CartItemPayload) (q : number) :
  checked_quantity it = Some q ->
  quantity it = JNum q /\ 1 <= q.
Proof.
  unfold checked_quantity. destruct (truthy (product_id it)); [simpl|discriminate].
  destruct (quantity it) as [| |b|n|s]; try discriminate.
  destruct (Number_isInteger n); [simpl|discriminate].
  destruct (Qlt_bool n 1) eqn:Hl; [discriminate|].
  intro E. injection E as <-. split; [reflexivity|].
  now apply Qlt_bool_false_iff.
Qed.

Lemma validate_cons_rejected (it : CartItemPayload) (rest : list entry)
  (acc : jsnumber) (log : access_log) :
  checked_quantity it = None ->
  validate_items products (Some it :: rest) acc log = (Returned invalid_item, log).
Proof. intro H. simpl. unfold bind, ret. now rewrite H. Qed.

Lemma validate_cons_checked (it : CartItemPayload) (q : number)
  (rest : list entry) (acc : jsnumber) (log : access_log) :
  checked_quantity it = Some q ->
  validate_items products (Some it :: rest) acc log =
  match lookup products (product_id it) with
  | None => (Returned (not_found (product_id it)), log ++ [product_id it])
  | Some p =>
      if Qlt_bool (stock p) q
      then (Returned (insufficient_stock p (quantity it)), log ++ [product_id it])
      else validate_items products rest (accumulate acc p q)
             (log ++ [product_id it])
  end.
Proof.
  intro H. simpl. unfold bind, ret. rewrite H. unfold select_product.
  destruct (lookup products (product_id it)) as [p|]; [|reflexivity].
  now destruct (Qlt_bool (stock p) q).
Qed.

Lemma validate_cons_passes (e : entry) (p : Product) (q : number)
  (rest : list entry) (acc : jsnumber) (log : access_log) :
  Spec.priced products e p q -> q <= stock p ->
  validate_items products (e :: rest) acc log =
  validate_items products rest (accumulate acc p q) (log ++ [JStr (id p)]) /\
  Spec.references [e] = [JStr (id p)].
Proof.
  intros [Hwf Hin] Hq.
  destruct (well_formed_checked _ _ _ Hwf) as (it & -> & Hid & Hqty & Hck).
  rewrite (validate_cons_checked _ _ _ _ _ Hck), Hid, (lookup_stored p Hin).
  apply Qlt_bool_false_iff in Hq. rewrite Hq.
  split; [reflexivity|]. simpl. now rewrite Hid.
Qed.

Lemma references_cons (e : entry) (l : list entry) :
  Spec.references (e :: l) = Spec.references [e] ++ Spec.references l.
Proof. unfold Spec.references. simpl. now rewrite app_nil_r. Qed.

(** The loop over a run of entries that pass: it goes on with the
    rest, one lookup made for each. *)
Lemma validate_passes (pre rest : list entry) :
  Forall (Spec.passes products) pre ->
  forall acc log,
  exists acc',
    validate_items products (pre ++ rest) acc log =
    validate_items products rest acc' (log ++ Spec.references pre).
Proof.
  induction 1 as [|e pre (p & q & Hp & Hq) _ IH]; intros acc log.
  - exists acc. simpl. now rewrite app_nil_r.
  - destruct (validate_cons_passes e p q (pre ++ rest) acc log Hp Hq)
      as (Hstep & Href).
    destruct (IH (accumulate acc p q) (log ++ [JStr (id p)])) as (acc' & Hrun).
    exists acc'.
    change ((e :: pre) ++ rest) with (e :: pre ++ rest).
    rewrite Hstep, Hrun, (references_cons e pre), Href.
    now rewrite <- app_assoc.
Qed.

(** [POST] for a signed-in caller and a non-empty array. *)
Lemma POST_items (u : User) (items : list entry) :
  items <> [] ->
  POST products {| session := Some u; body := BodyItems (Some items) |} =
  match validate_items products items (Finite 0) [] with
  | (Value total, log) => (success (rounded total), log)
  | (Returned r, log) => (r, log)
  | (Thrown, log) => (internal_error, log)
  end.
Proof.
  destruct items as [|e l]; [contradiction|intros _].
  cbv beta iota delta [POST handler request_json body_items bind ret session body].
  now destruct (validate_items products (e :: l) (Finite 0) []) as [[t|r|] log].
Qed.

(** The loop on a list that holds an entry failing the sanity check:
    it ends at that entry at the latest, with an error or an
    exception, and has looked up only entries that come before it. *)
Lemma validate_before_rejected (it : CartItemPayload) (post : list entry) :
  checked_quantity it = None ->
  forall pre acc log,
  exists o k,
    validate_items products (pre ++ Some it :: post) acc log =
    (o, log ++ firstn k (Spec.references pre)) /\
    match o with
    | Value _ => False
    | Returned r => exists msg, json r = Error msg
    | Thrown => True
    end /\
    (pre = [] -> o = Returned invalid_item).
Proof.
  intros Hck pre. induction pre as [|[it'|] pre IH]; intros acc log.
  - exists (Returned invalid_item), 0%nat.
    change ([] ++ Some it :: post) with (Some it :: post).
    rewrite (validate_cons_rejected _ _ _ _ Hck). simpl. rewrite app_nil_r.
    split; [reflexivity|]. split; [now eexists|reflexivity].
  - change ((Some it' :: pre) ++ Some it :: post)
      with (Some it' :: pre ++ Some it :: post).
    rewrite references_cons. change (Spec.references [Some it']) with [product_id it'].
    destruct (checked_quantity it') as [q|] eqn:Hck'.
    + rewrite (validate_cons_checked _ _ _ _ _ Hck').
      destruct (lookup products (product_id it')) as [p|].
      * destruct (Qlt_bool (stock p) q).
        -- exists (Returned (insufficient_stock p (quantity it'))), 1%nat.
           split; [reflexivity|]. split; [now eexists|discriminate].
        -- destruct (IH (accumulate acc p q) (log ++ [product_id it']))
             as (o & k & Hrun & Ho & _).
           exists o, (S k). rewrite Hrun. simpl. rewrite <- app_assoc.
           split; [reflexivity|]. split; [exact Ho|discriminate].
      * exists (Returned (not_found (product_id it'))), 1%nat.
        split; [reflexivity|]. split; [now eexists|discriminate].
    + rewrite (validate_cons_rejected _ _ _ _ Hck').
      exists (Returned invalid_item), 0%nat. simpl. rewrite app_nil_r.
      split; [reflexivity|]. split; [now eexists|discriminate].
  - exists Thrown, 0%nat. simpl. rewrite app_nil_r.
    split; [reflexivity|]. split; [exact I|discriminate].
Qed.

(** *** The claims about the validator

    Throughout, [products] is a table keyed by [id]. *)

(** C3, amended.  For a signed-in caller, a well-formed entry whose
    product id is not in the collection makes the validator answer 404
    naming that id, however many passing entries come before it and
    whatever comes after; the response carries an error only. *)
Theorem missing_product_not_found (u : User) (pre post : list entry)
  (e : entry) (s : string) (q : number) :
  Forall (Spec.passes products) pre ->
  Spec.well_formed e s q ->
  Spec.missing products s ->
  POST products {| session := Some u; body := BodyItems (Some (pre ++ e :: post)) |} =
  ({| status := 404; json := Error [Text "Product not found: "; Interp (JStr s)] |},
   Spec.references pre ++ [JStr s]).
Proof.
  intros Hpre Hwf Hmiss.
  rewrite POST_items by (now destruct pre).
  destruct (validate_passes pre (e :: post) Hpre (Finite 0) []) as (acc' & ->).
  destruct (well_formed_checked _ _ _ Hwf) as (it & -> & Hid & _ & Hck).
  rewrite (validate_cons_checked _ _ _ _ _ Hck), Hid, (lookup_missing s Hmiss).
  reflexivity.
Qed.

(** C4, amended.  For a signed-in caller, a well-formed entry for a
    stored product that asks for more than its stock, coming after
    entries that all pass, makes the validator answer 409 naming the
    product, its stock and the requested quantity; what comes after the
    entry is neither looked up nor reflected in the response. *)
Theorem stock_conflict_first (u : User) (pre post : list entry)
  (e : entry) (p : Product) (q : number) :
  Forall (Spec.passes products) pre ->
  Spec.priced products e p q ->
  stock p < q ->
  POST products {| session := Some u; body := BodyItems (Some (pre ++ e :: post)) |} =
  ({| status := 409;
      json := Error [Text ("Insufficient stock for " ++ quote);
                     Interp (JStr (name p));
                     Text (quote ++ ". Available: ");
                     Interp (JNum (stock p));
                     Text ", Requested: ";
                     Interp (JNum q)] |},
   Spec.references pre ++ [JStr (id p)]).
Proof.
  intros Hpre [Hwf Hin] Hq.
  rewrite POST_items by (now destruct pre).
  destruct (validate_passes pre (e :: post) Hpre (Finite 0) []) as (acc' & ->).
  destruct (well_formed_checked _ _ _ Hwf) as (it & -> & Hid & Hqty & Hck).
  rewrite (validate_cons_checked _ _ _ _ _ Hck), Hid, (lookup_stored p Hin).
  apply Qlt_bool_iff in Hq. rewrite Hq, Hqty. reflexivity.
Qed.

(** C5, amended.  For a signed-in caller, a malformed entry in the
    list makes the validator answer with an error, whatever the other
    entries are, and the only lookups it has made are for entries that
    precede the malformed one, from the first on and in order; when the
    malformed entry is the first of the list, the answer is 400 and no
    lookup was made. *)
Theorem malformed_entry_lookups (u : User) (pre post : list entry) (e : entry) :
  Spec.malformed e ->
  let req := {| session := Some u; body := BodyItems (Some (pre ++ e :: post)) |} in
  (exists msg, json (response products req) = Error msg) /\
  (exists k, accesses products req = firstn k (Spec.references pre)) /\
  (pre = [] -> POST products req = (invalid_item, [])).
Proof.
  intros Hbad req.
  destruct (malformed_checked e Hbad) as (it & -> & Hck).
  destruct (validate_before_rejected it post Hck pre (Finite 0) [])
    as (o & k & Hrun & Ho & Hfirst).
  assert (HP : POST products req =
               (match o with
                | Value total => success (rounded total)
                | Returned r => r
                | Thrown => internal_error
                end, firstn k (Spec.references pre))).
  { subst req. rewrite POST_items by (now destruct pre). rewrite Hrun.
    now destruct o. }
  unfold response, accesses. rewrite HP. simpl. split; [|split].
  - destruct o as [t|r|]; [contradiction|exact Ho|now eexists].
  - now exists k.
  - intro E. rewrite (Hfirst E). subst pre. simpl. now destruct k.
Qed.

(** C6, amended.  For a signed-in caller, an entry with a missing or
    empty product reference, or with a quantity that is not a positive
    integer, makes the validator answer 400 when every entry before it
    passes. *)
Theorem malformed_entry_rejected (u : User) (pre post : list entry) (e : entry) :
  Forall (Spec.passes products) pre ->
  Spec.malformed e ->
  POST products {| session := Some u; body := BodyItems (Some (pre ++ e :: post)) |} =
  ({| status := 400; json := Error [Text "Invalid item in cart."] |},
   Spec.references pre).
Proof.
  intros Hpre Hbad.
  rewrite POST_items by (now destruct pre).
  destruct (validate_passes pre (e :: post) Hpre (Finite 0) []) as (acc' & ->).
  destruct (malformed_checked e Hbad) as (it & -> & Hck).
  now rewrite (validate_cons_rejected _ _ _ _ Hck).
Qed.

(** C7.  Without a session the validator answers 401 whatever the
    body is, and makes no lookup. *)
Theorem unauthenticated_rejected (b : Body) :
  POST products {| session := None; body := b |} =
  ({| status := 401; json := Error [Text "Authentication required."] |}, []).
Proof. reflexivity. Qed.

End ValidatorProperties.

(** *** The validator on the sample data *)
Section ValidatorExamples.
Import Validate Sample.

Lemma shop_key : NoDup (map id shop).
Proof.
  repeat constructor; simpl; intuition discriminate.
Qed.

Lemma item_well_formed (s : string) (n : Z) :
  s <> EmptyString -> (0 < n)%Z ->
  Spec.well_formed (item s (inject_Z n)) s (inject_Z n).
Proof.
  intros Hs Hn. repeat split; [assumption|]. exists n. split; [assumption|reflexivity].
Qed.

Lemma item_passes (p : Product) (n : Z) :
  In p shop -> id p <> EmptyString -> (0 < n)%Z -> inject_Z n <= stock p ->
  Spec.passes shop (item (id p) (inject_Z n)).
Proof.
  intros Hin Hs Hn Hq. exists p, (inject_Z n).
  repeat split; try assumption. exists n. split; [assumption|reflexivity].
Qed.

Lemma p1_passes (n : Z) : (0 < n <= 5)%Z -> Spec.passes shop (item "p1" (inject_Z n)).
Proof.
  intros [H0 H5]. apply (item_passes p1 n); [now left|discriminate|assumption|].
  change (stock p1) with (inject_Z 5). now rewrite <- Zle_Qle.
Qed.

Lemma p2_passes (n : Z) : (0 < n <= 3)%Z -> Spec.passes shop (item "p2" (inject_Z n)).
Proof.
  intros [H0 H3]. apply (item_passes p2 n); [right; now left|discriminate|assumption|].
  change (stock p2) with (inject_Z 3). now rewrite <- Zle_Qle.
Qed.

Lemma empty_reference_malformed (q : number) : Spec.malformed (item EmptyString q).
Proof. eexists. split; [reflexivity|]. left. right. right. reflexivity. Qed.

Lemma zero_quantity_malformed (s : string) : Spec.malformed (item s 0).
Proof.
  eexists. split; [reflexivity|]. right. intros q E. injection E as <-.
  intros (n & Hn & E). unfold Qeq in E. simpl in E. lia.
Qed.

Lemma unknown_missing : Spec.missing shop "unknown".
Proof. intros p [<-|[<-|[]]]; discriminate. Qed.

Lemma missing_product_not_found_witness :
  POST shop (signed_in ([item "p1" 2] ++ item "unknown" 1 :: [item "p2" 1])) =
  ({| status := 404;
      json := Error [Text "Product not found: "; Interp (JStr "unknown")] |},
   [JStr "p1"; JStr "unknown"]).
Proof.
  assert (Hpre : Forall (Spec.passes shop) [item "p1" 2])
    by (repeat constructor; apply (p1_passes 2); lia).
  assert (Hwf : Spec.well_formed (item "unknown" 1) "unknown" 1)
    by (apply (item_well_formed "unknown" 1); [discriminate|lia]).
  exact (missing_product_not_found shop shop_key alice _ [item "p2" 1] _ _ _
           Hpre Hwf unknown_missing).
Defined.

(** C3, as stated, at a list whose second entry names a product that
    does not exist: the answer is the stock conflict of the first
    entry, and the missing id is not named. *)
Lemma later_missing_product_unreported :
  In (item "unknown" 1) [item "p1" 10; item "unknown" 1] /\
  Spec.missing shop "unknown" /\
  POST shop (signed_in [item "p1" 10; item "unknown" 1]) =
  (insufficient_stock p1 (JNum 10), [JStr "p1"]) /\
  response shop (signed_in [item "p1" 10; item "unknown" 1]) <>
  not_found (JStr "unknown").
Proof.
  repeat split; [right; now left|exact unknown_missing|discriminate].
Qed.

Lemma stock_conflict_first_witness :
  POST shop (signed_in ([item "p2" 1] ++ item "p1" 10 :: [item "p2" 99])) =
  ({| status := 409;
      json := Error [Text ("Insufficient stock for " ++ quote);
                     Interp (JStr "Widget");
                     Text (quote ++ ". Available: ");
                     Interp (JNum 5);
                     Text ", Requested: ";
                     Interp (JNum 10)] |},
   [JStr "p2"; JStr "p1"]).
Proof.
  assert (Hpre : Forall (Spec.passes shop) [item "p2" 1])
    by (repeat constructor; apply (p2_passes 1); lia).
  assert (Hp : Spec.priced shop (item "p1" 10) p1 10)
    by (split; [apply (item_well_formed "p1" 10); [discriminate|lia]|now left]).
  assert (Hq : stock p1 < 10) by reflexivity.
  exact (stock_conflict_first shop shop_key alice _ [item "p2" 99] _ p1 10
           Hpre Hp Hq).
Defined.

(** C4, as stated, at a single entry asking for five and a half units
    of a product with five in stock: the answer is 400, not the stock
    conflict. *)
Lemma fractional_quantity_over_stock :
  Spec.stored shop "p1" p1 /\
  stock p1 < 11 # 2 /\
  POST shop (signed_in [item "p1" (11 # 2)]) =
  ({| status := 400; json := Error [Text "Invalid item in cart."] |}, []) /\
  response shop (signed_in [item "p1" (11 # 2)]) <>
  insufficient_stock p1 (JNum (11 # 2)).
Proof.
  repeat split; [now left|discriminate].
Qed.

(** A malformed entry after one that names no stored product and one
    that is not an object at all. *)
Lemma malformed_entry_lookups_witness :
  (exists msg,
     json (response shop
             (signed_in ([item "unknown" 1; None] ++ item EmptyString 1 :: []))) =
     Error msg) /\
  (exists k,
     accesses shop
       (signed_in ([item "unknown" 1; None] ++ item EmptyString 1 :: [])) =
     firstn k [JStr "unknown"]) /\
  ([item "unknown" 1; None] = [] ->
   POST shop (signed_in ([item "unknown" 1; None] ++ item EmptyString 1 :: [])) =
   (invalid_item, [])).
Proof.
  exact (malformed_entry_lookups shop alice [item "unknown" 1; None] [] _
           (empty_reference_malformed 1)).
Defined.

(** C5, as stated, at a list whose second entry has an empty product
    reference: the request is rejected, after the product of the first
    entry was looked up. *)
Lemma lookup_before_malformed_entry :
  Spec.malformed (item EmptyString 1) /\
  POST shop (signed_in [item "p1" 1; item EmptyString 1]) =
  ({| status := 400; json := Error [Text "Invalid item in cart."] |},
   [JStr "p1"]) /\
  accesses shop (signed_in [item "p1" 1; item EmptyString 1]) <> [].
Proof.
  repeat split; [apply empty_reference_malformed|discriminate].
Qed.

Lemma malformed_entry_rejected_witness :
  POST shop (signed_in ([item "p1" 1] ++ item "p2" 0 :: [item "p1" 1])) =
  ({| status := 400; json := Error [Text "Invalid item in cart."] |},
   [JStr "p1"]).
Proof.
  assert (Hpre : Forall (Spec.passes shop) [item "p1" 1])
    by (repeat constructor; apply (p1_passes 1); lia).
  exact (malformed_entry_rejected shop shop_key alice _ [item "p1" 1] _
           Hpre (zero_quantity_malformed "p2")).
Defined.

(** C6, as stated, at a list whose second entry has quantity 0: the
    answer is the 404 of the first entry, not 400. *)
Lemma later_malformed_entry_unreported :
  Spec.malformed (item "p1" 0) /\
  POST shop (signed_in [item "unknown" 1; item "p1" 0]) =
  ({| status := 404;
      json := Error [Text "Product not found: "; Interp (JStr "unknown")] |},
   [JStr "unknown"]) /\
  status (response shop (signed_in [item "unknown" 1; item "p1" 0])) <> 400%Z.
Proof.
  repeat split; [apply zero_quantity_malformed|discriminate].
Qed.

End ValidatorExamples.

(** ** The order writer *)
Section OrderWriterProperties.
Import Checkout.

Variables (be : Backend) (address : Address) (items : list Cart.CartItem).

(** An order row carries the total that the validator returned. *)
Lemma order_total_is_server_total (order : orders.row) :
  In order (orders_rows (handleSubmit be address items)) ->
  exists v,
    Validate.json (Validate.response (products be) (validation_request be items)) =
    Validate.Valid v (Finite (orders.total_amount order)).
Proof.
  unfold handleSubmit.
  destruct (blank (name address) || blank (street address) ||
            blank (city address) || blank (pincode address))%bool; [intros []|].
  destruct (negb (ok (Validate.response (products be) (validation_request be items)))); [intros []|].
  destruct (session be) as [user|]; [|intros []].
  destruct (orders_insert be) as [new_id|]; [|intros []].
  destruct (Validate.json (Validate.response (products be) (validation_request be items)))
    as [v [| |t]|msg]; try (intros []).
  destruct (negb (order_items_insert be)); simpl;
    intros [<-|[]]; now exists v.
Qed.

(** The line items carry the prices of the cart's product snapshots. *)
Lemma line_items_carry_cart_prices :
  let rows := order_items_rows (handleSubmit be address items) in
  rows = [] \/
  map (fun r => (order_items.product_id r, order_items.quantity r, order_items.price r))
      rows =
  map (fun i => (id (Cart.product i), Cart.quantity i, price (Cart.product i)))
      items.
Proof.
  unfold handleSubmit.
  destruct (blank (name address) || blank (street address) ||
            blank (city address) || blank (pincode address))%bool; [now left|].
  destruct (negb (ok (Validate.response (products be) (validation_request be items)))); [now left|].
  destruct (session be) as [user|]; [|now left].
  destruct (orders_insert be) as [new_id|]; [|now left].
  destruct (Validate.json (Validate.response (products be) (validation_request be items)))
    as [v [| |t]|msg]; try (now left).
  destruct (negb (order_items_insert be)); [now left|]. right. simpl.
  rewrite map_map. reflexivity.
Qed.

End OrderWriterProperties.

(** C2.  The order writer, run on a cart whose snapshot of a product
    carries the price 50 while the stored price is 100: the order is
    placed with total 200, the total the validator computed from the
    stored price, and its one line item records 2 units at 50, the
    price of the snapshot; the sum over the line items is 100. *)
Theorem stale_cart_order_mismatch :
  let out := Checkout.handleSubmit Sample.backend Sample.home Sample.stale_cart in
  Checkout.error out = None /\
  Checkout.orders_rows out =
  [ {| orders.id := "o1"; orders.user_id := "u1";
       orders.total_amount := 200; orders.status := "pending" |} ] /\
  Checkout.order_items_rows out =
  [ {| order_items.order_id := "o1"; order_items.product_id := "p1";
       order_items.quantity := 2; order_items.price := 50 |} ] /\
  Validate.lookup (Checkout.products Sample.backend) (Validate.JStr "p1") =
  Some Sample.p1 /\
  price Sample.p1 == 100 /\
  Checkout.line_total (Checkout.order_items_rows out) == 100 /\
  ~ 200 == Checkout.line_total (Checkout.order_items_rows out).
Proof.
  vm_compute. repeat split. intro H. discriminate H.
Qed.

(** ** The cart: the other operations *)
Section CartOperations.
Import Cart CartSpec.

Lemma ids_map_in_place (pid : string) (f : CartItem -> number) (l : list CartItem) :
  map (fun i => id (product i))
      (map (fun i => if has_id pid i
                     then {| product := product i; quantity := f i |}
                     else i) l) =
  map (fun i => id (product i)) l.
Proof.
  rewrite map_map. apply map_ext. intro i. now destruct (has_id pid i).
Qed.

Lemma NoDup_map_filter {A B : Type} (g : A -> B) (f : A -> bool) (l : list A) :
  NoDup (map g l) -> NoDup (map g (filter f l)).
Proof.
  induction l as [|a l IH]; intro H; [assumption|].
  inversion H as [|? ? Hfresh Hnd]; subst. simpl.
  destruct (f a); [|now apply IH]. simpl. constructor; [|now apply IH].
  intro Hin. apply Hfresh. apply in_map_iff in Hin. destruct Hin as (x & E & Hx).
  apply filter_In in Hx. apply in_map_iff. exists x. now split; [|apply Hx].
Qed.

Lemma NoDup_snoc {A : Type} (l : list A) (x : A) :
  NoDup l -> ~ In x l -> NoDup (l ++ [x]).
Proof.
  induction l as [|a l IH]; intros Hnd Hx; simpl.
  - constructor; [intros []|constructor].
  - inversion Hnd as [|? ? Hfresh Hnd']; subst. constructor.
    + intro Hin. apply in_app_or in Hin. destruct Hin as [Hin|[<-|[]]].
      * contradiction.
      * apply Hx. now left.
    + apply IH; [assumption|]. intro Hin. apply Hx. now right.
Qed.

Lemma filter_all {A : Type} (f : A -> bool) (l : list A) :
  (forall x, In x l -> f x = true) -> filter f l = l.
Proof.
  induction l as [|a l IH]; intro H; [reflexivity|]. simpl.
  rewrite (H a (or_introl eq_refl)). f_equal. apply IH. intros x Hx. apply H. now right.
Qed.

Lemma reducer_unique (s : State) (a : Action) :
  unique_ids s ->
  match a with
  | HYDRATE its => unique_ids {| items := its |}
  | _ => True
  end ->
  unique_ids (reducer s a).
Proof.
  unfold unique_ids, ids. intros Hs Ha.
  destruct a as [p q|pid|pid n| |its]; simpl.
  - destruct (find (has_id (id p)) (items s)) as [j|] eqn:F.
    + now rewrite ids_map_in_place.
    + rewrite map_app. simpl. apply NoDup_snoc; [assumption|].
      intro Hin. apply in_map_iff in Hin. destruct Hin as (i & E & Hi).
      apply (find_none _ _ F) in Hi. apply has_id_false in Hi. contradiction.
  - now apply NoDup_map_filter.
  - destruct (Qle_bool n 0); simpl.
    + now apply NoDup_map_filter.
    + now rewrite ids_map_in_place.
  - constructor.
  - exact Ha.
Qed.

(** The states reached through the public operations hold one entry
    per product at most. *)
Lemma reachable_unique_ids (s : State) : reachable s -> unique_ids s.
Proof.
  induction 1 as [|s p q _ IH|s pid _ IH|s pid n _ IH|s _ IH].
  - constructor.
  - now apply (reducer_unique s (ADD p q)).
  - now apply (reducer_unique s (REMOVE pid)).
  - now apply (reducer_unique s (UPDATE_QTY pid n)).
  - now apply (reducer_unique s CLEAR).
Qed.

(** X1.  Every action of the reducer other than a restore from storage
    keeps the cart at one entry per product at most, and a restore
    does when the restored list is so; hence every addition to such a
    cart changes one entry or appends one. *)
Theorem reducer_keeps_unique_ids (s : State) (a : Action) :
  unique_ids s ->
  match a with
  | HYDRATE its => unique_ids {| items := its |}
  | _ => True
  end ->
  unique_ids (reducer s a) /\
  forall p q, a = ADD p q ->
    List.length (filter (has_id (id p)) (items (reducer s a))) = 1%nat.
Proof.
  intros Hs Ha. split; [now apply reducer_unique|].
  intros p q ->. simpl.
  pose proof (reducer_unique s (ADD p q) Hs I) as Hu.
  unfold unique_ids, ids in Hu. simpl in Hu.
  assert (Hone : forall l : list CartItem,
             NoDup (map (fun i => id (product i)) l) ->
             (exists i, In i l /\ id (product i) = id p) ->
             List.length (filter (has_id (id p)) l) = 1%nat).
  { induction l as [|i l IH]; intros Hnd (j & Hj & Ej); [contradiction|].
    inversion Hnd as [|? ? Hfresh Hnd']; subst. simpl.
    destruct (has_id (id p) i) eqn:E.
    - simpl. f_equal. rewrite filter_none; [reflexivity|].
      intros x Hx. apply has_id_false. intro Ex. apply Hfresh.
      apply has_id_true in E. rewrite E, <- Ex.
      now apply (in_map (fun i => id (product i))).
    - apply IH; [assumption|]. destruct Hj as [->|Hj].
      + apply has_id_false in E. contradiction.
      + now exists j. }
  apply Hone; [exact Hu|].
  destruct (find (has_id (id p)) (items s)) as [j|] eqn:F.
  - apply find_some in F. destruct F as [Hin Hid]. apply has_id_true in Hid.
    exists (if has_id (id p) j
            then {| product := product j;
                    quantity :=
                      Math_min (Binary64.round (quantity j + nullish q 1))
                               (stock p) |}
            else j).
    split.
    + apply in_map_iff. now exists j.
    + now destruct (has_id (id p) j).
  - eexists. split; [apply in_or_app; right; now left|reflexivity].
Qed.

Lemma reducer_keeps_unique_ids_witness :
  unique_ids (reducer two_products (ADD Sample.p1 (Some 2))).
Proof.
  assert (Hs : unique_ids two_products)
    by (repeat constructor; simpl; intuition discriminate).
  exact (proj1 (reducer_keeps_unique_ids two_products (ADD Sample.p1 (Some 2)) Hs I)).
Defined.

(** X2.  Removing a product right after adding it gives the cart that
    removing it without the addition gives: nothing of the addition
    stays, whether it merged or appended. *)
Theorem remove_after_add (s : State) (p : Product) (q : option number) :
  removeItem (addItem s p q) (id p) = removeItem s (id p).
Proof.
  unfold removeItem, addItem, reducer. f_equal.
  destruct (find (has_id (id p)) (items s)) as [j|] eqn:F; simpl.
  - clear F. induction (items s) as [|i l IH]; [reflexivity|]. simpl.
    destruct (has_id (id p) i) eqn:E; simpl.
    + unfold has_id at 1. simpl. fold (has_id (id p) i). now rewrite E.
    + rewrite E. simpl. now f_equal.
  - rewrite filter_app. simpl. unfold has_id at 2. simpl.
    rewrite String.eqb_refl. simpl. apply app_nil_r.
Qed.

(** X3.  Removing, or setting the quantity of, a product that the cart
    does not hold leaves the cart as it is: no entry is created, and
    none is touched. *)
Theorem absent_product_unchanged (s : State) (pid : string) :
  absent pid s ->
  removeItem s pid = s /\ forall n, updateQuantity s pid n = s.
Proof.
  intro H. destruct s as [l]. unfold absent in H. simpl in H.
  assert (Hf : filter (fun i => negb (has_id pid i)) l = l).
  { apply filter_all. intros i Hi. apply negb_true_iff, has_id_false. now apply H. }
  unfold removeItem, updateQuantity, reducer. simpl. split; [now rewrite Hf|].
  intro n. destruct (Qle_bool n 0); [now rewrite Hf|]. f_equal.
  rewrite <- (map_id l) at 2. apply map_ext_in. intros i Hi.
  apply H in Hi. apply has_id_false in Hi. now rewrite Hi.
Qed.

Lemma absent_product_unchanged_witness :
  removeItem two_products "p9" = two_products /\
  forall n, updateQuantity two_products "p9" n = two_products.
Proof.
  assert (H : absent "p9" two_products)
    by (intros i [<-|[<-|[]]]; discriminate).
  exact (absent_product_unchanged two_products "p9" H).
Defined.

(** X4.  Setting a positive quantity changes no product of the cart and
    no position: the entries of the product get the requested quantity
    cut down to the stock recorded in their own snapshot, the others
    stay as they are. *)
Theorem update_positive_quantity (s : State) (pid : string) (n : number) :
  0 < n ->
  let s' := updateQuantity s pid n in
  ids s' = ids s /\
  Forall2 (fun i i' =>
             product i' = product i /\
             if has_id pid i
             then quantity i' = Math_min n (stock (product i))
             else i' = i)
          (items s) (items s') /\
  (forall i', In i' (items s') -> id (product i') = pid ->
              quantity i' <= n /\ quantity i' <= stock (product i')).
Proof.
  intros Hn s'. subst s'. unfold updateQuantity, reducer.
  assert (E : Qle_bool n 0 = false).
  { destruct (Qle_bool n 0) eqn:E; [|reflexivity].
    apply Qle_bool_iff in E. exfalso. exact (Qlt_not_le _ _ Hn E). }
  rewrite E. simpl. repeat split.
  - unfold ids. simpl. apply ids_map_in_place.
  - apply (map_in_place pid (fun i => Math_min n (stock (product i)))).
  - apply in_map_iff in H. destruct H as (i & Hi & _).
    destruct (has_id pid i) eqn:Ei.
    + subst i'. simpl. apply Math_min_le_l.
    + subst i'. apply has_id_false in Ei. contradiction.
  - apply in_map_iff in H. destruct H as (i & Hi & _).
    destruct (has_id pid i) eqn:Ei.
    + subst i'. simpl. apply Math_min_le_r.
    + subst i'. apply has_id_false in Ei. contradiction.
Qed.

Lemma update_positive_quantity_witness :
  items (updateQuantity two_products "p1" 9) =
  [ {| product := Sample.p1; quantity := 5 |};
    {| product := Sample.p2; quantity := 1 |} ] /\
  ids (updateQuantity two_products "p1" 9) = ids two_products.
Proof.
  assert (Hn : 0 < 9) by reflexivity.
  destruct (update_positive_quantity two_products "p1" 9 Hn) as (Hids & _ & _).
  split; [reflexivity|exact Hids].
Defined.

(** A whole number within [2 ^ 53] comes out of an operation as it
    is. *)
Lemma of_exact_Z (x : Q) (n : Z) :
  x == inject_Z n -> (Z.abs n <= 2 ^ 53)%Z ->
  Binary64.of_exact x = Finite (inject_Z n).
Proof.
  intros E Hn. rewrite <- (round_Z n Hn), <- (round_comp x (inject_Z n) E).
  apply of_exact_finite. rewrite (round_comp x (inject_Z n) E), (round_Z n Hn).
  change (Qabs (inject_Z n)) with (inject_Z (Z.abs n)).
  apply (Qle_lt_trans _ (inject_Z (2 ^ 53))); [now rewrite <- Zle_Qle|].
  reflexivity.
Qed.

Lemma itemCount_units (l : list CartItem) (acc : Z) :
  whole_quantities {| items := l |} ->
  (0 <= acc)%Z ->
  (acc + units {| items := l |} <= 2 ^ 53)%Z ->
  fold_left (fun a i => Binary64.plus a (Finite (quantity i))) l
            (Finite (inject_Z acc)) =
  Finite (inject_Z (acc + units {| items := l |})).
Proof.
  unfold whole_quantities, units. simpl. revert acc.
  induction l as [|i l IH]; intros acc Hw Hacc Hsum; simpl.
  - now rewrite Z.add_0_r.
  - inversion Hw as [|? ? [Hi Hpos] Hw']; subst.
    assert (Hn : (0 <= Qfloor (quantity i))%Z).
    { rewrite Hi in Hpos. change 0 with (inject_Z 0) in Hpos.
      now rewrite <- Zle_Qle in Hpos. }
    assert (Hrest : (0 <= fold_right (fun i acc => Qfloor (quantity i) + acc) 0 l)%Z).
    { clear - Hw'. induction Hw' as [|j l [Hj Hp] _ IH]; simpl; [lia|].
      rewrite Hj in Hp. change 0 with (inject_Z 0) in Hp.
      rewrite <- Zle_Qle in Hp. lia. }
    simpl in Hsum.
    rewrite (of_exact_Z _ (acc + Qfloor (quantity i))).
    + rewrite IH; [f_equal; f_equal; lia|assumption|lia|lia].
    + rewrite inject_Z_plus, <- Hi. reflexivity.
    + lia.
Qed.

(** X5.  The derived item count and total follow the entries: adding a
    product that the cart does not hold puts the clamped quantity on
    top of the count and its price times that quantity on top of the
    total, each operation being one of binary64; and for a cart of
    whole quantities that add up to no more than [2 ^ 53] the count is
    exact: it is the number of units in the cart. *)
Theorem derived_values_follow (s : State) (p : Product) (q : option number) :
  absent (id p) s ->
  let m := Math_min (nullish q 1) (stock p) in
  itemCount (addItem s p q) = Binary64.plus (itemCount s) (Finite m) /\
  total (addItem s p q) =
  Binary64.plus (total s) (Binary64.times (Finite (price p)) (Finite m)) /\
  (forall t, whole_quantities t -> (units t <= 2 ^ 53)%Z ->
             itemCount t = Finite (inject_Z (units t))).
Proof.
  intros Habs m.
  assert (Hitems : items (addItem s p q) =
                   items s ++ [ {| product := p; quantity := m |} ]).
  { unfold addItem, reducer. now rewrite (find_absent _ _ Habs). }
  unfold itemCount, total. rewrite Hitems, !fold_left_app.
  repeat split.
  intros [l] Hw Hu.
  exact (itemCount_units l 0 Hw (Z.le_refl 0) Hu).
Qed.

(** Seven of a product with three left, added to a cart of three
    units: six units. *)
Lemma derived_values_follow_witness :
  itemCount (addItem two_products Sample.three_left (Some 7)) =
  Binary64.plus (itemCount two_products) (Finite 3) /\
  itemCount (addItem two_products Sample.three_left (Some 7)) = Finite 6.
Proof.
  assert (H : absent (id Sample.three_left) two_products)
    by (intros i [<-|[<-|[]]]; discriminate).
  destruct (derived_values_follow two_products Sample.three_left (Some 7) H)
    as (Hc & _ & Hu).
  split; [exact Hc|].
  apply (Hu (addItem two_products Sample.three_left (Some 7))).
  - repeat constructor; simpl; discriminate.
  - vm_compute. discriminate.
Defined.

End CartOperations.

(** ** The validator: every request *)
Section ValidatorBehaviour.
Import Validate ValidateSpec.

Variable products : list Product.

Lemma checked_quantity_iff (it : CartItemPayload) (q : number) :
  checked_quantity it = Some q <->
  truthy (product_id it) = true /\ quantity it = JNum q /\ Spec.positive_integer q.
Proof.
  unfold checked_quantity. split.
  - destruct (truthy (product_id it)); [simpl|discriminate].
    destruct (quantity it) as [| |b|n|s]; try discriminate.
    destruct (Number_isInteger n) eqn:Hi; [simpl|discriminate].
    destruct (Qlt_bool n 1) eqn:Hl; [discriminate|].
    intro E. injection E as <-. repeat split.
    apply positive_integer_checks. now split.
  - intros (Ht & Hq & Hp). rewrite Ht, Hq. simpl.
    apply positive_integer_checks in Hp. destruct Hp as [-> ->]. reflexivity.
Qed.

(** What an accepted entry adds to the running total. *)
Lemma step_accepted (e : entry) (acc : jsnumber) :
  accepted products e ->
  exists it q p,
    e = Some it /\ quantity it = JNum q /\ Spec.positive_integer q /\
    lookup products (product_id it) = Some p /\
    step products acc e = accumulate acc p q.
Proof.
  intros (it & q & p & -> & _ & Hq & Hp & Hl & _).
  exists it, q, p. repeat split; try assumption.
  destruct it as [v n]. simpl in *. subst n. now rewrite Hl.
Qed.

Lemma validate_cons_accepted (e : entry) (rest : list entry)
  (acc : jsnumber) (log : access_log) :
  accepted products e ->
  validate_items products (e :: rest) acc log =
  validate_items products rest (step products acc e)
    (log ++ Spec.references [e]).
Proof.
  intros (it & q & p & -> & Ht & Hq & Hp & Hl & Hs).
  assert (Hck : checked_quantity it = Some q) by now apply checked_quantity_iff.
  rewrite (validate_cons_checked _ _ _ _ _ _ Hck), Hl.
  apply Qlt_bool_false_iff in Hs. rewrite Hs.
  destruct it as [v n]. simpl in *. subst n. now rewrite Hl.
Qed.

Lemma validate_accepted (pre rest : list entry) :
  Forall (accepted products) pre ->
  forall acc log,
    validate_items products (pre ++ rest) acc log =
    validate_items products rest (fold_left (step products) pre acc)
      (log ++ Spec.references pre).
Proof.
  induction 1 as [|e pre He _ IH]; intros acc log.
  - simpl. now rewrite app_nil_r.
  - change ((e :: pre) ++ rest) with (e :: pre ++ rest).
    rewrite (validate_cons_accepted e (pre ++ rest) acc log He), IH.
    rewrite (references_cons e pre). now rewrite <- app_assoc.
Qed.

(** The loop, whatever the entries: its lookups are references of the
    list, from the first on and in order; what it returns from inside
    is one of the three per-item errors; and when it runs to the end,
    every entry was accepted and looked up, and the total is the
    running total of binary64. *)
Lemma validate_outcome (items : list entry) :
  forall acc log,
  exists o k,
    validate_items products items acc log =
    (o, log ++ firstn k (Spec.references items)) /\
    match o with
    | Value t =>
        Forall (accepted products) items /\
        firstn k (Spec.references items) = Spec.references items /\
        t = fold_left (step products) items acc
    | Returned r =>
        r = invalid_item \/
        (exists v, r = not_found v) \/
        (exists p v, r = insufficient_stock p v)
    | Thrown => True
    end.
Proof.
  induction items as [|[it|] items IH]; intros acc log.
  - exists (Value acc), 0%nat. simpl. rewrite app_nil_r.
    repeat split. constructor.
  - destruct (checked_quantity it) as [q|] eqn:Hck.
    + rewrite (validate_cons_checked _ _ _ _ _ _ Hck), references_cons.
      change (Spec.references [Some it]) with [product_id it].
      destruct (lookup products (product_id it)) as [p|] eqn:Hl.
      * destruct (Qlt_bool (stock p) q) eqn:Hs.
        -- exists (Returned (insufficient_stock p (quantity it))), 1%nat.
           split; [reflexivity|]. right. right. now eexists; eexists.
        -- destruct (IH (accumulate acc p q) (log ++ [product_id it]))
             as (o & k & Hrun & Ho).
           exists o, (S k). rewrite Hrun. split; [now rewrite <- app_assoc|].
           destruct o as [t|r|]; [|exact Ho|exact I].
           destruct Ho as (Hall & Hk & Ht).
           apply checked_quantity_iff in Hck. destruct Hck as (Htr & Hq & Hp).
           apply Qlt_bool_false_iff in Hs.
           split; [|split].
           ++ constructor; [|assumption]. now exists it, q, p.
           ++ simpl. now rewrite Hk.
           ++ rewrite Ht. simpl. destruct it as [v n]. simpl in *. subst n.
              now rewrite Hl.
      * exists (Returned (not_found (product_id it))), 1%nat.
        split; [reflexivity|]. right. left. now eexists.
    + rewrite (validate_cons_rejected _ _ _ _ _ Hck).
      exists (Returned invalid_item), 0%nat. simpl. rewrite app_nil_r.
      split; [reflexivity|now left].
  - exists Thrown, 0%nat. simpl. rewrite app_nil_r. now split.
Qed.

(** [POST], whatever the request. *)
Lemma POST_cases (req : Request) :
  (session req = None /\ POST products req = (auth_required, [])) \/
  (session req <> None /\
   ((body req = BadJson \/ body req = BodyNull) /\
    POST products req = (internal_error, []) \/
    (body req = BodyItems None \/ body req = BodyItems (Some [])) /\
    POST products req = (cart_empty, []) \/
    exists items,
      items <> [] /\ body req = BodyItems (Some items) /\
      POST products req =
      match validate_items products items (Finite 0) [] with
      | (Value total, log) => (success (rounded total), log)
      | (Returned r, log) => (r, log)
      | (Thrown, log) => (internal_error, log)
      end)).
Proof.
  destruct req as [[u|] b]; [right|left; now split].
  split; [discriminate|].
  destruct b as [| |[[|e l]|]].
  - left. split; [now left|reflexivity].
  - left. split; [now right|reflexivity].
  - right. left. split; [now right|reflexivity].
  - right. right. exists (e :: l). repeat split; [discriminate|].
    apply POST_items. discriminate.
  - right. left. split; [now left|reflexivity].
Qed.

(** A response is either [valid] with status 200, or an error with
    one of the five other codes. *)
Lemma response_classes (req : Request) :
  (exists t, response products req = success t) \/
  (In (status (response products req)) [400; 401; 404; 409; 500]%Z /\
   exists msg, json (response products req) = Error msg).
Proof.
  unfold response.
  destruct (POST_cases req) as [[_ ->]|[_ [[_ ->]|[[_ ->]|(items & _ & _ & ->)]]]].
  - right. simpl. split; [tauto|now eexists].
  - right. simpl. split; [tauto|now eexists].
  - right. simpl. split; [tauto|now eexists].
  - destruct (validate_outcome items (Finite 0) []) as (o & k & -> & Ho).
    destruct o as [t|r|]; simpl.
    + left. now eexists.
    + right. destruct Ho as [->|[(v & ->)|(p & v & ->)]];
        simpl; (split; [tauto|now eexists]).
    + right. split; [tauto|now eexists].
Qed.

Lemma response_ok_iff (req : Request) :
  Checkout.ok (response products req) = true <->
  exists t, response products req = success t.
Proof.
  destruct (response_classes req) as [(t & Ht)|(Hst & msg & Hmsg)].
  - rewrite Ht. split; [now exists t|reflexivity].
  - unfold Checkout.ok. split.
    + intro Hok. exfalso. simpl in Hst.
      destruct Hst as [E|[E|[E|[E|[E|[]]]]]]; rewrite <- E in Hok; discriminate.
    + intros (t & Ht). rewrite Ht in Hmsg. discriminate.
Qed.

(** X6.  Whatever the request, the validator answers with one of the
    six status codes 200, 400, 401, 404, 409, 500, and the code is in
    the 2xx range, which is what the checkout page tests, exactly when
    the body is [valid: true] with a total. *)
Theorem response_status (req : Request) :
  In (status (response products req)) status_codes /\
  (Checkout.ok (response products req) = true <->
   exists t, response products req = success t).
Proof.
  split; [|apply response_ok_iff].
  destruct (response_classes req) as [(t & Ht)|(Hst & _)].
  - rewrite Ht. now left.
  - unfold status_codes. simpl in *. tauto.
Qed.

(** X7.  Whatever the request, the lookups that the validator makes
    are product references of the request's entries, taken from the
    first on and in their order, one per entry at most; without a
    session or without a non-empty array there is none. *)
Theorem lookups_follow_entries (req : Request) :
  exists k,
    accesses products req = firstn k (Spec.references (request_entries req)) /\
    (k <= List.length (request_entries req))%nat.
Proof.
  assert (Hlen : forall (l : list entry) k,
             exists k', firstn k (Spec.references l) = firstn k' (Spec.references l) /\
                        (k' <= List.length l)%nat).
  { intros l k. exists (Nat.min k (List.length (Spec.references l))). split.
    - destruct (Nat.le_ge_cases k (List.length (Spec.references l))) as [H|H].
      + now rewrite Nat.min_l.
      + rewrite Nat.min_r by assumption. rewrite firstn_all.
        now apply firstn_all2.
    - apply Nat.le_trans with (List.length (Spec.references l)); [apply Nat.le_min_r|].
      clear k. induction l as [|[it|] l IH]; simpl; lia. }
  unfold accesses.
  destruct (POST_cases req) as [[_ ->]|[Hs [[_ ->]|[[_ ->]|(items & _ & Hb & ->)]]]];
    try (exists 0%nat; split; [reflexivity|lia]).
  assert (Hreq : request_entries req = items).
  { unfold request_entries. rewrite Hb. now destruct (session req). }
  rewrite Hreq.
  destruct (validate_outcome items (Finite 0) []) as (o & k & -> & _).
  destruct (Hlen items k) as (k' & Hk & Hle).
  exists k'. split; [|exact Hle].
  destruct o; simpl; exact Hk.
Qed.

End ValidatorBehaviour.

(** ** The validator: when it answers [valid] *)
Section ValidatorVerdicts.
Import Validate ValidateSpec.

Variable products : list Product.

Lemma POST_accepted (u : User) (items : list entry) :
  items <> [] ->
  Forall (accepted products) items ->
  POST products {| session := Some u; body := BodyItems (Some items) |} =
  (success (rounded (running_total products items)), Spec.references items).
Proof.
  intros Hne Hall. rewrite (POST_items products u items Hne).
  pose proof (validate_accepted products items [] Hall (Finite 0) []) as Hrun.
  rewrite app_nil_r in Hrun. rewrite Hrun. reflexivity.
Qed.

Lemma POST_success_inv (req : Request) (t : jsnumber) (log : access_log) :
  POST products req = (success t, log) ->
  exists u items,
    req = {| session := Some u; body := BodyItems (Some items) |} /\
    items <> [] /\
    Forall (accepted products) items /\
    log = Spec.references items /\
    t = rounded (running_total products items).
Proof.
  intro HP. destruct req as [[u|] b]; [|discriminate].
  destruct b as [| |[[|e l]|]]; try discriminate.
  exists u, (e :: l). split; [reflexivity|]. split; [discriminate|].
  rewrite POST_items in HP by discriminate.
  destruct (validate_outcome products (e :: l) (Finite 0) []) as (o & k & Hrun & Ho).
  rewrite Hrun in HP. destruct o as [total|r|].
  - destruct Ho as (Hall & Hk & Ht). injection HP as <- <-.
    repeat split; [assumption|simpl; exact Hk|now rewrite Ht].
  - injection HP as -> _.
    destruct Ho as [E|[(v & E)|(p & v & E)]]; discriminate.
  - discriminate.
Qed.

(** X8.  The validator answers [valid: true] exactly when there is a
    session, the body holds a non-empty array, and every entry of it
    was let through: truthy reference, positive integer quantity,
    product found, stock enough.  It has then looked up every entry,
    and its total is the running total of the entries in binary64, in
    the order of the list, put through [Math.round(x * 100) / 100]. *)
Theorem valid_iff_all_accepted (req : Request) :
  ((exists t log, POST products req = (success t, log)) <->
   (exists u items,
      req = {| session := Some u; body := BodyItems (Some items) |} /\
      items <> [] /\ Forall (accepted products) items)) /\
  (forall t log,
     POST products req = (success t, log) ->
     log = Spec.references (request_entries req) /\
     t = rounded (running_total products (request_entries req))).
Proof.
  split; [split|].
  - intros (t & log & HP).
    destruct (POST_success_inv req t log HP) as (u & items & E & Hne & Hall & _).
    now exists u, items.
  - intros (u & items & -> & Hne & Hall).
    do 2 eexists. now apply POST_accepted.
  - intros t log HP.
    destruct (POST_success_inv req t log HP) as (u & items & -> & _ & _ & Hl & Ht).
    now split.
Qed.

(** X9.  A [null] entry in the array, reached after entries that were
    all let through, makes the validator answer 500; the entries before
    it have been looked up by then. *)
Theorem null_entry_internal_error (u : User) (pre post : list entry) :
  Forall (accepted products) pre ->
  POST products {| session := Some u; body := BodyItems (Some (pre ++ None :: post)) |} =
  ({| status := 500; json := Error [Text "Internal server error."] |},
   Spec.references pre).
Proof.
  intro Hpre. rewrite POST_items by (now destruct pre).
  rewrite (validate_accepted products pre (None :: post) Hpre (Finite 0) []).
  reflexivity.
Qed.

Lemma references_repeat (it : CartItemPayload) (n : nat) :
  Spec.references (repeat (Some it) n) = repeat (product_id it) n.
Proof.
  induction n as [|n IH]; [reflexivity|].
  change (repeat (Some it) (S n)) with (Some it :: repeat (Some it) n).
  rewrite references_cons, IH. reflexivity.
Qed.

(** X10.  The stock comparison is made entry by entry: a list that
    repeats one accepted entry any number of times is valid, each copy
    being compared with the whole stock and looked up anew; the
    quantities are not added up before they are compared, so that from
    some number of copies on the list asks for more than the stock. *)
Theorem repeated_entry_each_checked (u : User) (it : CartItemPayload) (n : nat) :
  accepted products (Some it) ->
  let items := repeat (Some it) (S n) in
  POST products {| session := Some u; body := BodyItems (Some items) |} =
  (success (rounded (running_total products items)),
   repeat (product_id it) (S n)) /\
  exists p q,
    lookup products (product_id it) = Some p /\ quantity it = JNum q /\
    forall m : nat, (Qceiling (stock p) < Z.of_nat m)%Z ->
                    stock p < inject_Z (Z.of_nat m) * q.
Proof.
  intros Hit items. split.
  - subst items. rewrite <- references_repeat. apply POST_accepted.
    + discriminate.
    + apply Forall_forall. intros e He. apply repeat_spec in He. now subst e.
  - destruct Hit as (it' & q & p & E & _ & Hq & Hp & Hl & _).
    injection E as <-. exists p, q. repeat split; try assumption.
    intros m Hm. apply positive_integer_checks in Hp. destruct Hp as [_ H1].
    apply Qlt_bool_false_iff in H1.
    pose proof (Qle_ceiling (stock p)) as Hc.
    rewrite Zlt_Qlt in Hm.
    assert (H0 : 0 <= inject_Z (Z.of_nat m)).
    { change 0 with (inject_Z 0). rewrite <- Zle_Qle. lia. }
    assert (H2 : inject_Z (Z.of_nat m) * 1 <= inject_Z (Z.of_nat m) * q).
    { apply Qmult_le_compat_nonneg; split; try assumption; try apply Qle_refl.
      discriminate. }
    lra.
Qed.

End ValidatorVerdicts.

(** ** The validator: the total *)
Section ValidatorTotals.
Import Validate ValidateSpec.

Variable products : list Product.

(** *** Its sign *)

Lemma of_exact_nonneg (x : Q) : 0 <= x -> nonneg (Binary64.of_exact x).
Proof.
  intro H. unfold Binary64.of_exact.
  destruct (Qle_bool (2 ^ 1024) (Qabs (Binary64.round x))); simpl.
  - apply Qle_bool_iff in H. now rewrite H.
  - now apply round_nonneg.
Qed.

Lemma plus_nonneg (x y : jsnumber) :
  nonneg x -> nonneg y -> nonneg (Binary64.plus x y).
Proof.
  destruct x as [|s|a], y as [|s'|b]; simpl; try tauto.
  - now intros -> ->.
  - intros Ha Hb. apply of_exact_nonneg.
    apply (Qle_trans _ (0 + 0)); [apply Qle_refl|now apply Qplus_le_compat].
Qed.

Lemma accumulate_nonneg (acc : jsnumber) (p : Product) (q : number) :
  nonneg acc -> 0 <= price p -> 0 <= q -> nonneg (accumulate acc p q).
Proof.
  intros Hacc Hp Hq. unfold accumulate. apply plus_nonneg; [assumption|].
  simpl. apply of_exact_nonneg. now apply Qmult_le_0_compat.
Qed.

Lemma positive_integer_nonneg (q : number) : Spec.positive_integer q -> 1 <= q.
Proof.
  intro H. apply positive_integer_checks in H. destruct H as [_ H].
  now apply Qlt_bool_false_iff.
Qed.

Lemma running_nonneg (items : list entry) :
  (forall p, In p products -> 0 <= price p) ->
  Forall (accepted products) items ->
  forall acc, nonneg acc -> nonneg (fold_left (step products) items acc).
Proof.
  intros Hprice Hall. induction Hall as [|e l He _ IH]; intros acc Hacc.
  - exact Hacc.
  - simpl. apply IH.
    destruct (step_accepted products e acc He) as (it & q & p & _ & _ & Hq & Hl & ->).
    destruct (lookup_in products _ _ Hl) as [Hin _].
    apply accumulate_nonneg; [assumption|now apply Hprice|].
    apply positive_integer_nonneg in Hq.
    apply (Qle_trans _ 1); [discriminate|assumption].
Qed.

(** What [Math.round(x * 100) / 100] makes of a finite total that is
    not negative. *)
Lemma rounded_finite (s : number) :
  0 <= s ->
  rounded (Finite s) = Infinity false \/
  exists y n,
    y = Binary64.round (s * 100) /\ 0 <= y /\
    Spec.half_away_from_zero y n /\
    rounded (Finite s) = Finite (Binary64.round (inject_Z n / 100)).
Proof.
  intro Hs. unfold rounded.
  change (Binary64.times (Finite s) (Finite 100))
    with (Binary64.of_exact (s * 100)).
  assert (H100 : 0 <= s * 100) by (apply Qmult_le_0_compat; [assumption|discriminate]).
  pose proof (round_nonneg _ H100) as Hy.
  unfold Binary64.of_exact. cbv zeta.
  set (y := Binary64.round (s * 100)) in *.
  destruct (Qle_bool (2 ^ 1024) (Qabs y)) eqn:Hover.
  - left. apply Qle_bool_iff in H100. rewrite H100. reflexivity.
  - right. exists y, (Qfloor (y + (1 # 2))).
    split; [reflexivity|]. split; [assumption|].
    split; [now apply Math_round_half_away|].
    change (Binary64.divide_by (Binary64.lift Math_round (Finite y)) 100)
      with (Binary64.of_exact (Math_round y / inject_Z 100)).
    change (inject_Z (Qfloor (y + (1 # 2))) / 100)
      with (Math_round y / inject_Z 100).
    apply of_exact_finite.
    assert (Hlt : y < 2 ^ 1024).
    { rewrite <- (Qabs_pos y Hy). apply Qnot_le_lt. intro H.
      apply Qle_bool_iff in H. congruence. }
    destruct (Math_round_near y) as [Hlo Hhi].
    assert (Hn0 : 0 <= Math_round y).
    { unfold Math_round in *.
      assert (Hz : inject_Z (-1) < inject_Z (Qfloor (y + (1 # 2))))
        by (change (inject_Z (-1)) with (- (1)); lra).
      rewrite <- Zlt_Qlt in Hz.
      change 0 with (inject_Z 0). rewrite <- Zle_Qle. lia. }
    set (n := Math_round y) in *.
    assert (Hn : 0 <= n / inject_Z 100).
    { apply Qle_shift_div_l; [reflexivity|]. now rewrite Qmult_0_l. }
    assert (H4 : 2 ^ 1024 == 4 * 2 ^ 1022) by reflexivity.
    assert (H1 : 2 ^ 0 <= 2 ^ 1022) by (apply pow2_le; lia).
    change (2 ^ 0) with 1 in H1.
    assert (Hup : n / inject_Z 100 <= 2 ^ 1022).
    { apply Qle_shift_div_r; [reflexivity|]. change (inject_Z 100) with 100. lra. }
    pose proof (round_abs (n / inject_Z 100) 1022) as Hr.
    rewrite (Qabs_pos _ Hn) in Hr. specialize (Hr Hup ltac:(lia)).
    apply Qabs_Qle_condition in Hr. destruct Hr as [_ Hr].
    rewrite (Qabs_pos _ (round_nonneg _ Hn)).
    assert (H969 : 2 ^ (1022 - 53) <= 2 ^ 1022) by (apply pow2_le; lia).
    lra.
Qed.

(** C8, amended.  When the validator answers [valid: true] and no
    stored price is negative, the total that it returns is not NaN and
    not below zero, and when it is finite it is the double nearest to a
    whole number [n] of hundredths, where [n] is the product in
    binary64 of the running total and 100, which is not negative,
    rounded to the nearest integer with ties away from zero. *)
Theorem success_rounds_half_away (req : Request) (t : jsnumber) (log : access_log) :
  POST products req = (success t, log) ->
  (forall p, In p products -> 0 <= price p) ->
  exists items : list entry,
    body req = BodyItems (Some items) /\
    match t with
    | Finite v =>
        exists (s y : number) (n : Z),
          running_total products items = Finite s /\ 0 <= s /\
          y = Binary64.round (s * 100) /\ 0 <= y /\
          Spec.half_away_from_zero y n /\
          v = Binary64.round (inject_Z n / 100)
    | Infinity negative => negative = false
    | NaN => False
    end.
Proof.
  intros HP Hprice.
  destruct (POST_success_inv products req t log HP)
    as (u & items & -> & _ & Hall & _ & ->).
  exists items. split; [reflexivity|].
  pose proof (running_nonneg items Hprice Hall (Finite 0) (Qle_refl 0)) as Hrun.
  fold (running_total products items) in Hrun.
  destruct (running_total products items) as [|neg|s]; simpl in Hrun.
  - contradiction.
  - subst neg. reflexivity.
  - destruct (rounded_finite s Hrun) as [->|(y & n & Hy & Hy0 & Hn & ->)];
      [reflexivity|].
    now exists s, y, n.
Qed.

(** *** Its precision *)

Lemma pow2_double (k : Z) : 2 ^ (k + 1) == 2 ^ k + 2 ^ k.
Proof. rewrite pow2_succ. ring. Qed.

(** A power of two right above a number from 1 on. *)
Lemma pow2_cover (x : Q) :
  1 <= x -> exists k : Z, (0 <= k)%Z /\ x <= 2 ^ k /\ 2 ^ k < 4 * x.
Proof.
  intro Hx. pose proof (Qle_ceiling x) as Hc. pose proof (Qceiling_lt x) as Hc'.
  set (c := Qceiling x) in *.
  replace (c - 1)%Z with (c + (-1))%Z in Hc' by lia.
  rewrite inject_Z_plus in Hc'. change (inject_Z (-1)) with (- (1)) in Hc'.
  assert (Hc1 : (1 <= c)%Z).
  { assert (H : inject_Z 0 < inject_Z c) by (change (inject_Z 0) with 0; lra).
    rewrite <- Zlt_Qlt in H. lia. }
  exists (Z.log2_up c). pose proof (Z.log2_up_nonneg c) as Hk.
  split; [assumption|].
  destruct (Z.eq_dec c 1) as [E|N].
  - rewrite E. change (2 ^ Z.log2_up 1) with 1. rewrite E in Hc.
    change (inject_Z 1) with 1 in Hc. split; lra.
  - assert (H1 : (1 < c)%Z) by lia.
    destruct (Z.log2_up_spec c H1) as [Hlo Hup].
    pose proof (Z.log2_up_pos c H1) as Hpos.
    rewrite Zle_Qle, pow2_Z in Hup by assumption.
    rewrite Zlt_Qlt, pow2_Z in Hlo by lia.
    assert (E : 2 ^ Z.log2_up c == 2 * 2 ^ Z.pred (Z.log2_up c)).
    { rewrite <- pow2_succ. now replace (Z.pred (Z.log2_up c) + 1)%Z
        with (Z.log2_up c) by lia. }
    split; lra.
Qed.

(** The stored prices, in hundredths. *)
Variable cents : Product -> Z.
Hypothesis stored : Spec.read_as_doubles cents products.

(** The price read is the stored one up to one part in [2 ^ 53]. *)
Lemma price_precise (p : Product) :
  In p products ->
  let P := inject_Z (cents p) / 100 in
  0 <= P /\ 0 <= price p /\ Qabs (price p - P) <= P * 2 ^ (-53).
Proof.
  intros Hin P. destruct (stored p Hin) as [Hc Hp].
  assert (HP : 0 <= P).
  { subst P. apply Qle_shift_div_l; [reflexivity|]. rewrite Qmult_0_l.
    change 0 with (inject_Z 0). now rewrite <- Zle_Qle. }
  split; [assumption|]. rewrite Hp. fold P. split; [now apply round_nonneg|].
  destruct (Z.eq_dec (cents p) 0) as [E|N].
  - assert (E0 : P == 0) by (subst P; rewrite E; reflexivity).
    rewrite (round_zero P E0), E0. discriminate.
  - assert (H1 : 1 # 100 <= P).
    { subst P. apply Qle_shift_div_l; [reflexivity|].
      assert (H : inject_Z 1 <= inject_Z (cents p)) by (rewrite <- Zle_Qle; lia).
      change (inject_Z 1) with 1 in H. lra. }
    apply (Qle_trans _ (Qabs P * 2 ^ (-53)));
      [|rewrite (Qabs_pos P HP); apply Qle_refl].
    apply round_rel. rewrite (Qabs_pos P HP).
    apply (Qle_trans _ (2 ^ (-7))); [apply pow2_le; lia|].
    apply (Qle_trans _ (1 # 100)); [discriminate|assumption].
Qed.

Lemma pow2_in_range (k : Z) (x : Q) :
  (k <= 1022)%Z -> 0 <= x -> x <= 2 ^ k + 2 ^ k -> Qabs x < 2 ^ 1024.
Proof.
  intros Hk H0 Hx. rewrite (Qabs_pos x H0).
  apply (Qle_lt_trans _ (2 ^ (k + 1))); [now rewrite pow2_double|].
  apply Qpower_lt_compat_l; [lia|reflexivity].
Qed.

(** One turn of the loop: the running total stays within the bound,
    and its distance to the exact total grows by the error of the
    price, that of the product and that of the sum. *)
Lemma accumulate_precise (k : Z) (a A E : Q) (p : Product) (q : number) :
  In p products -> 0 <= q -> (0 <= k <= 1000)%Z ->
  0 <= a -> Qabs (a - A) <= E ->
  let L := inject_Z (cents p) / 100 * q in
  A + L + E + L * 2 ^ (-53) + 2 * 2 ^ (k - 53) <= 2 ^ k ->
  exists a',
    accumulate (Finite a) p q = Finite a' /\ 0 <= a' /\
    Qabs (a' - (A + L)) <= E + L * 2 ^ (-53) + 2 * 2 ^ (k - 53).
Proof.
  intros Hin Hq Hk Ha HaA L Hbound.
  destruct (price_precise p Hin) as (HP & Hprice & Herr).
  set (P := inject_Z (cents p) / 100) in *.
  assert (HL : 0 <= L) by (subst L; now apply Qmult_le_0_compat).
  pose proof (pow2_pos k) as HB. pose proof (pow2_pos (k - 53)) as Heps.
  assert (Heps' : 2 ^ (k - 53) <= 2 ^ k) by (apply pow2_le; lia).
  set (B := 2 ^ k) in *. set (eps := 2 ^ (k - 53)) in *.
  pose proof (pow2_pos (-53)) as Hu. set (u := 2 ^ (-53)) in *.
  apply Qabs_Qle_condition in HaA. destruct HaA as [HaA1 HaA2].
  apply Qabs_Qle_condition in Herr. destruct Herr as [Herr1 Herr2].
  (* the product *)
  set (x1 := price p * q).
  assert (Hx1 : 0 <= x1) by (subst x1; now apply Qmult_le_0_compat).
  assert (Hx1L : - (L * u) <= x1 - L /\ x1 - L <= L * u).
  { assert (H1 : (price p - P) * q <= P * u * q)
      by (apply Qmult_le_compat_r; assumption).
    assert (H2 : - (P * u) * q <= (price p - P) * q)
      by (apply Qmult_le_compat_r; assumption).
    subst x1 L. split; lra. }
  destruct Hx1L as [Hx1L1 Hx1L2].
  assert (Hr1 : Qabs (Binary64.round x1 - x1) <= eps).
  { apply round_abs; [|lia]. rewrite (Qabs_pos x1 Hx1). fold B. lra. }
  apply Qabs_Qle_condition in Hr1. destruct Hr1 as [Hr11 Hr12].
  pose proof (round_nonneg x1 Hx1) as Hr10.
  set (r1 := Binary64.round x1) in *.
  assert (E1 : Binary64.times (Finite (Number (price p))) (Finite q) = Finite r1).
  { change (Binary64.times (Finite (Number (price p))) (Finite q))
      with (Binary64.of_exact x1). apply of_exact_finite. fold r1.
    apply (pow2_in_range k); [lia|assumption|fold B; lra]. }
  (* the sum *)
  set (x2 := a + r1).
  assert (Hx2 : 0 <= x2) by (subst x2; lra).
  assert (Hr2 : Qabs (Binary64.round x2 - x2) <= eps).
  { apply round_abs; [|lia]. rewrite (Qabs_pos x2 Hx2). fold B. subst x2. lra. }
  apply Qabs_Qle_condition in Hr2. destruct Hr2 as [Hr21 Hr22].
  pose proof (round_nonneg x2 Hx2) as Hr20.
  exists (Binary64.round x2). unfold accumulate. rewrite E1.
  change (Binary64.plus (Finite a) (Finite r1)) with (Binary64.of_exact x2).
  split; [|split; [assumption|]].
  - apply of_exact_finite. apply (pow2_in_range k); [lia|assumption|].
    fold B. subst x2. lra.
  - apply Qabs_Qle_condition. subst x2. split; lra.
Qed.

Lemma line_accepted (e : entry) (acc : jsnumber) :
  accepted products e ->
  exists p q n,
    In p products /\ q == inject_Z n /\ (0 < n)%Z /\
    step products acc e = accumulate acc p q /\
    Spec.line cents products e = inject_Z (cents p) / 100 * q.
Proof.
  intros (it & q & p & -> & _ & Hq & (n & Hn & En) & Hl & _).
  destruct (lookup_in products _ _ Hl) as [Hin _].
  exists p, q, n. repeat split; try assumption;
    destruct it as [v m]; simpl in *; subst m; now rewrite Hl.
Qed.

Lemma exact_total_cons (e : entry) (l : list entry) :
  Spec.exact_total cents products (e :: l) =
  Spec.line cents products e + Spec.exact_total cents products l.
Proof. reflexivity. Qed.

(** The exact total of accepted entries is a whole number of
    hundredths, not negative. *)
Lemma exact_total_cents (items : list entry) :
  Forall (accepted products) items ->
  exists K : Z,
    (0 <= K)%Z /\ Spec.exact_total cents products items * 100 == inject_Z K.
Proof.
  induction 1 as [|e l He _ (K & HK & IH)].
  - exists 0%Z. split; [lia|reflexivity].
  - destruct (line_accepted e (Finite 0) He) as (p & q & n & Hin & Hq & Hn & _ & Hline).
    destruct (stored p Hin) as [Hc _].
    exists (cents p * n + K)%Z. split; [nia|].
    rewrite exact_total_cons, Hline, inject_Z_plus, inject_Z_mult, <- IH, Hq.
    field.
Qed.

Lemma exact_total_nonneg (items : list entry) :
  Forall (accepted products) items -> 0 <= Spec.exact_total cents products items.
Proof.
  intro Hall. destruct (exact_total_cents items Hall) as (K & HK & E).
  rewrite Zle_Qle in HK. change (inject_Z 0) with 0 in HK. lra.
Qed.

(** The loop on accepted entries, started from a total [a] that is
    within [E] of an exact total [A]: it ends with a finite total that
    is within [E], one part in [2 ^ 53] of the exact sum of the
    entries, and two roundings for each entry, of the exact total. *)
Lemma running_precise (k : Z) (items : list entry) :
  (0 <= k <= 1000)%Z ->
  Forall (accepted products) items ->
  forall a A E : Q,
    0 <= a -> Qabs (a - A) <= E ->
    let S := Spec.exact_total cents products items in
    let n := inject_Z (Z.of_nat (List.length items)) in
    A + S + E + S * 2 ^ (-53) + 2 * n * 2 ^ (k - 53) <= 2 ^ k ->
    exists a',
      fold_left (step products) items (Finite a) = Finite a' /\ 0 <= a' /\
      Qabs (a' - (A + S)) <= E + S * 2 ^ (-53) + 2 * n * 2 ^ (k - 53).
Proof.
  intros Hk Hall. induction Hall as [|e l He Hl IH]; intros a A E Ha HaA S n Hbound.
  - exists a. split; [reflexivity|]. split; [assumption|].
    subst S n. change (Spec.exact_total cents products []) with 0.
    change (inject_Z (Z.of_nat (List.length (@nil entry)))) with 0.
    apply Qabs_Qle_condition in HaA. apply Qabs_Qle_condition. split; lra.
  - destruct (line_accepted e (Finite a) He) as (p & q & m & Hin & Hq & Hm & Hstep & Hline).
    pose proof (exact_total_nonneg l Hl) as HS0.
    pose proof (pow2_pos (k - 53)) as Heps. pose proof (pow2_pos (-53)) as Hu.
    assert (Hq0 : 0 <= q).
    { rewrite Hq. change 0 with (inject_Z 0). rewrite <- Zle_Qle. lia. }
    destruct (price_precise p Hin) as (HP & _ & _).
    assert (HL : 0 <= inject_Z (cents p) / 100 * q)
      by (now apply Qmult_le_0_compat).
    assert (Hn : n == 1 + inject_Z (Z.of_nat (List.length l))).
    { subst n. simpl List.length. rewrite Nat2Z.inj_succ. unfold Z.succ.
      rewrite inject_Z_plus. change (inject_Z 1) with 1. ring. }
    assert (Hn0 : 0 <= inject_Z (Z.of_nat (List.length l))).
    { change 0 with (inject_Z 0). rewrite <- Zle_Qle. lia. }
    subst S. rewrite exact_total_cons, Hline in *.
    set (L := inject_Z (cents p) / 100 * q) in *.
    set (S' := Spec.exact_total cents products l) in *.
    set (n' := inject_Z (Z.of_nat (List.length l))) in *.
    set (eps := 2 ^ (k - 53)) in *. set (u := 2 ^ (-53)) in *.
    assert (Hne : 0 <= n' * eps) by (apply Qmult_le_0_compat; lra).
    assert (HSu : 0 <= S' * u) by (apply Qmult_le_0_compat; lra).
    assert (HLu : 0 <= L * u) by (apply Qmult_le_0_compat; lra).
    assert (Hbound' : A + (L + S') + E + (L + S') * u + 2 * (1 + n') * eps <= 2 ^ k).
    { rewrite <- Hn. exact Hbound. }
    destruct (accumulate_precise k a A E p q Hin Hq0 Hk Ha HaA) as (a1 & Ea1 & Ha1 & Herr1).
    { fold L. fold eps. fold u. lra. }
    fold L in Herr1. fold eps in Herr1. fold u in Herr1.
    destruct (IH a1 (A + L) (E + L * u + 2 * eps) Ha1 Herr1) as (a' & Ea' & Ha' & Herr').
    { fold S'. fold n'. fold eps. fold u. lra. }
    fold S' in Herr'. fold n' in Herr'. fold eps in Herr'. fold u in Herr'.
    exists a'. simpl fold_left. rewrite Hstep, Ea1. split; [exact Ea'|].
    split; [assumption|].
    apply Qabs_Qle_condition in Herr'. apply Qabs_Qle_condition.
    rewrite Hn. split; lra.
Qed.

(** The last line, [Math.round(serverTotal * 100) / 100], on a total
    that is close enough to an exact total of whole hundredths: the
    double nearest to the exact total. *)
Lemma rounded_precise (k : Z) (s S E : Q) (K : Z) :
  (0 <= k <= 1000)%Z ->
  0 <= s -> 0 <= S -> Qabs (s - S) <= E ->
  S * 100 == inject_Z K ->
  S + E <= 2 ^ k ->
  100 * E + 128 * 2 ^ (k - 53) < 1 # 2 ->
  rounded (Finite s) = Finite (Binary64.round S).
Proof.
  intros Hk Hs HS HsS HK Hbound Hsmall.
  pose proof (pow2_pos k) as HB. pose proof (pow2_pos (k - 53)) as Heps.
  assert (E7 : 2 ^ (k + 7) == 128 * 2 ^ k)
    by (rewrite pow2_plus; change (2 ^ 7) with 128; ring).
  assert (E7' : 2 ^ (k + 7 - 53) == 128 * 2 ^ (k - 53)).
  { replace (k + 7 - 53)%Z with (k - 53 + 7)%Z by lia.
    rewrite pow2_plus. change (2 ^ 7) with 128. ring. }
  apply Qabs_Qle_condition in HsS. destruct HsS as [HsS1 HsS2].
  set (x3 := s * 100).
  assert (Hx3 : 0 <= x3) by (subst x3; apply Qmult_le_0_compat; [assumption|discriminate]).
  assert (Hr3 : Qabs (Binary64.round x3 - x3) <= 2 ^ (k + 7 - 53)).
  { apply round_abs; [|lia]. rewrite (Qabs_pos x3 Hx3), E7. subst x3. lra. }
  apply Qabs_Qle_condition in Hr3. destruct Hr3 as [Hr31 Hr32].
  pose proof (round_nonneg x3 Hx3) as Hy.
  set (y := Binary64.round x3) in *.
  assert (Ey : Binary64.times (Finite s) (Finite 100) = Finite y).
  { change (Binary64.times (Finite s) (Finite 100))
      with (Binary64.of_exact x3). apply of_exact_finite. fold y.
    apply (pow2_in_range (k + 7)); [lia|assumption|].
    assert (2 ^ (k + 7 - 53) <= 2 ^ (k + 7)) by (apply pow2_le; lia).
    subst x3. lra. }
  assert (Hround : Math_round y = inject_Z K).
  { apply Math_round_close. apply Qabs_Qlt_condition. rewrite <- HK.
    subst x3. split; lra. }
  unfold rounded. rewrite Ey.
  change (Binary64.divide_by (Binary64.lift Math_round (Finite y)) 100)
    with (Binary64.of_exact (Math_round y / inject_Z 100)).
  rewrite Hround.
  assert (ES : inject_Z K / inject_Z 100 == S).
  { rewrite <- HK. change (inject_Z 100) with 100. field. }
  assert (Hfin : Qabs (Binary64.round S) < 2 ^ 1024).
  { pose proof (round_abs S k) as Hr. rewrite (Qabs_pos S HS) in Hr.
    assert (HSk : S <= 2 ^ k) by lra. specialize (Hr HSk ltac:(lia)).
    apply Qabs_Qle_condition in Hr. destruct Hr as [_ Hr].
    assert (2 ^ (k - 53) <= 2 ^ k) by (apply pow2_le; lia).
    apply (pow2_in_range k); [lia|now apply round_nonneg|lra]. }
  rewrite of_exact_finite; rewrite (round_comp _ _ ES); [reflexivity|exact Hfin].
Qed.

(** On a list that is small enough, the total of the loop, rounded,
    is the double nearest to the exact sum. *)
Lemma precise_total (items : list entry) :
  Forall (accepted products) items ->
  Spec.within_precision cents products items ->
  let total := Spec.exact_total cents products items in
  rounded (running_total products items) = Finite (Binary64.round total) /\
  Qabs (Binary64.round total - total) <= total * 2 ^ (-53).
Proof.
  intros Hall Hsmall total.
  destruct (exact_total_cents items Hall) as (K & HK & EK). fold total in EK.
  pose proof (exact_total_nonneg items Hall) as HS. fold total in HS.
  unfold Spec.within_precision in Hsmall. fold total in Hsmall.
  set (n := inject_Z (Z.of_nat (List.length items))) in *.
  assert (Hn : 0 <= n).
  { subst n. change 0 with (inject_Z 0). rewrite <- Zle_Qle. lia. }
  assert (E42 : 2 ^ 42 == 4398046511104) by reflexivity.
  rewrite E42 in Hsmall.
  assert (HnS : 0 <= n * total) by (now apply Qmult_le_0_compat).
  destruct (pow2_cover (total + 1)) as (k & Hk0 & Hlo & Hup); [lra|].
  assert (Hk : (k < 45)%Z).
  { apply pow2_lt_inv. apply (Qlt_le_trans _ (4 * (total + 1))); [assumption|].
    assert (E45 : 2 ^ 45 == 8 * 4398046511104) by reflexivity. lra. }
  assert (Eeps : 2 ^ (k - 53) == 2 ^ k * (1 # 9007199254740992)).
  { replace (k - 53)%Z with (k + (-53))%Z by lia. rewrite pow2_plus.
    reflexivity. }
  assert (Eu : 2 ^ (-53) == 1 # 9007199254740992) by reflexivity.
  assert (HnB : n * 2 ^ k <= 4 * (n * total) + 4 * n).
  { assert (H : n * 2 ^ k <= n * (4 * (total + 1))).
    { apply Qmult_le_compat_nonneg; split; try assumption; try apply Qle_refl.
      - apply Qlt_le_weak, pow2_pos.
      - now apply Qlt_le_weak. }
    lra. }
  pose proof (pow2_pos k) as HB.
  destruct (running_precise k items ltac:(lia) Hall 0 0 0 (Qle_refl 0))
    as (s & Es & Hs & Herr).
  { discriminate. }
  { fold total. fold n. rewrite Eeps, Eu. set (B := 2 ^ k) in *. lra. }
  fold total in Herr. fold n in Herr.
  split.
  - unfold running_total. rewrite Es.
    apply (rounded_precise k s total
             (0 + total * 2 ^ (-53) + 2 * n * 2 ^ (k - 53)) K);
      try assumption; try lia.
    + rewrite Qplus_0_l in Herr. exact Herr.
    + rewrite Eeps, Eu. set (B := 2 ^ k) in *. lra.
    + rewrite Eeps, Eu. set (B := 2 ^ k) in *. lra.
  - destruct (Z.eq_dec K 0) as [E0|N0].
    + assert (Et : total == 0) by (rewrite E0 in EK; change (inject_Z 0) with 0 in EK; lra).
      rewrite (round_zero total Et), Et. discriminate.
    + apply (Qle_trans _ (Qabs total * 2 ^ (-53)));
        [|rewrite (Qabs_pos total HS); apply Qle_refl].
      apply round_rel. rewrite (Qabs_pos total HS).
      apply (Qle_trans _ (2 ^ (-7))); [apply pow2_le; lia|].
      assert (H1 : inject_Z 1 <= inject_Z K) by (rewrite <- Zle_Qle; lia).
      change (inject_Z 1) with 1 in H1.
      assert (E7 : 2 ^ (-7) == 1 # 128) by reflexivity. lra.
Qed.

Lemma passes_accepted (e : entry) :
  NoDup (map id products) -> Spec.passes products e -> accepted products e.
Proof.
  intros Hkey (p & q & [(Hs & Hq & ->) Hin] & Hstock).
  eexists _, q, p. repeat split; try assumption.
  - simpl. destruct (id p); [contradiction|reflexivity].
  - now apply lookup_stored.
Qed.

(** C1, amended.  For a signed-in caller and a non-empty item list in
    which every entry has a non-empty product reference and a positive
    integer quantity, refers to a stored product and asks for no more
    than its stock, with stored prices that are whole numbers of
    hundredths and not negative, the validator answers [valid: true],
    having looked up each entry once; and when the list is small enough
    (the number of entries plus one, times the exact sum plus one, at
    most [2 ^ 42]), the total is the sum of stored price times
    quantity: the double nearest to that sum of decimals, which is a
    whole number of hundredths. *)
Theorem valid_list_total (u : User) (items : list entry) :
  NoDup (map id products) ->
  items <> [] ->
  Forall (Spec.passes products) items ->
  let total := Spec.exact_total cents products items in
  (exists t,
     POST products {| session := Some u; body := BodyItems (Some items) |} =
     (success t, Spec.references items)) /\
  (Spec.within_precision cents products items ->
   POST products {| session := Some u; body := BodyItems (Some items) |} =
   (success (Finite (Binary64.round total)), Spec.references items) /\
   (exists K : Z, total == inject_Z K / 100) /\
   Qabs (Binary64.round total - total) <= total * 2 ^ (-53)).
Proof.
  intros Hkey Hne Hall total.
  assert (Hacc : Forall (accepted products) items).
  { apply Forall_forall. intros e He. rewrite Forall_forall in Hall.
    now apply passes_accepted, Hall. }
  rewrite (POST_accepted products u items Hne Hacc).
  split; [now eexists|]. intro Hsmall.
  destruct (precise_total items Hacc Hsmall) as [Ht Hnear].
  fold total in Ht, Hnear. rewrite Ht. split; [reflexivity|]. split; [|exact Hnear].
  destruct (exact_total_cents items Hacc) as (K & _ & EK). fold total in EK.
  exists K. rewrite <- EK. field.
Qed.

(** X11.  With stored prices that are whole numbers of hundredths, the
    total of a [valid] answer to a request that is small enough is the
    exact sum of stored price times quantity, as a double: the
    roundings of the loop and of the last line leave no trace. *)
Theorem valid_total_exact (req : Request) (t : jsnumber) (log : access_log) :
  POST products req = (success t, log) ->
  Spec.within_precision cents products (request_entries req) ->
  t = Finite (Binary64.round
                (Spec.exact_total cents products (request_entries req))).
Proof.
  intros HP Hsmall.
  destruct (POST_success_inv products req t log HP)
    as (u & items & -> & _ & Hall & _ & ->).
  change (request_entries _) with items in *.
  exact (proj1 (precise_total items Hall Hsmall)).
Qed.

Lemma exact_total_permutation (l l' : list entry) :
  Permutation l l' ->
  Spec.exact_total cents products l == Spec.exact_total cents products l'.
Proof.
  induction 1 as [|x l l' _ IH|x y l|l l' l'' _ IH1 _ IH2].
  - reflexivity.
  - rewrite !exact_total_cons, IH. reflexivity.
  - rewrite !exact_total_cons. lra.
  - now rewrite IH1.
Qed.

(** X12.  A list that is valid is valid in every order of its entries;
    the order decides which error is reported when there is one, and,
    through the roundings of the running total, it can decide the last
    digit of the total.  When the list is small enough for the total to
    be the exact sum, the total is the same in every order. *)
Theorem valid_in_any_order (u : User) (items items' : list entry)
  (t : jsnumber) (log : access_log) :
  Permutation items items' ->
  POST products {| session := Some u; body := BodyItems (Some items) |} =
  (success t, log) ->
  (exists t',
     POST products {| session := Some u; body := BodyItems (Some items') |} =
     (success t', Spec.references items')) /\
  (Spec.within_precision cents products items ->
   POST products {| session := Some u; body := BodyItems (Some items') |} =
   (success t, Spec.references items')).
Proof.
  intros Hperm HP.
  destruct (POST_success_inv products _ t log HP)
    as (u0 & l & E & Hne & Hall & _ & ->).
  injection E as <- <-.
  assert (Hne' : items' <> []).
  { intros ->. apply Permutation_sym, Permutation_nil in Hperm. contradiction. }
  assert (Hall' : Forall (accepted products) items').
  { apply Forall_forall. intros e He.
    rewrite Forall_forall in Hall. apply Hall.
    now apply (Permutation_in e (Permutation_sym Hperm)). }
  rewrite (POST_accepted products u items' Hne' Hall').
  split; [now eexists|]. intro Hsmall.
  assert (Hsmall' : Spec.within_precision cents products items').
  { unfold Spec.within_precision in *.
    rewrite <- (exact_total_permutation items items' Hperm).
    now rewrite <- (Permutation_length Hperm). }
  rewrite (proj1 (precise_total items Hall Hsmall)).
  rewrite (proj1 (precise_total items' Hall' Hsmall')).
  now rewrite (round_comp _ _ (exact_total_permutation items items' Hperm)).
Qed.

End ValidatorTotals.

(** *** On the sample data *)
Section ValidatorVerdictsExamples.
Import Validate ValidateSpec Sample.

Lemma item_accepted (p : Product) (n : Z) :
  lookup shop (JStr (id p)) = Some p -> id p <> EmptyString ->
  (0 < n)%Z -> inject_Z n <= stock p ->
  accepted shop (item (id p) (inject_Z n)).
Proof.
  intros Hl Hs Hn Hq. exists {| product_id := JStr (id p); quantity := JNum (inject_Z n) |}.
  exists (inject_Z n), p. repeat split; try assumption.
  - simpl. destruct (id p); [contradiction|reflexivity].
  - exists n. split; [assumption|reflexivity].
Qed.

Lemma p1_accepted (n : Z) :
  (0 < n <= 5)%Z -> accepted shop (item "p1" (inject_Z n)).
Proof.
  intros [H0 H5]. apply (item_accepted p1 n); [reflexivity|discriminate|assumption|].
  change (stock p1) with (inject_Z 5). now rewrite <- Zle_Qle.
Qed.

Lemma p2_accepted (n : Z) :
  (0 < n <= 3)%Z -> accepted shop (item "p2" (inject_Z n)).
Proof.
  intros [H0 H3]. apply (item_accepted p2 n); [reflexivity|discriminate|assumption|].
  change (stock p2) with (inject_Z 3). now rewrite <- Zle_Qle.
Qed.

(** The prices of the samples are the doubles nearest to whole
    numbers of hundredths. *)
Lemma shop_stored : Spec.read_as_doubles cents shop.
Proof.
  intros p [<-|[<-|[]]]; split; vm_compute; try reflexivity; discriminate.
Qed.

Lemma depot_stored : Spec.read_as_doubles cents depot.
Proof.
  intros p [<-|[<-|[<-|[<-|[<-|[]]]]]]; split; vm_compute;
    try reflexivity; discriminate.
Qed.

Lemma depot_passes (pid : string) (c n : Z) :
  In (bulk pid c) depot -> pid <> EmptyString -> (0 < n <= 3000000)%Z ->
  Spec.passes depot (item pid (inject_Z n)).
Proof.
  intros Hin Hs [H0 H3]. exists (bulk pid c), (inject_Z n).
  repeat split; try assumption.
  - exists n. split; [assumption|reflexivity].
  - change (stock (bulk pid c)) with (inject_Z 3000000). now rewrite <- Zle_Qle.
Qed.

(** The example of the specification, two units of [p1] at 100.00,
    and a list with a price that is no double, 19.99. *)
Lemma valid_list_total_witness :
  POST shop (signed_in [item "p1" 2]) = (success (Finite 200), [JStr "p1"]) /\
  POST shop (signed_in [item "p1" 2; item "p2" 3]) =
  (success (Finite (Binary64.round (25997 # 100))), [JStr "p1"; JStr "p2"]).
Proof.
  split.
  - assert (Hne : [item "p1" 2] <> []) by discriminate.
    assert (Hall : Forall (Spec.passes shop) [item "p1" 2])
      by (repeat constructor; apply (p1_passes 2); lia).
    assert (Hsmall : Spec.within_precision cents shop [item "p1" 2])
      by (vm_compute; discriminate).
    exact (proj1 (proj2 (valid_list_total shop cents shop_stored alice
                           [item "p1" 2] shop_key Hne Hall) Hsmall)).
  - assert (Hne : [item "p1" 2; item "p2" 3] <> []) by discriminate.
    assert (Hall : Forall (Spec.passes shop) [item "p1" 2; item "p2" 3])
      by (repeat constructor; [apply (p1_passes 2)|apply (p2_passes 3)]; lia).
    assert (Hsmall : Spec.within_precision cents shop [item "p1" 2; item "p2" 3])
      by (vm_compute; discriminate).
    exact (proj1 (proj2 (valid_list_total shop cents shop_stored alice
                           [item "p1" 2; item "p2" 3] shop_key Hne Hall) Hsmall)).
Defined.

(** C1, as stated, at the empty list, every entry of which qualifies:
    the validator answers 400; and at a list of one entry, 1014302
    units at 17475802.67: the exact sum is 17725741599786.34, and the
    total returned is the double nearest to 17725741599786.35. *)
Lemma empty_list_rejected :
  (Forall (Spec.passes shop) [] /\
   POST shop (signed_in []) =
   ({| status := 400; json := Error [Text "Cart is empty."] |}, []) /\
   forall t, response shop (signed_in []) <> success t) /\
  (Forall (Spec.passes depot) [item "b2" 1014302] /\
   Spec.exact_total cents depot [item "b2" 1014302] ==
   1772574159978634 # 100 /\
   POST depot (signed_in [item "b2" 1014302]) =
   (success (Finite (Binary64.round (1772574159978635 # 100))), [JStr "b2"]) /\
   Binary64.round (1772574159978635 # 100) <>
   Binary64.round (1772574159978634 # 100) /\
   ~ Spec.within_precision cents depot [item "b2" 1014302]).
Proof.
  split.
  - repeat split; [constructor|discriminate].
  - split.
    { repeat constructor.
      apply (depot_passes "b2" 1747580267 1014302);
        [simpl; tauto|discriminate|lia]. }
    split; [vm_compute; reflexivity|].
    split; [vm_compute; reflexivity|].
    split; [vm_compute; discriminate|].
    vm_compute. intro H. now apply H.
Qed.

(** 2014704 units at 8762322.96: the running total times 100 comes
    out half way between two whole numbers and is rounded up. *)
Lemma success_rounds_half_away_witness :
  exists (s y : number) (n : Z),
    running_total depot [item "b1" 2014704] = Finite s /\
    y = Binary64.round (s * 100) /\
    Spec.half_away_from_zero y n /\
    Binary64.round (1765348711680385 # 100) =
    Binary64.round (inject_Z n / 100) /\
    y = 3530697423360769 # 2.
Proof.
  assert (HP : POST depot (signed_in [item "b1" 2014704]) =
               (success (Finite (Binary64.round (1765348711680385 # 100))),
                [JStr "b1"]))
    by (vm_compute; reflexivity).
  assert (Hprice : forall p, In p depot -> 0 <= price p).
  { intros p Hp. destruct (depot_stored p Hp) as [_ ->]. apply round_nonneg.
    destruct (depot_stored p Hp) as [Hc _].
    apply Qle_shift_div_l; [reflexivity|]. rewrite Qmult_0_l.
    change 0 with (inject_Z 0). now rewrite <- Zle_Qle. }
  destruct (success_rounds_half_away depot _ _ _ HP Hprice)
    as (items & Eb & s & y & n & Hs & _ & Hy & _ & Hn & Hv).
  injection Eb as <-.
  exists s, y, n.
  split; [exact Hs|]. split; [exact Hy|]. split; [exact Hn|]. split; [exact Hv|].
  assert (Es : running_total depot [item "b1" 2014704] =
               Finite (564911587737723 # 32)) by (vm_compute; reflexivity).
  rewrite Es in Hs. injection Hs as <-. rewrite Hy. vm_compute. reflexivity.
Defined.

(** C8, as stated, at the same list: the exact sum is
    17653487116803.84, the running total is 17653487116803.84375, and
    the total returned is the double nearest to 17653487116803.85: the
    whole number of hundredths that it stands for is five eighths away
    from the running total times 100, so that it is that total rounded
    to two decimal places under neither of the two modes. *)
Lemma total_beside_nearest_hundredth :
  Spec.exact_total cents depot [item "b1" 2014704] == 1765348711680384 # 100 /\
  running_total depot [item "b1" 2014704] = Finite (564911587737723 # 32) /\
  POST depot (signed_in [item "b1" 2014704]) =
  (success (Finite (Binary64.round (1765348711680385 # 100))), [JStr "b1"]) /\
  Qabs ((564911587737723 # 32) * 100 - inject_Z 1765348711680385) == 5 # 8 /\
  ~ Spec.half_away_from_zero ((564911587737723 # 32) * 100) 1765348711680385 /\
  ~ Spec.half_to_even ((564911587737723 # 32) * 100) 1765348711680385.
Proof.
  split; [vm_compute; reflexivity|].
  split; [vm_compute; reflexivity|].
  split; [vm_compute; reflexivity|].
  split; [vm_compute; reflexivity|].
  split; intros [H _]; vm_compute in H; now apply H.
Qed.

Lemma null_entry_internal_error_witness :
  POST shop (signed_in ([item "p1" 1] ++ None :: [item "p2" 1])) =
  ({| status := 500; json := Error [Text "Internal server error."] |},
   [JStr "p1"]).
Proof.
  assert (Hpre : Forall (accepted shop) [item "p1" 1])
    by (repeat constructor; apply (p1_accepted 1); lia).
  exact (null_entry_internal_error shop alice _ [item "p2" 1] Hpre).
Defined.

(** Two entries of three units each, of a product with five in stock. *)
Lemma repeated_entry_each_checked_witness :
  POST shop (signed_in [item "p1" 3; item "p1" 3]) =
  (success (rounded (running_total shop [item "p1" 3; item "p1" 3])),
   [JStr "p1"; JStr "p1"]) /\
  rounded (running_total shop [item "p1" 3; item "p1" 3]) = Finite 600 /\
  stock p1 < 3 + 3.
Proof.
  assert (Hit : accepted shop (item "p1" 3)) by (apply (p1_accepted 3); lia).
  destruct (repeated_entry_each_checked shop alice
              {| product_id := JStr "p1"; quantity := JNum 3 |} 1 Hit) as [HP _].
  split; [exact HP|]. split; [vm_compute|]; reflexivity.
Defined.

Lemma valid_total_exact_witness :
  Finite (Binary64.round (25997 # 100)) =
  Finite (Binary64.round
            (Spec.exact_total cents shop
               (request_entries (signed_in [item "p1" 2; item "p2" 3])))).
Proof.
  assert (HP : POST shop (signed_in [item "p1" 2; item "p2" 3]) =
               (success (Finite (Binary64.round (25997 # 100))),
                [JStr "p1"; JStr "p2"]))
    by (vm_compute; reflexivity).
  assert (Hsmall : Spec.within_precision cents shop
                     (request_entries (signed_in [item "p1" 2; item "p2" 3])))
    by (vm_compute; discriminate).
  exact (valid_total_exact shop cents shop_stored _ _ _ HP Hsmall).
Defined.

Lemma valid_in_any_order_witness :
  POST shop (signed_in [item "p2" 3; item "p1" 2]) =
  (success (Finite (Binary64.round (25997 # 100))), [JStr "p2"; JStr "p1"]).
Proof.
  assert (HP : POST shop (signed_in [item "p1" 2; item "p2" 3]) =
               (success (Finite (Binary64.round (25997 # 100))),
                [JStr "p1"; JStr "p2"]))
    by (vm_compute; reflexivity).
  assert (Hperm : Permutation [item "p1" 2; item "p2" 3] [item "p2" 3; item "p1" 2])
    by apply perm_swap.
  assert (Hsmall : Spec.within_precision cents shop [item "p1" 2; item "p2" 3])
    by (vm_compute; discriminate).
  exact (proj2 (valid_in_any_order shop cents shop_stored alice _ _ _ _ Hperm HP)
           Hsmall).
Defined.

(** Beyond that precision the order can show in the last digit: three
    entries whose exact sum is 14950572735581.75, in two orders. *)
Lemma order_changes_total :
  Permutation [item "b3" 982479; item "b4" 124571; item "b5" 746881]
              [item "b3" 982479; item "b5" 746881; item "b4" 124571] /\
  response depot (signed_in [item "b3" 982479; item "b4" 124571; item "b5" 746881]) =
  success (Finite (Binary64.round (1495057273558176 # 100))) /\
  response depot (signed_in [item "b3" 982479; item "b5" 746881; item "b4" 124571]) =
  success (Finite (Binary64.round (1495057273558175 # 100))) /\
  Binary64.round (1495057273558176 # 100) <>
  Binary64.round (1495057273558175 # 100).
Proof.
  split; [apply perm_skip, perm_swap|].
  split; [vm_compute; reflexivity|].
  split; [vm_compute; reflexivity|].
  vm_compute. discriminate.
Qed.

End ValidatorVerdictsExamples.

(** ** The order writer: every run *)
Section OrderWriterBehaviour.
Import Checkout CheckoutSpec.

Variables (be : Backend) (address : Address) (items : list Cart.CartItem).

(** The three ways a run can end: nothing written; an order row
    written and its line items refused; everything written. *)
Lemma handleSubmit_outcomes :
  (exists msg, handleSubmit be address items = failed msg []) \/
  (complete address /\
   exists u new_id t,
     session be = Some u /\ orders_insert be = Some new_id /\
     Validate.response (products be) (validation_request be items) =
     Validate.success (Finite t) /\
     ((order_items_insert be = false /\
       handleSubmit be address items =
       failed [Validate.Text "Failed to save order items."] [order_for u new_id t]) \/
      (order_items_insert be = true /\
       handleSubmit be address items =
       {| error := None;
          orders_rows := [order_for u new_id t];
          order_items_rows := map (line_of new_id) items;
          cart_cleared := true;
          pushed := Some new_id |}))).
Proof.
  unfold handleSubmit, complete.
  destruct (blank (name address) || blank (street address) ||
            blank (city address) || blank (pincode address))%bool;
    [left; now eexists|].
  destruct (ok (Validate.response (products be) (validation_request be items)))
    eqn:Hok; simpl; [|left; now eexists].
  apply response_ok_iff in Hok. destruct Hok as (t & Ht). rewrite Ht. simpl.
  destruct (session be) as [u|]; [|left; now eexists].
  destruct (orders_insert be) as [new_id|]; [|left; now eexists].
  destruct t as [| |t]; [left; now eexists|left; now eexists|].
  right. split; [reflexivity|]. exists u, new_id, t. repeat split.
  destruct (order_items_insert be); simpl; [right|left]; now split.
Qed.

(** A valid answer to the page's request means a cart that is not
    empty, every entry of which was let through. *)
Lemma valid_request_entries (t : jsnumber) :
  Validate.response (products be) (validation_request be items) =
  Validate.success t ->
  items <> [] /\
  Forall (ValidateSpec.accepted (products be)) (request_items items) /\
  t = Validate.rounded
        (ValidateSpec.running_total (products be) (request_items items)).
Proof.
  unfold Validate.response. intro H.
  destruct (Validate.POST (products be) (validation_request be items))
    as [r log] eqn:HP. simpl in H. subst r.
  destruct (POST_success_inv _ _ _ _ HP) as (u & l & E & Hne & Hall & _ & Ht).
  unfold validation_request in E. injection E as _ E. subst l.
  repeat split; [|assumption|assumption].
  intros ->. now apply Hne.
Qed.

(** X13.  The page clears the cart and moves on exactly when it
    reports no error, and then everything is in place: the validator
    answered [valid], one order row was written, owned by the caller,
    pending, with the validator's total, and one line item per cart
    entry, at least one, each under that order's id. *)
Theorem cleared_means_placed :
  (cart_cleared (handleSubmit be address items) = true <->
   error (handleSubmit be address items) = None) /\
  (error (handleSubmit be address items) = None ->
   exists u new_id t,
     session be = Some u /\
     Validate.response (products be) (validation_request be items) =
     Validate.success (Finite t) /\
     orders_rows (handleSubmit be address items) = [order_for u new_id t] /\
     pushed (handleSubmit be address items) = Some new_id /\
     order_items_rows (handleSubmit be address items) = map (line_of new_id) items /\
     items <> []).
Proof.
  destruct handleSubmit_outcomes
    as [(msg & ->)|(_ & u & new_id & t & Hs & _ & Ht & [[_ ->]|[_ ->]])]; simpl.
  - split; [split; discriminate|discriminate].
  - split; [split; discriminate|discriminate].
  - split; [split; reflexivity|]. intros _. exists u, new_id, t.
    repeat split; try assumption. now apply (valid_request_entries (Finite t)).
Qed.

(** X14.  When the validator answers with an error, the page shows the
    validator's message, writes nothing and keeps the cart. *)
Theorem validator_error_surfaces (msg : Validate.template) :
  complete address ->
  Validate.json (Validate.response (products be) (validation_request be items)) =
  Validate.Error msg ->
  handleSubmit be address items = failed msg [].
Proof.
  unfold complete, handleSubmit. intros -> Hmsg.
  destruct (ok (Validate.response (products be) (validation_request be items)))
    eqn:Hok; simpl.
  - apply response_ok_iff in Hok. destruct Hok as (t & Ht).
    rewrite Ht in Hmsg. discriminate.
  - now rewrite Hmsg.
Qed.

(** X15.  An order row is left without line items exactly when the
    address is complete, there is a session, the validator answers
    [valid] with a finite total, the first insert is accepted and the
    second is refused; the page then reports that failure and keeps the
    cart, and the row stays, with the validator's total. *)
Theorem orphan_order_iff :
  ((orders_rows (handleSubmit be address items) <> [] /\
    order_items_rows (handleSubmit be address items) = []) <->
   (complete address /\
    order_items_insert be = false /\
    exists u new_id t,
      session be = Some u /\ orders_insert be = Some new_id /\
      Validate.response (products be) (validation_request be items) =
      Validate.success (Finite t))) /\
  (forall u new_id t,
     complete address ->
     order_items_insert be = false ->
     session be = Some u -> orders_insert be = Some new_id ->
     Validate.response (products be) (validation_request be items) =
     Validate.success (Finite t) ->
     handleSubmit be address items =
     failed [Validate.Text "Failed to save order items."] [order_for u new_id t]).
Proof.
  assert (Hif : forall u new_id t,
             complete address ->
             order_items_insert be = false ->
             session be = Some u -> orders_insert be = Some new_id ->
             Validate.response (products be) (validation_request be items) =
             Validate.success (Finite t) ->
             handleSubmit be address items =
             failed [Validate.Text "Failed to save order items."]
                    [order_for u new_id t]).
  { intros u new_id t Hc Hi Hs Ho Ht. unfold handleSubmit.
    unfold complete in Hc. rewrite Hc, Ht, Hs, Ho, Hi. reflexivity. }
  split; [|exact Hif]. split.
  - intros [Hrows Hitems].
    destruct handleSubmit_outcomes
      as [(msg & E)|(Hc & u & new_id & t & Hs & Ho & Ht & [[Hi E]|[Hi E]])].
    + rewrite E in Hrows. now contradiction Hrows.
    + repeat split; try assumption. now exists u, new_id, t.
    + rewrite E in Hitems. simpl in Hitems.
      destruct (valid_request_entries (Finite t) Ht) as (Hne & _).
      destruct items; [now contradiction Hne|discriminate Hitems].
  - intros (Hc & Hi & u & new_id & t & Hs & Ho & Ht).
    rewrite (Hif u new_id t Hc Hi Hs Ho Ht). simpl.
    split; [discriminate|reflexivity].
Qed.

(** X17.  Every line item that is written went through the validator:
    it names a product that the lookup finds, and its quantity is a
    positive integer within the stock found, whatever the snapshot in
    the cart says; its price, in contrast, is the snapshot's. *)
Theorem line_items_validated (r : order_items.row) :
  In r (order_items_rows (handleSubmit be address items)) ->
  (exists p,
     Validate.lookup (products be) (Validate.JStr (order_items.product_id r)) =
     Some p /\
     Spec.positive_integer (order_items.quantity r) /\
     order_items.quantity r <= stock p) /\
  (exists i, In i items /\
     order_items.product_id r = id (Cart.product i) /\
     order_items.quantity r = Cart.quantity i /\
     order_items.price r = price (Cart.product i)).
Proof.
  destruct handleSubmit_outcomes
    as [(msg & ->)|(_ & u & new_id & t & _ & _ & Ht & [[_ ->]|[_ ->]])]; simpl;
    try (intros []).
  intro Hin. apply in_map_iff in Hin. destruct Hin as (i & <- & Hi).
  split; [|exists i; now repeat split].
  destruct (valid_request_entries (Finite t) Ht) as (_ & Hall & _).
  rewrite Forall_forall in Hall.
  assert (Hacc : ValidateSpec.accepted (products be)
                   (Some {| Validate.product_id := Validate.JStr (id (Cart.product i));
                            Validate.quantity := Validate.JNum (Cart.quantity i) |})).
  { apply Hall. unfold request_items. apply in_map_iff. now exists i. }
  destruct Hacc as (it & q & p & E & _ & Hq & Hpos & Hl & Hs).
  injection E as <-. simpl in *. injection Hq as <-.
  exists p. now repeat split.
Qed.

End OrderWriterBehaviour.

(** ** The order writer on a cart of fresh snapshots *)
Section FreshCart.
Import Checkout CheckoutSpec.

Variables (be : Backend) (address : Address) (items : list Cart.CartItem).

Hypothesis primary_key : NoDup (map id (products be)).

Lemma fresh_accepted (i : Cart.CartItem) :
  fresh (products be) i ->
  ValidateSpec.accepted (products be)
    (Some {| Validate.product_id := Validate.JStr (id (Cart.product i));
             Validate.quantity := Validate.JNum (Cart.quantity i) |}) /\
  forall acc,
    ValidateSpec.step (products be) acc
      (Some {| Validate.product_id := Validate.JStr (id (Cart.product i));
               Validate.quantity := Validate.JNum (Cart.quantity i) |}) =
    Binary64.plus acc
      (Binary64.times (Finite (price (Cart.product i)))
                      (Finite (Cart.quantity i))).
Proof.
  intros (Hin & Hid & Hq & Hs).
  pose proof (lookup_stored (products be) primary_key _ Hin) as Hl.
  split.
  - eexists _, (Cart.quantity i), (Cart.product i). repeat split; try assumption.
    simpl. destruct (id (Cart.product i)); [contradiction|reflexivity].
  - intro acc. unfold ValidateSpec.step. cbv beta iota. rewrite Hl. reflexivity.
Qed.

(** The loop of the validator and the provider of the cart add up the
    same products in the same order. *)
Lemma fresh_request (l : list Cart.CartItem) :
  Forall (fresh (products be)) l ->
  Forall (ValidateSpec.accepted (products be)) (request_items l) /\
  forall acc,
    fold_left (ValidateSpec.step (products be)) (request_items l) acc =
    fold_left (fun s i =>
                 Binary64.plus s
                   (Binary64.times (Finite (price (Cart.product i)))
                                   (Finite (Cart.quantity i))))
              l acc.
Proof.
  induction 1 as [|i l Hi _ (IH1 & IH2)].
  - split; [constructor|reflexivity].
  - destruct (fresh_accepted i Hi) as [Hacc Hstep]. split.
    + now constructor.
    + intro acc.
      change (request_items (i :: l)) with
        (Some {| Validate.product_id := Validate.JStr (id (Cart.product i));
                 Validate.quantity := Validate.JNum (Cart.quantity i) |}
         :: request_items l).
      cbn [fold_left]. now rewrite Hstep, IH2.
Qed.

(** X16.  With a complete address, a session, both inserts accepted,
    and a cart that is not empty and holds fresh snapshots only, the
    total that the validator answers with is the total that the cart
    shows, put through [Math.round(x * 100) / 100]: validator and cart
    add up the same products in the same order, in binary64 both.  The
    order is placed with that total when it is finite, with one line
    item per entry at the price of the snapshot, which is the stored
    one; when it is not finite, no order is placed.  With stored prices
    in whole hundredths and a cart that is small enough, the total is
    the double nearest to the sum of decimal price times quantity over
    the line items: order total and line items agree. *)
Theorem fresh_cart_order_consistent (u : Validate.User) (new_id : string) :
  complete address ->
  session be = Some u ->
  orders_insert be = Some new_id ->
  order_items_insert be = true ->
  items <> [] ->
  Forall (fresh (products be)) items ->
  let total := Validate.rounded (Cart.total {| Cart.items := items |}) in
  Validate.response (products be) (validation_request be items) =
  Validate.success total /\
  (forall t, total = Finite t ->
     handleSubmit be address items =
     {| error := None;
        orders_rows := [order_for u new_id t];
        order_items_rows := map (line_of new_id) items;
        cart_cleared := true;
        pushed := Some new_id |}) /\
  ((forall t, total <> Finite t) ->
   handleSubmit be address items =
   failed [Validate.Text "Failed to create order. Please try again."] []) /\
  (forall cents : Product -> Z,
     Spec.read_as_doubles cents (products be) ->
     Spec.within_precision cents (products be) (request_items items) ->
     total = Finite (Binary64.round
                       (Spec.exact_total cents (products be)
                          (request_items items)))).
Proof.
  intros Hc Hs Ho Hi Hne Hall total.
  destruct (fresh_request items Hall) as (Hacc & Hrun).
  assert (Etot : total =
                 Validate.rounded
                   (ValidateSpec.running_total (products be) (request_items items))).
  { unfold ValidateSpec.running_total. now rewrite Hrun. }
  assert (Hres : Validate.response (products be) (validation_request be items) =
                 Validate.success total).
  { unfold Validate.response, validation_request. rewrite Hs.
    rewrite POST_accepted;
      [|destruct items; [now contradiction Hne|discriminate]|exact Hacc].
    simpl. now rewrite Etot. }
  split; [exact Hres|]. unfold handleSubmit. unfold complete in Hc.
  rewrite Hc, Hres, Hs, Ho, Hi. simpl. split; [|split].
  - intros t ->. reflexivity.
  - intro Hnot. destruct total as [| |t]; try reflexivity.
    now contradiction (Hnot t).
  - intros cents stored Hsmall. rewrite Etot.
    exact (proj1 (precise_total (products be) cents stored _ Hacc Hsmall)).
Qed.

End FreshCart.

(** *** On the sample data *)
Section OrderWriterExamples.
Import Checkout CheckoutSpec.

Lemma validator_error_surfaces_witness :
  handleSubmit Sample.backend Sample.home greedy_cart =
  failed (error_or (Validate.json
                      (Validate.insufficient_stock Sample.p1 (Validate.JNum 10)))
                   "Validation failed.") [].
Proof.
  assert (Hc : complete Sample.home) by reflexivity.
  assert (Hmsg : Validate.json
                   (Validate.response (products Sample.backend)
                      (validation_request Sample.backend greedy_cart)) =
                 Validate.Error
                   (error_or (Validate.json
                                (Validate.insufficient_stock Sample.p1
                                   (Validate.JNum 10)))
                             "Validation failed.")) by reflexivity.
  exact (validator_error_surfaces Sample.backend Sample.home greedy_cart _ Hc Hmsg).
Defined.

(** A field that holds a no-break space only (U+00A0, in UTF-8 the
    bytes C2 A0) is blank, as [trim] takes it away. *)
Lemma no_break_space_blank (be : Backend) (items : list Cart.CartItem) :
  let nbsp := String (ascii_of_nat 194) (String (ascii_of_nat 160) EmptyString) in
  blank nbsp = true /\
  trim (nbsp ++ " Jane Doe" ++ nbsp) = "Jane Doe" /\
  handleSubmit be
    {| name := nbsp; street := "123 Main St"; city := "Mumbai";
       pincode := "400001" |} items =
  failed [Validate.Text "Please fill in all address fields."] [].
Proof.
  repeat split; reflexivity.
Qed.

(** The cart of fresh snapshots, the line items being refused. *)
Lemma orphan_order_iff_witness :
  handleSubmit refusing_items Sample.home fresh_cart =
  failed [Validate.Text "Failed to save order items."]
         [order_for Sample.alice "o1" (Binary64.round (25997 # 100))] /\
  orders_rows (handleSubmit refusing_items Sample.home fresh_cart) <> [] /\
  order_items_rows (handleSubmit refusing_items Sample.home fresh_cart) = [].
Proof.
  assert (Hc : complete Sample.home) by reflexivity.
  assert (Ht : Validate.response (products refusing_items)
                 (validation_request refusing_items fresh_cart) =
               Validate.success (Finite (Binary64.round (25997 # 100))))
    by (vm_compute; reflexivity).
  destruct (orphan_order_iff refusing_items Sample.home fresh_cart)
    as [Hiff Hfailed].
  split.
  - exact (Hfailed Sample.alice "o1" _ Hc eq_refl eq_refl eq_refl Ht).
  - apply Hiff. split; [exact Hc|]. split; [reflexivity|].
    exists Sample.alice, "o1", (Binary64.round (25997 # 100)).
    split; [reflexivity|]. split; [reflexivity|exact Ht].
Defined.

Lemma line_items_validated_witness :
  exists p,
    Validate.lookup Sample.shop (Validate.JStr "p1") = Some p /\
    Spec.positive_integer 2 /\ 2 <= stock p.
Proof.
  assert (Hin : In {| order_items.order_id := "o1";
                      order_items.product_id := "p1";
                      order_items.quantity := 2;
                      order_items.price := 50 |}
                   (order_items_rows
                      (handleSubmit Sample.backend Sample.home Sample.stale_cart)))
    by (vm_compute; left; reflexivity).
  exact (proj1 (line_items_validated Sample.backend Sample.home Sample.stale_cart
                  _ Hin)).
Defined.

Lemma fresh_cart_order_consistent_witness :
  handleSubmit Sample.backend Sample.home fresh_cart =
  {| error := None;
     orders_rows := [order_for Sample.alice "o1" (Binary64.round (25997 # 100))];
     order_items_rows := map (line_of "o1") fresh_cart;
     cart_cleared := true;
     pushed := Some "o1" |}.
Proof.
  assert (Hkey : NoDup (map id (products Sample.backend))) by exact shop_key.
  assert (Hc : complete Sample.home) by reflexivity.
  assert (Hne : fresh_cart <> []) by discriminate.
  assert (Hall : Forall (fresh (products Sample.backend)) fresh_cart).
  { constructor; [|constructor; [|constructor]].
    - repeat split; [now left|discriminate| |discriminate].
      exists 2%Z. split; [lia|reflexivity].
    - repeat split; [right; now left|discriminate| |discriminate].
      exists 3%Z. split; [lia|reflexivity]. }
  destruct (fresh_cart_order_consistent Sample.backend Sample.home fresh_cart
              Hkey Sample.alice "o1" Hc eq_refl eq_refl eq_refl Hne Hall)
    as (_ & Hplaced & _ & Hexact).
  apply Hplaced. apply (Hexact Sample.cents shop_stored).
  vm_compute. discriminate.
Defined.

End OrderWriterExamples.

(** ** The route guard *)
Section RouteGuard.
Import Middleware.

Lemma prefix_app (p s : string) :
  String.prefix p s = true <-> exists rest, s = (p ++ rest)%string.
Proof.
  revert s. induction p as [|a p IH]; intro s.
  - simpl. destruct s; split; intros _; try reflexivity; now eexists.
  - destruct s as [|b s]; simpl.
    + split; [discriminate|intros (rest & E); discriminate].
    + destruct (ascii_dec a b) as [->|Hab].
      * rewrite IH. split; intros (rest & E); exists rest.
        -- now rewrite E.
        -- now injection E.
      * split; [discriminate|]. intros (rest & E). injection E as E _.
        now contradiction Hab.
Qed.

Lemma startsWith_nil (s : string) : startsWith s EmptyString = true.
Proof. now destruct s. Qed.

Lemma guarded_cases (pathname : string) :
  guarded pathname ->
  exists rest,
    pathname = ("/admin" ++ rest)%string \/
    pathname = ("/cart" ++ rest)%string \/
    pathname = ("/checkout" ++ rest)%string \/
    pathname = ("/orders" ++ rest)%string.
Proof.
  intros (p & Hp & Hs). apply prefix_app in Hs. destruct Hs as (rest & ->).
  exists rest. simpl in Hp. destruct Hp as [<-|[<-|[<-|[<-|[]]]]]; tauto.
Qed.

(** X18.  A caller without a session gets through to no path under
    /cart, /checkout, /orders or /admin: the guard runs on each such
    path and sends the caller to the login page, remembering the path
    for the first three, without reading any profile. *)
Theorem guard_stops_anonymous (table : list profiles.row) (pathname : string) :
  guarded pathname ->
  matches pathname = true /\
  snd (middleware table None pathname) = [] /\
  exists nxt,
    fst (middleware table None pathname) = redirect "/auth/login" nxt /\
    (existsb (startsWith pathname) AUTH_REQUIRED = true -> nxt = Some pathname).
Proof.
  intro Hg. destruct (guarded_cases pathname Hg) as (rest & [-> | [-> | [-> | ->]]]);
    (split; [reflexivity|]); unfold middleware; simpl;
    rewrite ?startsWith_nil; simpl; (split; [reflexivity|]); eexists;
    (split; [reflexivity|]); intro H; try reflexivity; discriminate H.
Qed.

Lemma guard_stops_anonymous_witness :
  fst (middleware staff None "/checkout") =
  redirect "/auth/login" (Some "/checkout") /\
  matches "/checkout" = true.
Proof.
  assert (Hg : guarded "/checkout")
    by (exists "/checkout"; split; [simpl; tauto|reflexivity]).
  destruct (guard_stops_anonymous staff "/checkout" Hg) as (Hm & _ & nxt & Hr & Hn).
  rewrite Hr, (Hn eq_refl). now split.
Defined.

Lemma select_role_admin (table : list profiles.row) (u : Validate.User) :
  is_admin_role (select_role table (Validate.uid u)) = true <-> admin table u.
Proof.
  unfold select_role, admin, Validate.single.
  destruct (filter (fun r => String.eqb (profiles.id r) (Validate.uid u)) table)
    as [|r [|r' l]]; simpl.
  - split; [discriminate|]. intros (r & E & _). discriminate.
  - rewrite String.eqb_eq. split.
    + intro H. now exists r.
    + intros (r0 & E & H). now injection E as <-.
  - split; [discriminate|]. intros (r0 & E & _). discriminate.
Qed.

Lemma admin_path_middleware (table : list profiles.row) (u : Validate.User)
  (rest : string) :
  middleware table (Some u) ("/admin" ++ rest) =
  (if is_admin_role (select_role table (Validate.uid u))
   then next else redirect "/" None,
   [Validate.uid u]).
Proof.
  unfold middleware. simpl. rewrite startsWith_nil. simpl.
  now destruct (is_admin_role (select_role table (Validate.uid u))).
Qed.

(** X19.  Under /admin the guard lets a caller through exactly when
    there is a session and the caller's one row in [profiles] has the
    role admin; any other signed-in caller is sent to the home page.
    The profile read is the caller's own. *)
Theorem admin_area_admins_only (table : list profiles.row)
  (user : option Validate.User) (pathname : string) :
  startsWith pathname "/admin" = true ->
  (fst (middleware table user pathname) = next <->
   exists u, user = Some u /\ admin table u) /\
  (forall u, user = Some u ->
     snd (middleware table user pathname) = [Validate.uid u] /\
     (~ admin table u -> fst (middleware table user pathname) = redirect "/" None)).
Proof.
  intro Hs. apply prefix_app in Hs. destruct Hs as (rest & ->).
  destruct user as [u|].
  - rewrite admin_path_middleware. simpl.
    destruct (is_admin_role (select_role table (Validate.uid u))) eqn:E.
    + apply select_role_admin in E. split.
      * split; [intros _; now exists u|reflexivity].
      * intros u0 Hu. injection Hu as <-. split; [reflexivity|]. now intros [].
    + split.
      * split; [discriminate|]. intros (u0 & Hu & Ha). injection Hu as <-.
        apply select_role_admin in Ha. congruence.
      * intros u0 Hu. injection Hu as <-. now split.
  - unfold middleware. simpl. rewrite startsWith_nil. simpl. split.
    + split; [discriminate|]. intros (u0 & Hu & _). discriminate.
    + intros u0 Hu. discriminate.
Qed.

Lemma admin_area_admins_only_witness :
  fst (middleware staff (Some {| Validate.uid := "u0" |}) "/admin/products") = next /\
  fst (middleware staff (Some {| Validate.uid := "u1" |}) "/admin/products") =
  redirect "/" None.
Proof.
  assert (Hs : startsWith "/admin/products" "/admin" = true) by reflexivity.
  split.
  - apply (proj1 (admin_area_admins_only staff _ "/admin/products" Hs)).
    eexists. split; [reflexivity|]. eexists. split; reflexivity.
  - apply (proj2 (admin_area_admins_only staff _ "/admin/products" Hs)
             {| Validate.uid := "u1" |} eq_refl).
    intros (r & E & Hr). injection E as <-. discriminate Hr.
Defined.

(** Where the guard sends callers: to the login page those without a
    session, to the home page those with one. *)
Lemma redirect_targets (table : list profiles.row)
  (user : option Validate.User) (pathname target : string) (nxt : option string) :
  fst (middleware table user pathname) = redirect target nxt ->
  (user = None /\ target = "/auth/login") \/
  (exists u, user = Some u /\ target = "/").
Proof.
  unfold middleware.
  generalize (existsb (startsWith pathname) AUTH_REQUIRED).
  generalize (startsWith pathname "/admin").
  generalize (includes AUTH_EXCLUDED pathname).
  intros excluded admin_path required.
  destruct user as [u|].
  - generalize (is_admin_role (select_role table (Validate.uid u))). intro is_admin.
    destruct required, admin_path, excluded, is_admin; simpl;
      intro H; inversion H; subst; right; exists u; split; reflexivity.
  - destruct required, admin_path, excluded; simpl;
      intro H; inversion H; subst; left; split; reflexivity.
Qed.

(** X20.  A redirect of the guard never leads to another: the page
    that a caller is sent to is one the guard runs on and lets that
    same caller through, reading no profile. *)
Theorem redirects_settle (table : list profiles.row)
  (user : option Validate.User) (pathname target : string) (nxt : option string) :
  fst (middleware table user pathname) = redirect target nxt ->
  middleware table user target = (next, []) /\ matches target = true.
Proof.
  intro H. destruct (redirect_targets table user pathname target nxt H)
    as [[-> ->]|(u & -> & ->)]; split; reflexivity.
Qed.

Lemma redirects_settle_witness :
  middleware staff None "/auth/login" = (next, []) /\
  matches "/auth/login" = true.
Proof.
  assert (H : fst (middleware staff None "/orders/42") =
              redirect "/auth/login" (Some "/orders/42")) by reflexivity.
  exact (redirects_settle staff None "/orders/42" "/auth/login" _ H).
Defined.

(** X21.  A signed-in caller is never sent to the login page: the
    guard lets them through or sends them home.  Outside /admin it
    lets them through everywhere except on the login and signup pages,
    from which it sends them home, and it reads no profile there. *)
Theorem signed_in_passes (table : list profiles.row) (u : Validate.User)
  (pathname : string) :
  (fst (middleware table (Some u) pathname) = next \/
   fst (middleware table (Some u) pathname) = redirect "/" None) /\
  (startsWith pathname "/admin" = false ->
   middleware table (Some u) pathname =
   (if includes AUTH_EXCLUDED pathname then redirect "/" None else next, []) /\
   (includes AUTH_EXCLUDED pathname = true <->
    pathname = "/auth/login" \/ pathname = "/auth/signup")).
Proof.
  split.
  - unfold middleware.
    generalize (existsb (startsWith pathname) AUTH_REQUIRED).
    generalize (startsWith pathname "/admin").
    generalize (includes AUTH_EXCLUDED pathname).
    generalize (is_admin_role (select_role table (Validate.uid u))).
    intros [] [] [] []; simpl; tauto.
  - intro Hs. unfold middleware. rewrite Hs. simpl signed_in.
    rewrite andb_false_r, andb_true_r. split.
    + now destruct (includes AUTH_EXCLUDED pathname).
    + unfold includes, AUTH_EXCLUDED. simpl. rewrite !orb_true_iff, !String.eqb_eq.
      split; [intros [H|[H|H]]|intros [H|H]]; try tauto. discriminate.
Qed.

Lemma signed_in_passes_witness :
  middleware staff (Some Sample.alice) "/auth/login" = (redirect "/" None, []) /\
  middleware staff (Some Sample.alice) "/cart" = (next, []).
Proof.
  split.
  - exact (proj1 (proj2 (signed_in_passes staff Sample.alice "/auth/login") eq_refl)).
  - exact (proj1 (proj2 (signed_in_passes staff Sample.alice "/cart") eq_refl)).
Defined.

End RouteGuard.

(** ** The policies *)
Section SchemaPolicies.
Import Schema.

Variables (db : Db) (uid : auth_uid).

Lemma is_uid_true (x : string) : is_uid x uid = true <-> uid = Some x.
Proof.
  unfold is_uid. destruct uid as [u|]; [|split; discriminate].
  rewrite String.eqb_eq. split; [now intros ->|now intros [= ->]].
Qed.

Lemma exists_admin_iff :
  exists_admin db uid = true <->
  exists r, In r (profiles_t db) /\ uid = Some (profiles.id r) /\
            profiles.role r = "admin".
Proof.
  unfold exists_admin, visible. rewrite existsb_exists. split.
  - intros (r & Hin & H). apply filter_In in Hin. destruct Hin as [Hin _].
    apply andb_true_iff in H. destruct H as [Hid Hrole].
    exists r. repeat split; [assumption|now apply is_uid_true|now apply String.eqb_eq].
  - intros (r & Hin & Hid & Hrole). exists r. apply is_uid_true in Hid. split.
    + apply filter_In. split; [assumption|]. unfold can_select. simpl.
      now rewrite Hid.
    + rewrite Hid. now apply String.eqb_eq in Hrole; rewrite Hrole.
Qed.

Lemma in_own_orders_iff (order_id : string) :
  in_own_orders db uid order_id = true <->
  exists o, In o (orders_t db) /\ orders.id o = order_id /\
            uid = Some (orders.user_id o).
Proof.
  unfold in_own_orders, visible. rewrite existsb_exists. split.
  - intros (o & Hin & H). apply filter_In in Hin. destruct Hin as [Hin _].
    apply andb_true_iff in H. destruct H as [Hid Hu].
    exists o. repeat split; [assumption|now apply String.eqb_eq|now apply is_uid_true].
  - intros (o & Hin & Hid & Hu). exists o. apply is_uid_true in Hu. split.
    + apply filter_In. split; [assumption|]. unfold can_select. simpl.
      now rewrite Hu.
    + rewrite Hu. apply String.eqb_eq in Hid. now rewrite Hid.
Qed.

Lemma products_policies_eval (p p' : Product) :
  can_select products_policies db uid p = true /\
  can_insert products_policies db uid p = exists_admin db uid /\
  can_update products_policies db uid p p' = exists_admin db uid /\
  can_delete products_policies db uid p = exists_admin db uid.
Proof.
  unfold can_select, can_insert, can_update, can_delete. simpl.
  now destruct (exists_admin db uid).
Qed.

(** X22.  Anyone, signed in or not, may read any product; inserting,
    updating and deleting a product are admitted exactly when the
    caller has a profile row of their own with the role admin. *)
Theorem product_writes_admin_only (p p' : Product) :
  can_select products_policies db uid p = true /\
  ((can_insert products_policies db uid p = true \/
    can_update products_policies db uid p p' = true \/
    can_delete products_policies db uid p = true) ->
   exists r, In r (profiles_t db) /\ uid = Some (profiles.id r) /\
             profiles.role r = "admin") /\
  ((exists r, In r (profiles_t db) /\ uid = Some (profiles.id r) /\
              profiles.role r = "admin") ->
   can_insert products_policies db uid p = true /\
   can_update products_policies db uid p p' = true /\
   can_delete products_policies db uid p = true).
Proof.
  destruct (products_policies_eval p p') as (Hs & -> & -> & ->).
  rewrite <- exists_admin_iff. split; [exact Hs|]. split.
  - now intros [H|[H|H]].
  - now intros ->.
Qed.

(** X24.  An order may be read by its owner and by admins, inserted
    by the caller it names as owner only, updated by its owner or an
    admin provided the new row is still the caller's or the caller is
    an admin, and is deleted by no one; the policies put no condition
    on the other columns, so an owner may rewrite the total and the
    status of an order of theirs. *)
Theorem orders_access (o o' : orders.row) :
  (can_select orders_policies db uid o = true <->
   uid = Some (orders.user_id o) \/ exists_admin db uid = true) /\
  (can_insert orders_policies db uid o = true <-> uid = Some (orders.user_id o)) /\
  (can_update orders_policies db uid o o' = true <->
   (uid = Some (orders.user_id o) \/ exists_admin db uid = true) /\
   (uid = Some (orders.user_id o') \/ exists_admin db uid = true)) /\
  can_delete orders_policies db uid o = false.
Proof.
  unfold can_select, can_insert, can_update, can_delete. simpl.
  rewrite <- !is_uid_true.
  destruct (is_uid (orders.user_id o) uid), (is_uid (orders.user_id o') uid),
    (exists_admin db uid); simpl; intuition discriminate.
Qed.

(** X25.  A line item may be inserted exactly when its order id is
    that of an order of the caller's, whatever its product, quantity
    and price, admins included; it may be read by that caller and by
    admins; and no one may update or delete it. *)
Theorem order_items_access (r r' : order_items.row) :
  (can_insert order_items_policies db uid r = true <->
   exists o, In o (orders_t db) /\ orders.id o = order_items.order_id r /\
             uid = Some (orders.user_id o)) /\
  (can_select order_items_policies db uid r = true <->
   (exists o, In o (orders_t db) /\ orders.id o = order_items.order_id r /\
              uid = Some (orders.user_id o)) \/
   exists_admin db uid = true) /\
  can_update order_items_policies db uid r r' = false /\
  can_delete order_items_policies db uid r = false.
Proof.
  unfold can_select, can_insert, can_update, can_delete. simpl.
  rewrite <- in_own_orders_iff.
  destruct (in_own_orders db uid (order_items.order_id r)),
    (exists_admin db uid); simpl; intuition discriminate.
Qed.

End SchemaPolicies.

Section SelfPromotion.
Import Schema.

(** X23.  The row that the signup trigger creates has the role user,
    and the policies admit its owner changing that role to admin: the
    row is one the owner may read, and the update passes USING and
    WITH CHECK of the one UPDATE policy of [profiles] and the CHECK of
    the table.  With the changed row in
    place the caller passes every admin test: product writes are
    admitted, and the route guard opens /admin. *)
Theorem signup_row_self_promotes (db : Db) (NEW : auth_user) :
  let r := handle_new_user NEW in
  let uid := Some (new_id NEW) in
  profiles.role r = "user" /\
  can_select profiles_policies db uid r = true /\
  can_update profiles_policies db uid r (set_role "admin" r) = true /\
  profiles_check (set_role "admin" r) = true /\
  (forall db' p p',
     In (set_role "admin" r) (profiles_t db') ->
     can_insert products_policies db' uid p = true /\
     can_update products_policies db' uid p p' = true /\
     can_delete products_policies db' uid p = true) /\
  (forall table rest,
     filter (fun x => String.eqb (profiles.id x) (new_id NEW)) table =
     [set_role "admin" r] ->
     fst (Middleware.middleware table (Some {| Validate.uid := new_id NEW |})
            ("/admin" ++ rest)) = Middleware.next).
Proof.
  intros r uid. split; [reflexivity|]. split.
  { unfold can_select. simpl. now rewrite String.eqb_refl. }
  split.
  { unfold can_update. simpl. now rewrite String.eqb_refl. }
  split; [reflexivity|]. split.
  - intros db' p p' Hin.
    destruct (products_policies_eval db' uid p p') as (_ & -> & -> & ->).
    assert (Ha : exists_admin db' uid = true).
    { apply exists_admin_iff. exists (set_role "admin" r). now repeat split. }
    now rewrite Ha.
  - intros table rest Hf.
    rewrite admin_path_middleware. simpl.
    assert (Ha : Middleware.is_admin_role
                   (Middleware.select_role table (new_id NEW)) = true).
    { apply (select_role_admin table {| Validate.uid := new_id NEW |}).
      exists (set_role "admin" r). now split. }
    simpl in Ha. now rewrite Ha.
Qed.

End SelfPromotion.

(** ** The order writer against the schema *)
Section PlacedOrderAdmitted.
Import Checkout CheckoutSpec Schema.

Lemma half_away_nonneg (y : number) (n : Z) :
  0 <= y -> Spec.half_away_from_zero y n -> (0 <= n)%Z.
Proof.
  intros Hy [Hnear _]. apply Qabs_Qle_condition in Hnear.
  destruct Hnear as [_ Hhi].
  assert (Hn : inject_Z (-1) < inject_Z n)
    by (change (inject_Z (-1)) with (-(1)); lra).
  rewrite <- Zlt_Qlt in Hn. lia.
Qed.

(** [Math.round(x * 100) / 100] of a total that is not negative is
    not negative. *)
Lemma rounded_nonneg (x : jsnumber) :
  ValidateSpec.nonneg x -> ValidateSpec.nonneg (Validate.rounded x).
Proof.
  destruct x as [|negative|s]; simpl.
  - intros [].
  - intros ->. reflexivity.
  - intro Hs.
    destruct (rounded_finite s Hs) as [->|(y & n & _ & Hy & Hn & ->)];
      [reflexivity|].
    simpl. apply round_nonneg.
    pose proof (half_away_nonneg y n Hy Hn) as H0.
    apply Qle_shift_div_l; [reflexivity|]. rewrite Qmult_0_l.
    change 0 with (inject_Z 0). rewrite <- Zle_Qle. exact H0.
Qed.

Variables (be : Backend) (address : Address) (items : list Cart.CartItem).
Variable db : Db.

(** X26.  When the page reports no error and the stored products
    satisfy their CHECK, what it has written is admitted by the schema
    for the caller: the order row passes the owner-insert policy and
    the CHECK of [orders] (its total is not negative, its status is
    pending); every line item passes the owner-insert policy once the
    order row is there, names a stored product, and has a quantity
    above zero; whether it passes the CHECK of [order_items] then hangs
    on the price of the cart's snapshot alone. *)
Theorem placed_rows_admitted :
  error (handleSubmit be address items) = None ->
  (forall p, In p (products be) -> products_check p = true) ->
  exists u order,
    session be = Some u /\
    orders_rows (handleSubmit be address items) = [order] /\
    can_insert orders_policies db (Some (Validate.uid u)) order = true /\
    orders_check order = true /\
    Forall (fun r =>
              can_insert order_items_policies (with_order db order)
                (Some (Validate.uid u)) r = true /\
              (exists p, In p (products be) /\ id p = order_items.product_id r) /\
              0 < order_items.quantity r /\
              (order_items_check r = true <-> 0 <= order_items.price r))
           (order_items_rows (handleSubmit be address items)).
Proof.
  intros Herr Hck.
  destruct (handleSubmit_outcomes be address items)
    as [(msg & E)|(_ & u & new_id & t & Hs & _ & Ht & [[_ E]|[_ E]])];
    rewrite E in Herr; try discriminate Herr.
  rewrite E. simpl. clear E Herr.
  destruct (valid_request_entries be items (Finite t) Ht) as (_ & Hall & Htot).
  assert (Hprice : forall p, In p (products be) -> 0 <= price p).
  { intros p Hp. apply Hck in Hp. unfold products_check in Hp.
    apply andb_true_iff in Hp. now apply Qle_bool_iff. }
  exists u, (order_for u new_id t). repeat split.
  - exact Hs.
  - unfold can_insert. simpl. now rewrite String.eqb_refl.
  - unfold orders_check. simpl. rewrite andb_true_r. apply Qle_bool_iff.
    change (ValidateSpec.nonneg (Finite t)). rewrite Htot.
    apply rounded_nonneg.
    apply (running_nonneg (products be) _ Hprice Hall). apply Qle_refl.
  - apply Forall_forall. intros r Hr. apply in_map_iff in Hr.
    destruct Hr as (i & <- & Hi).
    rewrite Forall_forall in Hall.
    assert (Hacc : ValidateSpec.accepted (products be)
                     (Some {| Validate.product_id := Validate.JStr (id (Cart.product i));
                              Validate.quantity := Validate.JNum (Cart.quantity i) |})).
    { apply Hall. unfold request_items. apply in_map_iff. now exists i. }
    destruct Hacc as (it & q & p & Eit & _ & Hq & (n & Hn & En) & Hl & _).
    injection Eit as <-. simpl in *. injection Hq as <-.
    assert (Hpos : 0 < Cart.quantity i).
    { rewrite En. change 0 with (inject_Z 0). rewrite <- Zlt_Qlt. lia. }
    repeat split.
    + unfold can_insert. simpl. rewrite orb_false_r.
      apply in_own_orders_iff. exists (order_for u new_id t).
      repeat split. now left.
    + destruct (lookup_in _ _ _ Hl) as [Hin Hid]. exists p. split; [assumption|].
      now injection Hid.
    + exact Hpos.
    + unfold order_items_check. simpl. intro H. apply andb_true_iff in H.
      now apply Qle_bool_iff.
    + unfold order_items_check. simpl. intro H. apply andb_true_iff. split.
      * now apply Qlt_bool_iff.
      * now apply Qle_bool_iff.
Qed.

End PlacedOrderAdmitted.

Section PlacedOrderAdmittedExample.
Import Checkout CheckoutSpec Schema.

Lemma placed_rows_admitted_witness :
  exists u order,
    session Sample.backend = Some u /\
    orders_rows (handleSubmit Sample.backend Sample.home fresh_cart) = [order] /\
    can_insert orders_policies sample_db (Some (Validate.uid u)) order = true /\
    orders_check order = true.
Proof.
  assert (Herr : error (handleSubmit Sample.backend Sample.home fresh_cart) = None)
    by (vm_compute; reflexivity).
  assert (Hck : forall p, In p (products Sample.backend) -> products_check p = true)
    by (intros p [<-|[<-|[]]]; reflexivity).
  destruct (placed_rows_admitted Sample.backend Sample.home fresh_cart sample_db
              Herr Hck) as (u & order & Hs & Ho & Hi & Hc & _).
  exists u, order.
  split; [exact Hs|]. split; [exact Ho|]. split; [exact Hi|exact Hc].
Defined.

End PlacedOrderAdmittedExample.

(** ** The admin product form *)
Section AdminForm.
Import AdminProductForm AdminSubmit.

Lemma digit_not_sign (c : ascii) (r : string) :
  is_digit c = true -> sign_of (String c r) = (false, String c r).
Proof.
  destruct c as [[] [] [] [] [] [] [] []]; try discriminate; reflexivity.
Qed.

Lemma trimStart_space (w s : string) :
  all_space w -> trimStart (w ++ s) = trimStart s.
Proof.
  unfold all_space. induction w as [|c w IH]; intro H; [reflexivity|].
  simpl in H. inversion H as [|? ? Hc Hw]; subst.
  change (String c w ++ s)%string with (String c (w ++ s)%string).
  cbn [trimStart]. rewrite Hc. now apply IH.
Qed.

(** A digit starts no white space, of one byte or more. *)
Lemma trimStart_digit (c : ascii) (r : string) :
  is_digit c = true -> trimStart (String c r) = String c r.
Proof.
  destruct c as [[] [] [] [] [] [] [] []]; try discriminate; intros _;
    destruct r as [|b [|c' r'']]; reflexivity.
Qed.

Lemma digits_run (d t : string) :
  all_digits d -> no_digit_ahead t ->
  forall acc len,
    digits (d ++ t) acc len =
    (fold_left (fun a c => (10 * a + digit_value c)%Z) (list_ascii_of_string d) acc,
     (len + String.length d)%nat, t).
Proof.
  unfold all_digits. intros Hd Ht.
  induction d as [|c d IH]; intros acc len.
  - simpl. rewrite Nat.add_0_r. destruct t as [|c t]; [reflexivity|].
    simpl in *. now rewrite Ht.
  - simpl in Hd. inversion Hd as [|? ? Hc Hd']; subst. simpl. rewrite Hc.
    rewrite (IH Hd'). f_equal. f_equal. lia.
Qed.

Lemma decimal_value_nonneg (l : list ascii) (acc : Z) :
  (0 <= acc)%Z ->
  (0 <= fold_left (fun a c => (10 * a + digit_value c)%Z) l acc)%Z.
Proof.
  revert acc. induction l as [|c l IH]; intros acc H; [assumption|].
  cbn [fold_left]. apply IH. unfold digit_value.
  pose proof (Zle_0_nat (nat_of_ascii c - 48)). lia.
Qed.

(** A run of [n] digits stands for a number below [10 ^ n]. *)
Lemma decimal_value_bound (l : list ascii) (acc : Z) :
  Forall (fun c => is_digit c = true) l ->
  (fold_left (fun a c => (10 * a + digit_value c)%Z) l acc
   < (acc + 1) * 10 ^ Z.of_nat (List.length l))%Z.
Proof.
  intro Hl. revert acc. induction Hl as [|c l Hc _ IH]; intro acc.
  - simpl. lia.
  - cbn [fold_left List.length]. specialize (IH (10 * acc + digit_value c)%Z).
    rewrite Nat2Z.inj_succ, Z.pow_succ_r by lia.
    assert (Hd : (digit_value c <= 9)%Z).
    { unfold is_digit in Hc. apply andb_true_iff in Hc. destruct Hc as [_ Hc].
      apply Nat.leb_le in Hc. unfold digit_value. lia. }
    assert (Hp : (0 < 10 ^ Z.of_nat (List.length l))%Z)
      by (apply Z.pow_pos_nonneg; lia).
    nia.
Qed.

Lemma parseInt_run (w d t : string) :
  all_space w -> all_digits d -> d <> EmptyString ->
  (String.length d <= 15)%nat -> no_digit_ahead t ->
  parseInt (w ++ d ++ t) = Finite (inject_Z (decimal_value d)).
Proof.
  intros Hw Hd Hne Hlen Ht. unfold parseInt. rewrite (trimStart_space w _ Hw).
  assert (Hexact : Binary64.of_exact (inject_Z (decimal_value d)) =
                   Finite (inject_Z (decimal_value d))).
  { apply of_exact_Z; [reflexivity|].
    pose proof (decimal_value_nonneg (list_ascii_of_string d) 0 (Z.le_refl 0)) as H0.
    pose proof (decimal_value_bound (list_ascii_of_string d) 0 Hd) as Hlt.
    fold (decimal_value d) in H0, Hlt.
    assert (Hl : List.length (list_ascii_of_string d) = String.length d).
    { clear. induction d as [|c d IH]; [reflexivity|]. simpl. now rewrite IH. }
    rewrite Hl in Hlt.
    assert (Hpow : (10 ^ Z.of_nat (String.length d) <= 10 ^ 15)%Z)
      by (apply Z.pow_le_mono_r; lia).
    assert (E15 : (10 ^ 15 < 2 ^ 53)%Z) by reflexivity.
    rewrite Z.abs_eq by assumption. lia. }
  destruct d as [|c d]; [contradiction|].
  assert (Hc : is_digit c = true) by (inversion Hd; assumption).
  change (String c d ++ t)%string with (String c (d ++ t)%string).
  rewrite (trimStart_digit c _ Hc), (digit_not_sign c _ Hc).
  change (String c (d ++ t)%string) with (String c d ++ t)%string.
  rewrite (digits_run _ _ Hd Ht).
  change (fold_left (fun a c0 => (10 * a + digit_value c0)%Z)
            (list_ascii_of_string (String c d)) 0%Z)
    with (decimal_value (String c d)).
  cbn [Nat.add String.length]. exact Hexact.
Qed.

(** Numerals beyond the range of the doubles, and below it. *)
Lemma parseFloat_range :
  parseFloat "1e400" = Infinity false /\
  parseFloat "-1e400" = Infinity true /\
  parseFloat "1.7976931348623157e308" = Finite (inject_Z (2 ^ 1024 - 2 ^ 971)) /\
  parseFloat "1e-400" = Finite 0 /\
  parseFloat "0.1" = Finite (3602879701896397 # 36028797018963968) /\
  parseInt "9007199254740993" = Finite 9007199254740992.
Proof.
  repeat split; vm_compute; reflexivity.
Qed.

(** X28.  The stock field is read up to its first character that is
    not a digit: after leading white space, a run of digits (of up to
    15, which a double holds exactly) is taken for the stock whatever
    follows it, a decimal point and more digits included, and the form
    goes on to send that whole number. *)
Theorem stock_tail_ignored (product : option Product)
  (respond : request -> option string) (form : FormFields) (w d t : string) :
  isNaN (parseFloat (price form)) = false ->
  negative_number (parseFloat (price form)) = false ->
  stock form = (w ++ d ++ t)%string ->
  all_space w -> all_digits d -> d <> EmptyString ->
  (String.length d <= 15)%nat ->
  no_digit_ahead t ->
  exists call,
    sent (handleSubmit product respond form) = Some call /\
    payload.stock (values_of call) = Finite (inject_Z (decimal_value d)).
Proof.
  intros Hnan Hneg Hstock Hw Hd Hne Hlen Ht.
  assert (H0 : (0 <= decimal_value d)%Z) by (now apply decimal_value_nonneg).
  assert (Hlt : negative_number (Finite (inject_Z (decimal_value d))) = false).
  { simpl. apply Qlt_bool_false_iff. change 0 with (inject_Z 0).
    now rewrite <- Zle_Qle. }
  assert (Hint : isInteger (Finite (inject_Z (decimal_value d))) = true).
  { simpl. unfold Number_isInteger. rewrite Qfloor_Z. apply Qeq_bool_iff. reflexivity. }
  unfold handleSubmit.
  rewrite Hnan, Hneg, Hstock, (parseInt_run w d t Hw Hd Hne Hlen Ht), Hlt, Hint.
  cbn [orb negb isNaN].
  destruct product as [p|];
    match goal with
    | |- context [respond ?c] => destruct (respond c); eexists; split; reflexivity
    end.
Qed.

Lemma stock_tail_ignored_witness :
  exists call,
    sent (handleSubmit None (fun _ => None) sample_form) = Some call /\
    payload.stock (values_of call) = Finite (inject_Z 7).
Proof.
  assert (Hd : all_digits "7") by (repeat constructor).
  assert (Hw : all_space EmptyString) by constructor.
  assert (Hne : "7" <> EmptyString) by discriminate.
  assert (Hlen : (String.length "7" <= 15)%nat) by (simpl; lia).
  assert (Ht : no_digit_ahead ".9") by reflexivity.
  assert (Hnan : isNaN (parseFloat (price sample_form)) = false)
    by (vm_compute; reflexivity).
  assert (Hneg : negative_number (parseFloat (price sample_form)) = false)
    by (vm_compute; reflexivity).
  exact (stock_tail_ignored None (fun _ => None) sample_form EmptyString "7" ".9"
           Hnan Hneg eq_refl Hw Hd Hne Hlen Ht).
Defined.

(** X27.  Whatever the form holds, a call that it makes carries the
    fields as they are read: name, description and category trimmed,
    the price as [parseFloat] and the stock as [parseInt] read them,
    and for the image URL null when the field is blank once trimmed and
    the trimmed field otherwise.  The stock is a whole number not below
    zero and the price a number not below zero (plus infinity
    included), so that the values, when the price is finite, satisfy
    the CHECK of [products]; the call is an update of the product being
    edited when there is one and an insert otherwise; and the page
    moves on exactly when the backend reports no error, whose message
    it shows as it is otherwise. *)
Theorem sent_values_checked (product : option Product)
  (respond : request -> option string) (form : FormFields) (call : request) :
  sent (handleSubmit product respond form) = Some call ->
  let v := values_of call in
  (payload.name v = trim (name form) /\
   payload.description v = trim (description form) /\
   payload.category v = trim (category form) /\
   payload.price v = parseFloat (price form) /\
   payload.stock v = parseInt (stock form)) /\
  ((trim (image_url form) = EmptyString -> payload.image_url v = None) /\
   (trim (image_url form) <> EmptyString ->
    payload.image_url v = Some (trim (image_url form))) /\
   payload.image_url v <> Some EmptyString) /\
  (exists n q, (0 <= n)%Z /\ payload.stock v = Finite q /\ q == inject_Z n) /\
  (payload.price v = Infinity false \/
   exists q, 0 <= q /\ payload.price v = Finite q) /\
  (forall pid pname pq sq,
     payload.price v = Finite pq -> payload.stock v = Finite sq ->
     Schema.products_check (mkProduct pid pname pq sq) = true) /\
  call = match product with
         | Some p => update v (id p)
         | None => insert v
         end /\
  error (handleSubmit product respond form) = respond call /\
  (pushed (handleSubmit product respond form) = true <-> respond call = None).
Proof.
  unfold handleSubmit.
  destruct (isNaN (parseFloat (price form)) ||
            negative_number (parseFloat (price form)))%bool eqn:Hp;
    [discriminate|].
  destruct (isNaN (parseInt (stock form)) ||
            negative_number (parseInt (stock form)) ||
            negb (isInteger (parseInt (stock form))))%bool eqn:Hs;
    [discriminate|].
  apply orb_false_iff in Hp. destruct Hp as [Hp1 Hp2].
  apply orb_false_iff in Hs. destruct Hs as [Hs12 Hs3].
  apply orb_false_iff in Hs12. destruct Hs12 as [Hs1 Hs2].
  apply negb_false_iff in Hs3.
  set (values := {| payload.name := trim (name form);
                    payload.description := trim (description form);
                    payload.price := parseFloat (price form);
                    payload.stock := parseInt (stock form);
                    payload.image_url := or_null (trim (image_url form));
                    payload.category := trim (category form) |}).
  set (c := match product with
            | Some p => update values (id p)
            | None => insert values
            end).
  assert (Hv : values_of c = values) by (subst c; now destruct product).
  assert (Hstock : exists n q, (0 <= n)%Z /\ parseInt (stock form) = Finite q /\
                               q == inject_Z n).
  { destruct (parseInt (stock form)) as [| |q]; try discriminate.
    simpl in Hs2, Hs3. unfold Number_isInteger in Hs3.
    apply Qeq_bool_iff in Hs3. apply Qlt_bool_false_iff in Hs2.
    exists (Qfloor q), q. repeat split; [|now symmetry].
    rewrite <- Hs3 in Hs2. change 0 with (inject_Z 0) in Hs2.
    now rewrite <- Zle_Qle in Hs2. }
  assert (Hprice : parseFloat (price form) = Infinity false \/
                   exists q, 0 <= q /\ parseFloat (price form) = Finite q).
  { destruct (parseFloat (price form)) as [|[]|q]; try discriminate.
    - now left.
    - right. exists q. split; [|reflexivity]. now apply Qlt_bool_false_iff. }
  assert (Hblank : trim (image_url form) = EmptyString ->
                   or_null (trim (image_url form)) = None)
    by (now intros ->).
  assert (Hfilled : trim (image_url form) <> EmptyString ->
                    or_null (trim (image_url form)) = Some (trim (image_url form)))
    by (now destruct (trim (image_url form))).
  assert (Hnull : or_null (trim (image_url form)) <> Some EmptyString)
    by (now destruct (trim (image_url form))).
  assert (Hcheck : forall pid pname pq sq,
             parseFloat (price form) = Finite pq ->
             parseInt (stock form) = Finite sq ->
             Schema.products_check (mkProduct pid pname pq sq) = true).
  { intros pid pname pq sq Epq Esq. unfold Schema.products_check. simpl.
    destruct Hprice as [Hinf|(q & Hq & Eq)]; [congruence|].
    destruct Hstock as (n & q' & Hn & Eq' & Hq').
    rewrite Eq in Epq. injection Epq as <-. rewrite Eq' in Esq. injection Esq as <-.
    apply andb_true_iff. split; apply Qle_bool_iff; [assumption|].
    rewrite Hq'. change 0 with (inject_Z 0). now rewrite <- Zle_Qle. }
  fold values. fold c.
  destruct (respond c) as [message|] eqn:Hr; cbn [sent error pushed]; intro E;
    injection E as <-; cbv zeta; rewrite Hr, !Hv;
    cbn [payload.name payload.description payload.category payload.price
         payload.stock payload.image_url values];
    (split; [repeat split|]);
    (split; [split; [exact Hblank|split; [exact Hfilled|exact Hnull]]|]);
    (split; [exact Hstock|]); (split; [exact Hprice|]);
    (split; [exact Hcheck|]); (split; [reflexivity|]);
    (split; [reflexivity|]); split; intro H; try reflexivity; discriminate H.
Qed.

Lemma sent_values_checked_witness :
  exists call,
    sent (handleSubmit None (fun _ => None) sample_form) = Some call /\
    payload.name (values_of call) = "Lamp" /\
    payload.image_url (values_of call) = None.
Proof.
  assert (H : sent (handleSubmit None (fun _ => None) sample_form) =
              Some (insert
                {| payload.name := "Lamp"; payload.description := "Desk lamp";
                   payload.price := Finite (25 # 2); payload.stock := Finite 7;
                   payload.image_url := None; payload.category := "Home" |}))
    by (vm_compute; reflexivity).
  destruct (sent_values_checked None (fun _ => None) sample_form _ H)
    as ((Hname & _) & (Hblank & _) & _).
  eexists. split; [exact H|]. split.
  - rewrite Hname. vm_compute. reflexivity.
  - apply Hblank. vm_compute. reflexivity.
Defined.

End AdminForm.

(** ** The cart and the checkout together *)
Section CartToCheckout.
Import Cart CartSpec.

Variable products : list Product.
Hypothesis primary_key : NoDup (map id products).

Lemma same_id_same_row (p p' : Product) :
  In p products -> In p' products -> id p = id p' -> p = p'.
Proof.
  intros Hp Hp' E.
  pose proof (lookup_stored products primary_key p Hp) as L.
  pose proof (lookup_stored products primary_key p' Hp') as L'.
  rewrite E in L. congruence.
Qed.

Lemma reducer_within_stock (s : State) (a : Action) :
  within_stock products (items s) ->
  match a with
  | ADD p _ => In p products
  | HYDRATE its => within_stock products its
  | _ => True
  end ->
  within_stock products (items (reducer s a)).
Proof.
  unfold within_stock. intros Hs Ha.
  assert (Hfilter : forall f, Forall (fun i => In (product i) products /\
                                         quantity i <= stock (product i))
                                     (filter f (items s))).
  { intro f. apply Forall_forall. intros i Hi. apply filter_In in Hi.
    rewrite Forall_forall in Hs. now apply Hs. }
  destruct a as [p q|pid|pid n| |its]; simpl.
  - destruct (find (has_id (id p)) (items s)) as [j|] eqn:F.
    + apply Forall_forall. intros i' Hi'. apply in_map_iff in Hi'.
      destruct Hi' as (i & <- & Hi). rewrite Forall_forall in Hs.
      destruct (Hs i Hi) as [Hin Hq].
      destruct (has_id (id p) i) eqn:E; [|now split].
      simpl. split; [assumption|]. apply has_id_true in E.
      rewrite (same_id_same_row _ _ Hin Ha E). apply Math_min_le_r.
    + apply Forall_app. split; [assumption|]. constructor; [|constructor].
      simpl. split; [assumption|apply Math_min_le_r].
  - apply Hfilter.
  - destruct (Qle_bool n 0); simpl; [apply Hfilter|].
    apply Forall_forall. intros i' Hi'. apply in_map_iff in Hi'.
    destruct Hi' as (i & <- & Hi). rewrite Forall_forall in Hs.
    destruct (Hs i Hi) as [Hin Hq].
    destruct (has_id pid i); [|now split].
    simpl. split; [assumption|apply Math_min_le_r].
  - constructor.
  - exact Ha.
Qed.

(** The loop on the entries of such a cart returns no stock conflict. *)
Lemma no_conflict_in_loop (l : list CartItem) :
  within_stock products l ->
  forall acc log r log',
    Validate.validate_items products (Checkout.request_items l) acc log =
    (Validate.Returned r, log') ->
    Validate.status r <> 409%Z.
Proof.
  unfold within_stock. induction 1 as [|i l [Hin Hq] _ IH]; intros acc log r log' H.
  - discriminate.
  - change (Checkout.request_items (i :: l)) with
      (Some {| Validate.product_id := Validate.JStr (id (product i));
               Validate.quantity := Validate.JNum (quantity i) |}
       :: Checkout.request_items l) in H.
    destruct (Validate.checked_quantity
                {| Validate.product_id := Validate.JStr (id (product i));
                   Validate.quantity := Validate.JNum (quantity i) |})
      as [q|] eqn:Hck.
    + rewrite (validate_cons_checked _ _ _ _ _ _ Hck) in H.
      destruct (checked_quantity_some _ _ Hck) as [Eq _]. simpl in Eq.
      injection Eq as <-. simpl Validate.product_id in H.
      rewrite (lookup_stored products primary_key _ Hin) in H.
      apply Qlt_bool_false_iff in Hq. rewrite Hq in H. now apply IH in H.
    + rewrite (validate_cons_rejected _ _ _ _ _ Hck) in H.
      injection H as <- _. discriminate.
Qed.

(** X30.  The clamping of the cart does its job as long as its
    snapshots are the stored rows: adding stored products, removing,
    setting quantities and clearing keep every entry at a stored row
    and within the stock of that row, and for such a cart the
    validator never answers with a stock conflict. *)
Theorem clamped_cart_never_conflicts (s : State) (a : Action) :
  within_stock products (items s) ->
  match a with
  | ADD p _ => In p products
  | HYDRATE its => within_stock products its
  | _ => True
  end ->
  within_stock products (items (reducer s a)) /\
  forall session,
    Validate.status
      (Validate.response products
         {| Validate.session := session;
            Validate.body :=
              Validate.BodyItems
                (Some (Checkout.request_items (items (reducer s a)))) |})
    <> 409%Z.
Proof.
  intros Hs Ha. pose proof (reducer_within_stock s a Hs Ha) as Hw.
  split; [exact Hw|]. intro session. unfold Validate.response.
  destruct session as [u|]; [|discriminate].
  destruct (items (reducer s a)) as [|i l] eqn:El; [discriminate|].
  rewrite POST_items by discriminate.
  destruct (Validate.validate_items products (Checkout.request_items (i :: l))
              (Finite 0) [])
    as [[t|r|] log] eqn:Hrun; simpl; try discriminate.
  exact (no_conflict_in_loop (i :: l) Hw _ _ _ _ Hrun).
Qed.

End CartToCheckout.

Section ZeroQuantity.
Import Checkout CheckoutSpec.

Variables (be : Backend) (address : Address).
Hypothesis primary_key : NoDup (map id (products be)).

(** X29.  An entry of quantity below 1 in the cart, such as the entry
    of quantity 0 that adding a sold-out product leaves, blocks the
    checkout of the whole cart: with fresh entries before it, the
    validator answers 400, and the page shows "Invalid item in cart.",
    writes nothing and keeps the cart. *)
Theorem low_quantity_blocks_checkout (u : Validate.User)
  (pre post : list Cart.CartItem) (i : Cart.CartItem) :
  complete address ->
  session be = Some u ->
  Forall (fresh (products be)) pre ->
  Cart.quantity i < 1 ->
  handleSubmit be address (pre ++ i :: post) =
  failed [Validate.Text "Invalid item in cart."] [].
Proof.
  intros Hc Hs Hpre Hq.
  destruct (fresh_request be primary_key pre Hpre) as (Hacc & _).
  assert (Hck : Validate.checked_quantity
                  {| Validate.product_id := Validate.JStr (id (Cart.product i));
                     Validate.quantity := Validate.JNum (Cart.quantity i) |} = None).
  { unfold Validate.checked_quantity. simpl.
    destruct (id (Cart.product i)); [reflexivity|]. simpl.
    apply Qlt_bool_iff in Hq. rewrite Hq. now rewrite orb_true_r. }
  assert (Hres : Validate.response (products be)
                   (validation_request be (pre ++ i :: post)) =
                 Validate.invalid_item).
  { unfold Validate.response, validation_request, request_items.
    rewrite Hs, map_app. simpl map.
    rewrite POST_items by (now destruct (map _ pre)).
    pose proof (validate_accepted (products be) _
                  (Some {| Validate.product_id := Validate.JStr (id (Cart.product i));
                           Validate.quantity := Validate.JNum (Cart.quantity i) |}
                   :: request_items post) Hacc (Finite 0) []) as Hrun.
    unfold request_items in Hrun. rewrite Hrun.
    now rewrite (validate_cons_rejected _ _ _ _ _ Hck). }
  unfold handleSubmit. unfold complete in Hc. rewrite Hc, Hres. reflexivity.
Qed.

End ZeroQuantity.

Section CartToCheckoutExamples.
Import Checkout CheckoutSpec.

Lemma clamped_cart_never_conflicts_witness :
  Validate.status
    (Validate.response Sample.shop
       {| Validate.session := Some Sample.alice;
          Validate.body :=
            Validate.BodyItems
              (Some (request_items
                       (Cart.items (Cart.reducer CartSpec.two_products
                                      (Cart.ADD Sample.p1 (Some 9)))))) |})
  <> 409%Z.
Proof.
  assert (Hs : CartSpec.within_stock Sample.shop (Cart.items CartSpec.two_products)).
  { repeat constructor; simpl; try tauto; discriminate. }
  assert (Ha : In Sample.p1 Sample.shop) by (now left).
  exact (proj2 (clamped_cart_never_conflicts Sample.shop shop_key
                  CartSpec.two_products (Cart.ADD Sample.p1 (Some 9)) Hs Ha)
           (Some Sample.alice)).
Defined.

(** The fresh cart, after a sold-out product was added to it. *)
Lemma low_quantity_blocks_checkout_witness :
  handleSubmit Sample.backend Sample.home
    (Cart.items (Cart.addItem {| Cart.items := fresh_cart |} Sample.sold_out None)) =
  failed [Validate.Text "Invalid item in cart."] [].
Proof.
  assert (Hkey : NoDup (map id (products Sample.backend))) by exact shop_key.
  assert (Hc : complete Sample.home) by reflexivity.
  assert (Hpre : Forall (fresh (products Sample.backend)) fresh_cart).
  { constructor; [|constructor; [|constructor]].
    - repeat split; [now left|discriminate| |discriminate].
      exists 2%Z. split; [lia|reflexivity].
    - repeat split; [right; now left|discriminate| |discriminate].
      exists 3%Z. split; [lia|reflexivity]. }
  assert (Hq : Cart.quantity {| Cart.product := Sample.sold_out;
                                Cart.quantity := Math_min 1 0 |} < 1)
    by reflexivity.
  change (Cart.items (Cart.addItem {| Cart.items := fresh_cart |}
                        Sample.sold_out None))
    with (fresh_cart ++ [ {| Cart.product := Sample.sold_out;
                             Cart.quantity := Math_min 1 0 |} ]).
  exact (low_quantity_blocks_checkout Sample.backend Sample.home Hkey Sample.alice
           fresh_cart [] _ Hc eq_refl Hpre Hq).
Defined.

End CartToCheckoutExamples.
